(** * refacto-ai: the scan-and-document pipeline

    A shallow embedding of [src/app/services/scanner.py] (class
    [CodeScanner]) and [src/app/services/documenter.py] (class
    [DocumentationGenerator]), with the properties of the specification
    stated over it.

    Conventions of the embedding.
    - A Python [str] is a [string]; a character is an [ascii], read as the
      code point of the same number (the Latin-1 range, 0 to 255).  The
      character classes of [str.strip], [str.splitlines], [str.lower] and of
      the [re] module are given on that range.
    - A Python [int] is a [Z]; list indices follow Python (negative indices
      count from the end, out of range raises [IndexError]).
    - A Python exception is a value of [exn]; code that can raise returns a
      [result].
    - Library functions whose code is not part of the repository
      ([ast.parse], [inspect.cleandoc], [ast.get_source_segment], the base64
      decoder, the chat completion call) are variables of a section. *)

From Stdlib Require Import ZArith String Ascii List Lia Bool Sorted.
From stdpp Require Import gmap strings list.

Import ListNotations.
Set Warnings "-register-all".
Local Open Scope string_scope.
Local Open Scope Z_scope.

(** ** Exceptions *)

(** The exceptions the code of the repository raises by itself, and
    [OtherError], by the name of its class, for what a service it calls may
    raise. *)
Inductive exn : Type :=
| SyntaxError
| IndexError
| KeyError
| AttributeError
| OtherError (cls : string).

Inductive result (A : Type) : Type :=
| Ok (a : A)
| Raise (e : exn).

Arguments Ok {A} a.
Arguments Raise {A} e.

#[global] Instance result_ret : MRet result := fun A a => Ok a.

#[global] Instance result_bind : MBind result := fun A B f m =>
  match m with
  | Ok a => f a
  | Raise e => Raise e
  end.

(** ** Python strings *)

Module Py.

Definition chr (n : nat) : ascii := ascii_of_nat n.
Definition ord (c : ascii) : nat := nat_of_ascii c.

(** Characters that cannot be written inside a literal. *)
Definition LF : string := String (chr 10) "".
Definition DQ : string := String (chr 34) "".

(** [Py_UNICODE_ISSPACE] on the Latin-1 range: TAB, LF, VT, FF, CR, the
    separators FS, GS, RS, US, the space, NEL and the no-break space. *)
Definition isspace (c : ascii) : bool :=
  let n := ord c in
  ((9 <=? n) && (n <=? 13) || (28 <=? n) && (n <=? 31) || (n =? 32)
   || (n =? 133) || (n =? 160))%nat.

(** [Py_UNICODE_ISLINEBREAK] on the Latin-1 range: LF, VT, FF, CR, FS, GS,
    RS and NEL. *)
Definition islinebreak (c : ascii) : bool :=
  let n := ord c in
  ((10 <=? n) && (n <=? 13) || (28 <=? n) && (n <=? 30) || (n =? 133))%nat.

(** [Py_UNICODE_ISALNUM] on the Latin-1 range: the ASCII digits and letters,
    the letters and numerics of Latin-1. *)
Definition isalnum (c : ascii) : bool :=
  let n := ord c in
  ((48 <=? n) && (n <=? 57) || (65 <=? n) && (n <=? 90)
   || (97 <=? n) && (n <=? 122)
   || (n =? 170) || (n =? 178) || (n =? 179) || (n =? 181) || (n =? 185)
   || (n =? 186) || (188 <=? n) && (n <=? 190)
   || (192 <=? n) && (n <=? 214) || (216 <=? n) && (n <=? 246)
   || (248 <=? n) && (n <=? 255))%nat.

(** [str.lower] on one character: A to Z and the capital letters of
    Latin-1 (all of 192 to 222 but the multiplication sign). *)
Definition lower_char (c : ascii) : ascii :=
  let n := ord c in
  if ((65 <=? n) && (n <=? 90)
      || (192 <=? n) && (n <=? 222) && negb (n =? 215))%nat
  then chr (n + 32) else c.

Fixpoint lower (s : string) : string :=
  match s with
  | EmptyString => EmptyString
  | String c s' => String (lower_char c) (lower s')
  end.

(** [s.lstrip()] *)
Fixpoint lstrip (s : string) : string :=
  match s with
  | EmptyString => EmptyString
  | String c s' => if isspace c then lstrip s' else s
  end.

(** [s.rstrip()]: [None] stands for "only white space from here on". *)
Fixpoint rstrip_go (s : string) : option string :=
  match s with
  | EmptyString => None
  | String c s' =>
      match rstrip_go s' with
      | Some t => Some (String c t)
      | None => if isspace c then None else Some (String c EmptyString)
      end
  end.

Definition rstrip (s : string) : string :=
  match rstrip_go s with
  | Some t => t
  | None => EmptyString
  end.

(** [s.strip()] *)
Definition strip (s : string) : string := rstrip (lstrip s).

(** [len(s)] *)
Definition len (s : string) : nat := String.length s.

(** [c * n] for a one-character string [c] *)
Fixpoint repeat_char (c : ascii) (n : nat) : string :=
  match n with
  | O => EmptyString
  | S n' => String c (repeat_char c n')
  end.

(** [s.splitlines()]: [line] is the text read since the last line
    boundary; CR LF is one boundary; a final boundary opens no empty
    line. *)
Fixpoint splitlines_from (line : string) (s : string) : list string :=
  match s with
  | EmptyString =>
      match line with
      | EmptyString => []
      | _ => [line]
      end
  | String c s' =>
      if islinebreak c then
        match s' with
        | String c' s'' =>
            if ((ord c =? 13) && (ord c' =? 10))%nat
            then line :: splitlines_from EmptyString s''
            else line :: splitlines_from EmptyString s'
        | EmptyString => line :: splitlines_from EmptyString s'
        end
      else splitlines_from (line ++ String c EmptyString) s'
  end.

Definition splitlines (s : string) : list string :=
  splitlines_from EmptyString s.

(** A text without line boundary. *)
Fixpoint no_break (s : string) : bool :=
  match s with
  | EmptyString => true
  | String c s' => negb (islinebreak c) && no_break s'
  end.

(** [sep.join(l)] *)
Fixpoint join (sep : string) (l : list string) : string :=
  match l with
  | [] => EmptyString
  | [x] => x
  | x :: l' => x ++ sep ++ join sep l'
  end.

(** [s.count(c)] for a one-character string [c] *)
Fixpoint count_char (c : ascii) (s : string) : nat :=
  match s with
  | EmptyString => O
  | String c' s' =>
      if Ascii.eqb c' c then S (count_char c s') else count_char c s'
  end.

(** [s.replace(c, new)] for a one-character string [c] *)
Fixpoint replace_char (c : ascii) (new : string) (s : string) : string :=
  match s with
  | EmptyString => EmptyString
  | String c' s' =>
      if Ascii.eqb c' c then new ++ replace_char c new s'
      else String c' (replace_char c new s')
  end.

(** [s.rfind(c)] for a one-character string [c]; -1 when absent. *)
Fixpoint rfind_char (c : ascii) (s : string) : Z :=
  match s with
  | EmptyString => -1
  | String c' s' =>
      let r := rfind_char c s' in
      if 0 <=? r then r + 1
      else if Ascii.eqb c' c then 0 else -1
  end.

(** [s.replace(old, new)] for a non-empty [old]: the occurrences of [old]
    from left to right, none overlapping another; [skip] counts the
    characters of the last occurrence still to pass over. *)
Fixpoint replace_from (old new : string) (skip : nat) (s : string) : string :=
  match s with
  | EmptyString => EmptyString
  | String c s' =>
      match skip with
      | S skip' => replace_from old new skip' s'
      | O =>
          if String.prefix old s
          then new ++ replace_from old new (len old - 1) s'
          else String c (replace_from old new O s')
      end
  end.

Definition replace (old new s : string) : string := replace_from old new O s.

(** [s.isascii()] *)
Fixpoint isascii (s : string) : bool :=
  match s with
  | EmptyString => true
  | String c s' => (ord c <? 128)%nat && isascii s'
  end.

(** [s[:n]] and [s[n:]] for [0 <= n] *)
Fixpoint take (n : nat) (s : string) : string :=
  match n, s with
  | S n', String c s' => String c (take n' s')
  | _, _ => EmptyString
  end.

Fixpoint drop (n : nat) (s : string) : string :=
  match n, s with
  | S n', String _ s' => drop n' s'
  | _, _ => s
  end.

(** [l[i]] on a list: negative indices count from the end. *)
Definition getitem {A : Type} (l : list A) (i : Z) : result A :=
  let n := Z.of_nat (List.length l) in
  let j := if i <? 0 then i + n else i in
  if (0 <=? j) && (j <? n) then
    match nth_error l (Z.to_nat j) with
    | Some x => Ok x
    | None => Raise IndexError
    end
  else Raise IndexError.

(** [l.insert(i, x)]: the index is clamped to [0 .. len(l)]. *)
Definition list_insert {A : Type} (l : list A) (i : Z) (x : A) : list A :=
  let n := Z.of_nat (List.length l) in
  let j := if i <? 0 then Z.max 0 (i + n) else Z.min i n in
  firstn (Z.to_nat j) l ++ x :: skipn (Z.to_nat j) l.

End Py.

(** ** Data model

    [FileAnalysis] comes from [app/models.py], which is not among the
    sources; its fields are the ones the scanner and the documenter read and
    write. *)

Inductive Language : Type := python | javascript | typescript.

#[global] Instance Language_eq_dec : EqDecision Language.
Proof. solve_decision. Defined.

(** The value of an item's ['type'] key. *)
Inductive kind : Type := function | class.

#[global] Instance kind_eq_dec : EqDecision kind.
Proof. solve_decision. Defined.

(** The dictionaries appended to [undocumented_items]; ['code'] is [None]
    when [ast.get_source_segment] gives none. *)
Record UndocumentedItem : Type := mkItem {
  type : kind;
  name : string;
  line : Z;
  code : option string
}.

(** Modelled from the spec: the record [FileAnalysis] of [app/models.py]
    (section 3 of the specification); [language] is [None] where the
    constructor call leaves it out. *)
Record FileAnalysis : Type := mkAnalysis {
  path : string;
  language : option Language;
  needs_docs : bool;
  original_content : string;
  undocumented_items : list UndocumentedItem
}.

(** ** documenter.py: the insertion engine *)

Module DocumentationGenerator.

(** [' ' * (len(l) - len(l.lstrip()))] *)
Definition indent_of (l : string) : string :=
  Py.repeat_char " " (Py.len l - Py.len (Py.lstrip l)).

Definition TQ : string := Py.DQ ++ Py.DQ ++ Py.DQ.

(** The f-string of [_insert_python_docs]: the block for [docs] at the
    indentation [indent]. *)
Definition python_docstring (indent docs : string) : string :=
  indent ++ TQ ++ Py.strip docs ++ Py.LF ++ indent ++ TQ.

(** The f-string of [_insert_js_docs]. *)
Definition js_docstring (indent docs : string) : string :=
  indent ++ "/**" ++ Py.LF ++ indent ++ " * "
  ++ Py.replace_char (Py.chr 10) (Py.LF ++ indent ++ " * ") (Py.strip docs)
  ++ Py.LF ++ indent ++ " */".

(** [_insert_python_docs(code, item, docs)] *)
Definition _insert_python_docs (code : string) (item : UndocumentedItem)
    (docs : string) : result string :=
  let lines := Py.splitlines code in
  let insert_line := line item - 1 in
  l ← Py.getitem lines insert_line;
  let indent := indent_of l in
  let docstring := python_docstring indent docs in
  let lines := Py.list_insert lines (insert_line + 1) docstring in
  Ok (Py.join Py.LF lines).

(** [_insert_js_docs(code, item, docs)] *)
Definition _insert_js_docs (code : string) (item : UndocumentedItem)
    (docs : string) : result string :=
  let lines := Py.splitlines code in
  let insert_line := line item - 1 in
  l ← Py.getitem lines insert_line;
  let indent := indent_of l in
  let docstring := js_docstring indent docs in
  let lines := Py.list_insert lines insert_line docstring in
  Ok (Py.join Py.LF lines).

(** [_insert_ts_docs(code, item, docs)] *)
Definition _insert_ts_docs (code : string) (item : UndocumentedItem)
    (docs : string) : result string :=
  _insert_js_docs code item docs.

(** [str(x)] of an item's ['code'] inside an f-string. *)
Definition str_of_code (c : option string) : string :=
  match c with
  | Some s => s
  | None => "None"
  end.

(** The three prompt templates; [pad] is the twelve spaces that open every line
    of the literals. *)
Definition pad : string := "            ".

Definition prompt_lines (head : string) (c : option string)
    (reqs : list string) : string :=
  Py.LF ++ pad ++ head ++ Py.LF ++ pad ++ str_of_code c ++ Py.LF
  ++ pad ++ Py.LF ++ pad ++ "Requirements:" ++ Py.LF
  ++ fold_right (fun r acc => pad ++ r ++ Py.LF ++ acc) pad reqs.

Definition python_prompt (c : option string) : string :=
  prompt_lines "Add comprehensive Python docstring to:" c
    [ "1. Google-style docstring format";
      "2. Describe purpose clearly";
      "3. Document all parameters with types";
      "4. Document return value with type";
      "5. Include 1-2 usage examples";
      "6. Mention exceptions if applicable" ].

Definition js_prompt (c : option string) : string :=
  prompt_lines "Add comprehensive JSDoc documentation to:" c
    [ "1. Proper JSDoc syntax with @ tags";
      "2. Describe function purpose";
      "3. Document all parameters with @param";
      "4. Document return value with @returns";
      "5. Include type information where possible";
      "6. Add 1 usage example" ].

Definition ts_prompt (c : option string) : string :=
  prompt_lines "Add comprehensive TypeScript documentation to:" c
    [ "1. TSDoc format with type information";
      "2. Describe function/class purpose";
      "3. Document all parameters with types";
      "4. Document return type";
      "5. Include generics if applicable";
      "6. Add 1 usage example";
      "7. Mark @public/@private appropriately" ].

(** [_build_python_prompts], [_build_js_prompts], [_build_ts_prompts]: a
    dictionary keyed by item name, a later item of the same name replacing
    the earlier one. *)
Definition build_prompts (template : option string -> string)
    (analysis : FileAnalysis) : gmap string string :=
  fold_left (fun prompts item => <[name item := template (code item)]> prompts)
    (undocumented_items analysis) ∅.

Definition _build_python_prompts := build_prompts python_prompt.
Definition _build_js_prompts := build_prompts js_prompt.
Definition _build_ts_prompts := build_prompts ts_prompt.

Section Handlers.

(** [_get_ai_response(prompt)]: the chat completion call raises (the
    request fails, the list of choices is empty), or returns the content of
    the first choice, a text or [None].  No caller handles what it raises. *)
Variable _get_ai_response : string -> result (option string).

(** [insert(documented_code, item, response)] on what the call returned.
    The insertion functions index [lines] (lines 137 and 146) before they
    call [docs.strip()] (lines 138 and 147), which raises [AttributeError] on
    [None]. *)
Definition insert_response
    (insert : string -> UndocumentedItem -> string -> result string)
    (code : string) (item : UndocumentedItem) (response : option string)
    : result string :=
  match response with
  | Some docs => insert code item docs
  | None =>
      _ ← Py.getitem (Py.splitlines code) (line item - 1);
      Raise AttributeError
  end.

(** The loop shared by the three handlers: every item, in the order of
    [undocumented_items], is inserted into the text the previous insertions
    produced. *)
Fixpoint handle_items
    (insert : string -> UndocumentedItem -> string -> result string)
    (prompts : gmap string string) (items : list UndocumentedItem)
    (documented_code : string) : result string :=
  match items with
  | [] => Ok documented_code
  | item :: rest =>
      prompt ← match prompts !! name item with
               | Some p => Ok p
               | None => Raise KeyError
               end;
      response ← _get_ai_response prompt;
      documented_code ← insert_response insert documented_code item response;
      handle_items insert prompts rest documented_code
  end.

Definition _handle_python (analysis : FileAnalysis) : result string :=
  handle_items _insert_python_docs (_build_python_prompts analysis)
    (undocumented_items analysis) (original_content analysis).

Definition _handle_javascript (analysis : FileAnalysis) : result string :=
  handle_items _insert_js_docs (_build_js_prompts analysis)
    (undocumented_items analysis) (original_content analysis).

Definition _handle_typescript (analysis : FileAnalysis) : result string :=
  handle_items _insert_ts_docs (_build_ts_prompts analysis)
    (undocumented_items analysis) (original_content analysis).

Definition _handle_generic (analysis : FileAnalysis) : result string :=
  Ok (original_content analysis).

(** [generate_documentation(analysis)] *)
Definition generate_documentation (analysis : FileAnalysis) : result string :=
  if negb (needs_docs analysis) then Ok (original_content analysis)
  else
    match language analysis with
    | Some python => _handle_python analysis
    | Some javascript => _handle_javascript analysis
    | Some typescript => _handle_typescript analysis
    | None => _handle_generic analysis
    end.

End Handlers.

End DocumentationGenerator.

(** ** The [re] module, as far as the two patterns of the scanner need it

    A backtracking matcher with the priorities of [re]: alternatives from
    left to right, greedy quantifiers longest first, lazy ones shortest
    first.  Both patterns repeat single characters only, so [Star], [Plus]
    and [StarLazy] take a character class. *)

Module Re.

Inductive regex : Type :=
| Eps
| Lit (s : string)
| Cls (p : ascii -> bool)
| Seq (r1 r2 : regex)
| Alt (r1 r2 : regex)
| Opt (r : regex)
| Star (p : ascii -> bool)
| Plus (p : ascii -> bool)
| StarLazy (p : ascii -> bool)
| Group (g : string) (r : regex).

(** The text of the named groups that took part in the match, the last
    closed first. *)
Definition groups : Type := list (string * string).

(** [s] without the prefix [l], when it starts with [l]. *)
Fixpoint strip_prefix (l s : string) : option string :=
  match l, s with
  | EmptyString, _ => Some s
  | String a l', String b s' => if Ascii.eqb a b then strip_prefix l' s' else None
  | String _ _, EmptyString => None
  end.

Definition orelse {A : Type} (x y : option A) : option A :=
  match x with
  | Some _ => x
  | None => y
  end.

(** [exec r s gs k]: match [r] at the start of [s] and hand the rest of the
    text to [k]; the first success in priority order wins. *)
Fixpoint exec (r : regex) (s : string) (gs : groups)
    (k : string -> groups -> option (string * groups)) {struct r}
    : option (string * groups) :=
  match r with
  | Eps => k s gs
  | Lit l =>
      match strip_prefix l s with
      | Some s' => k s' gs
      | None => None
      end
  | Cls p =>
      match s with
      | String c s' => if p c then k s' gs else None
      | EmptyString => None
      end
  | Seq r1 r2 => exec r1 s gs (fun s' gs' => exec r2 s' gs' k)
  | Alt r1 r2 => orelse (exec r1 s gs k) (exec r2 s gs k)
  | Opt r1 => orelse (exec r1 s gs k) (k s gs)
  | Star p =>
      (fix star (s : string) : option (string * groups) :=
         match s with
         | String c s' => if p c then orelse (star s') (k s gs) else k s gs
         | EmptyString => k s gs
         end) s
  | Plus p =>
      match s with
      | String c s' =>
          if p c then
            (fix star (s : string) : option (string * groups) :=
               match s with
               | String c s' => if p c then orelse (star s') (k s gs) else k s gs
               | EmptyString => k s gs
               end) s'
          else None
      | EmptyString => None
      end
  | StarLazy p =>
      (fix star (s : string) : option (string * groups) :=
         orelse (k s gs)
           match s with
           | String c s' => if p c then star s' else None
           | EmptyString => None
           end) s
  | Group g r1 =>
      exec r1 s gs
        (fun s' gs' => k s' ((g, Py.take (Py.len s - Py.len s') s) :: gs'))
  end.

(** A match object: [start()], [group(0)] and the named groups. *)
Record Match : Type := mkMatch {
  start : nat;
  group0 : string;
  named : groups
}.

(** [group(g)] of a named group; [None] when it took no part. *)
Fixpoint lookup_group (g : string) (gs : groups) : option string :=
  match gs with
  | [] => None
  | (g', t) :: gs' => if String.eqb g' g then Some t else lookup_group g gs'
  end.

Definition group (g : string) (m : Match) : option string :=
  lookup_group g (named m).

(** The match of [r] that starts at the first character of [s], [pos]
    being the offset of [s] in the whole text. *)
Definition match_here (r : regex) (pos : nat) (s : string) : option Match :=
  match exec r s [] (fun s' gs => Some (s', gs)) with
  | Some (s', gs) => Some (mkMatch pos (Py.take (Py.len s - Py.len s') s) gs)
  | None => None
  end.

(** [pattern.search(s)]: the leftmost match. *)
Fixpoint search_from (r : regex) (pos : nat) (s : string) : option Match :=
  match match_here r pos s with
  | Some m => Some m
  | None =>
      match s with
      | String _ s' => search_from r (S pos) s'
      | EmptyString => None
      end
  end.

Definition search (r : regex) (s : string) : option Match :=
  search_from r O s.

(** [pattern.finditer(s)]: the matches from left to right, none overlapping
    another.  [skip] counts the characters of the last match still to pass
    over.  The pattern of the scanner matches no empty text (see
    [js_match_not_empty] below), so the case of an empty match, where the
    model moves on by one character, does not arise. *)
Fixpoint finditer_from (r : regex) (pos skip : nat) (s : string)
    : list Match :=
  match skip with
  | S skip' =>
      match s with
      | String _ s' => finditer_from r (S pos) skip' s'
      | EmptyString => []
      end
  | O =>
      match match_here r pos s with
      | Some m =>
          m :: match s with
               | String _ s' =>
                   finditer_from r (S pos) (Py.len (group0 m) - 1) s'
               | EmptyString => []
               end
      | None =>
          match s with
          | String _ s' => finditer_from r (S pos) O s'
          | EmptyString => []
          end
      end
  end.

Definition finditer (r : regex) (s : string) : list Match :=
  finditer_from r O O s.

(** The least number of characters a match of [r] takes. *)
Fixpoint min_length (r : regex) : nat :=
  match r with
  | Eps => 0
  | Lit l => Py.len l
  | Cls _ => 1
  | Seq r1 r2 => min_length r1 + min_length r2
  | Alt r1 r2 => Nat.min (min_length r1) (min_length r2)
  | Opt _ => 0
  | Star _ => 0
  | Plus _ => 1
  | StarLazy _ => 0
  | Group _ r1 => min_length r1
  end.

(** Concatenation of a sequence of patterns. *)
Definition cat (rs : list regex) : regex := fold_right Seq Eps rs.

(** [\s], [\w], [[^)]] and the dot under [re.DOTALL]. *)
Definition space : ascii -> bool := Py.isspace.
Definition word (c : ascii) : bool := Py.isalnum c || Ascii.eqb c "_".
Definition not_rparen (c : ascii) : bool := negb (Ascii.eqb c ")").
Definition any : ascii -> bool := fun _ => true.

End Re.

(** ** The [ast] module, as far as the scanner needs it *)

Module Ast.

Inductive constant : Type :=
| CStr (s : string)
| COther.

(** A syntax tree.  The three kinds of definition carry their name, their
    [lineno], their [body] and the child nodes that [iter_child_nodes]
    yields before the body ([arguments]; the bases and keywords of a class)
    and after it (decorators, return annotation, type parameters).  [Other]
    is any other node, with its children in the order of
    [iter_child_nodes]. *)
Inductive node : Type :=
| Module (body : list node)
| FunctionDef (name : string) (lineno : Z)
    (args : node) (body : list node) (rest : list node)
| AsyncFunctionDef (name : string) (lineno : Z)
    (args : node) (body : list node) (rest : list node)
| ClassDef (name : string) (lineno : Z)
    (bases : list node) (body : list node) (rest : list node)
| Expr (value : node)
| Constant (value : constant)
| Other (children : list node).

(** [ast.iter_child_nodes(node)] *)
Definition iter_child_nodes (n : node) : list node :=
  match n with
  | Module body => body
  | FunctionDef _ _ args body rest => args :: body ++ rest
  | AsyncFunctionDef _ _ args body rest => args :: body ++ rest
  | ClassDef _ _ bases body rest => bases ++ body ++ rest
  | Expr value => [value]
  | Constant _ => []
  | Other children => children
  end.

(** The number of nodes of a tree. *)
Fixpoint node_size (n : node) : nat :=
  match n with
  | Module body => S (list_sum (map node_size body))
  | FunctionDef _ _ args body rest =>
      S (node_size args + list_sum (map node_size body)
         + list_sum (map node_size rest))
  | AsyncFunctionDef _ _ args body rest =>
      S (node_size args + list_sum (map node_size body)
         + list_sum (map node_size rest))
  | ClassDef _ _ bases body rest =>
      S (list_sum (map node_size bases) + list_sum (map node_size body)
         + list_sum (map node_size rest))
  | Expr value => S (node_size value)
  | Constant _ => 1%nat
  | Other children => S (list_sum (map node_size children))
  end.

(** [ast.walk(node)]: the loop over the deque [todo]; every turn pops the
    first node, appends its children and yields it.  [fuel] bounds the number
    of turns. *)
Fixpoint walk_loop (fuel : nat) (todo : list node) : list node :=
  match fuel, todo with
  | S fuel', n :: todo' => n :: walk_loop fuel' (todo' ++ iter_child_nodes n)
  | _, _ => []
  end.

Definition walk (n : node) : list node := walk_loop (node_size n) [n].

(** The body of the nodes that can carry a docstring. *)
Definition body_of (n : node) : option (list node) :=
  match n with
  | Module body => Some body
  | FunctionDef _ _ _ body _ => Some body
  | AsyncFunctionDef _ _ _ body _ => Some body
  | ClassDef _ _ _ body _ => Some body
  | _ => None
  end.

Section Docstring.

(** [inspect.cleandoc] *)
Variable cleandoc : string -> string.

(** [ast.get_docstring(node)], with [clean=True]: the cleaned text of the
    string constant that opens the body.  (On a node that cannot carry a
    docstring Python raises [TypeError]; the scanner asks for definitions
    only, and the model answers [None] there.) *)
Definition get_docstring (n : node) : option string :=
  match body_of n with
  | Some (Expr (Constant (CStr text)) :: _) => Some (cleandoc text)
  | _ => None
  end.

End Docstring.

End Ast.

(** ** utils/cache.py: the cache manager

    The Redis server is a store of pickled values, here the values
    themselves; [redis_down] tells whether calls to a connected server raise
    [RedisError].  Expiry of entries is not modelled. *)

Module CacheManager.

Record t : Type := mk {
  _pool : bool;
  redis_down : bool;
  redis : gmap string FileAnalysis;
  _fallback_cache : gmap string FileAnalysis
}.

(** [get(key)] *)
Definition get (c : t) (key : string) : option FileAnalysis :=
  if negb (_pool c) then None
  else if redis_down c then _fallback_cache c !! key
  else redis c !! key.

(** [set(key, value, ttl)]: the state it leaves (the scanner drops the
    value it returns). *)
Definition set (c : t) (key : string) (value : FileAnalysis) : t :=
  if negb (_pool c) then c
  else if redis_down c then
    mk (_pool c) (redis_down c) (redis c) (<[key := value]> (_fallback_cache c))
  else
    mk (_pool c) (redis_down c) (<[key := value]> (redis c)) (_fallback_cache c).

(** [delete(key)]: the value it returns and the state it leaves.  The
    fallback store is not touched. *)
Definition delete (c : t) (key : string) : bool * t :=
  if negb (_pool c) then (false, c)
  else if redis_down c then (false, c)
  else (true,
        mk (_pool c) (redis_down c) (base.delete key (redis c))
          (_fallback_cache c)).

(** [ping()] *)
Definition ping (c : t) : bool := _pool c && negb (redis_down c).

(** The server starts or stops failing; nothing of the manager changes. *)
Definition with_redis_down (down : bool) (c : t) : t :=
  mk (_pool c) down (redis c) (_fallback_cache c).

End CacheManager.

(** ** pathlib: [Path(path).suffix], POSIX flavour *)

Module PurePath.

(** [s.split(c)] for a one-character separator *)
Fixpoint split_from (c : ascii) (part : string) (s : string) : list string :=
  match s with
  | EmptyString => [part]
  | String c' s' =>
      if Ascii.eqb c' c then part :: split_from c EmptyString s'
      else split_from c (part ++ String c' EmptyString) s'
  end.

Definition split (c : ascii) (s : string) : list string :=
  split_from c EmptyString s.

(** The components of a path: the empty ones and the dots are dropped. *)
Definition parts (path : string) : list string :=
  filter (fun x => x ≠ "" ∧ x ≠ ".") (split "/" path).

(** [PurePath.name]: the last component, or the empty string. *)
Definition name (path : string) : string := List.last (parts path) "".

(** [PurePath.suffix]: the text from the last dot of the name on, when that
    dot is neither the first nor the last character of the name. *)
Definition suffix (path : string) : string :=
  let nm := name path in
  let i := Py.rfind_char "." nm in
  if (0 <? i) && (i <? Z.of_nat (Py.len nm) - 1)
  then Py.drop (Z.to_nat i) nm else "".

End PurePath.

(** ** The repository content provider

    What [repo.get_contents(path)] lists: files, and directories with the
    listing of their own path. *)

Inductive ContentFile : Type :=
| file (path sha encoding content : string)
| dir (path : string) (entries : list ContentFile).

Record Repository : Type := mkRepo {
  full_name : string;
  contents : list ContentFile
}.

(** ** scanner.py *)

Module CodeScanner.

Definition supported_languages : gmap string Language :=
  <[".py" := python]> (<[".js" := javascript]> (<[".ts" := typescript]>
  (<[".jsx" := javascript]> (<[".tsx" := typescript]> ∅)))).

(** [js_function_pattern]; the groups without a name are never read and are
    plain sub-patterns here. *)
Definition js_function_pattern : Re.regex :=
  Re.cat
    [ Re.Group "prefix" (Re.cat
        [ Re.Opt (Re.cat [Re.Lit "export"; Re.Plus Re.space]);
          Re.Opt (Re.cat [Re.Lit "async"; Re.Plus Re.space]);
          Re.Alt
            (Re.cat [Re.Lit "function"; Re.Opt (Re.Lit "*");
                     Re.Plus Re.space])
            (Re.Alt
               (Re.cat [Re.Lit "const"; Re.Plus Re.space; Re.Plus Re.word;
                        Re.Star Re.space; Re.Lit "="; Re.Star Re.space;
                        Re.Opt (Re.cat [Re.Lit "async"; Re.Plus Re.space]);
                        Re.Lit "function"; Re.Opt (Re.Lit "*");
                        Re.Star Re.space])
               (Re.cat [Re.Lit "class"; Re.Plus Re.space])) ]);
      Re.Group "name" (Re.Plus Re.word);
      Re.Group "params"
        (Re.cat [Re.Lit "("; Re.Star Re.not_rparen; Re.Lit ")"]) ].

(** [jsdoc_pattern], compiled with [re.DOTALL] *)
Definition jsdoc_pattern : Re.regex :=
  Re.cat [Re.Lit "/**"; Re.StarLazy Re.any; Re.Lit "*/"].

(** [_is_supported_file(path)] *)
Definition _is_supported_file (path : string) : bool :=
  let ext := Py.lower (PurePath.suffix path) in
  bool_decide (is_Some (supported_languages !! ext)).

(** [_has_jsdoc(preceding_code)] *)
Definition _has_jsdoc (preceding_code : string) : bool :=
  let trimmed := Py.rstrip preceding_code in
  if String.eqb trimmed "" then false
  else
    let last_newline := Py.rfind_char (Py.chr 10) trimmed in
    let search_area :=
      if negb (last_newline =? -1)
      then Py.drop (Z.to_nat (last_newline + 1)) trimmed
      else trimmed in
    bool_decide (is_Some (Re.search jsdoc_pattern search_area)).

(** The two statements of the loops that record an item. *)
Definition append_item (analysis : FileAnalysis) (item : UndocumentedItem)
    : FileAnalysis :=
  mkAnalysis (path analysis) (language analysis) true
    (original_content analysis) (undocumented_items analysis ++ [item]).

(** The body of the loop of [_parse_javascript]. *)
Definition js_step (content : string) (analysis : FileAnalysis)
    (m : Re.Match) : FileAnalysis :=
  let func_code := Re.group0 m in
  let func_name := default "" (Re.group "name" m) in
  let line_no :=
    Z.of_nat (Py.count_char (Py.chr 10) (Py.take (Re.start m) content)) + 1 in
  let preceding_code := Py.take (Re.start m) content in
  if negb (_has_jsdoc preceding_code) then
    append_item analysis (mkItem function func_name line_no (Some func_code))
  else analysis.

(** [_parse_javascript(content, path, language)] *)
Definition _parse_javascript (content path : string) (lang : Language)
    : FileAnalysis :=
  fold_left (js_step content) (Re.finditer js_function_pattern content)
    (mkAnalysis path (Some lang) false content []).

Section Library.

(** [ast.parse], [inspect.cleandoc], [ast.get_source_segment] and
    [base64.b64decode(...).decode('utf-8')]. *)
Variable ast_parse : string -> result Ast.node.
Variable cleandoc : string -> string.
Variable get_source_segment : string -> Ast.node -> option string.
Variable b64decode : string -> result string.

(** [_has_proper_docs(node)] *)
Definition _has_proper_docs (n : Ast.node) : bool :=
  match Ast.get_docstring cleandoc n with
  | Some d => (10 <? Py.len (Py.strip d))%nat
  | None => false
  end.

(** The nodes the loop of [_parse_python] looks at, with the ['type'] it
    gives them, their name and their [lineno]. *)
Definition definition_of (n : Ast.node) : option (kind * string * Z) :=
  match n with
  | Ast.FunctionDef nm l _ _ _ => Some (function, nm, l)
  | Ast.AsyncFunctionDef nm l _ _ _ => Some (function, nm, l)
  | Ast.ClassDef nm l _ _ _ => Some (class, nm, l)
  | _ => None
  end.

(** The body of the loop of [_parse_python]. *)
Definition py_step (content : string) (analysis : FileAnalysis)
    (n : Ast.node) : FileAnalysis :=
  match definition_of n with
  | Some (k, nm, l) =>
      if negb (_has_proper_docs n) then
        append_item analysis (mkItem k nm l (get_source_segment content n))
      else analysis
  | None => analysis
  end.

(** [_parse_python(content, path)] *)
Definition _parse_python (content path : string) : result FileAnalysis :=
  tree ← ast_parse content;
  Ok (fold_left (py_step content) (Ast.walk tree)
        (mkAnalysis path (Some python) false content [])).

(** [_parse_code(content, path)]; the last case builds a [FileAnalysis]
    from a path and [needs_docs] alone. *)
Definition _parse_code (content path : string) : result FileAnalysis :=
  let ext := Py.lower (PurePath.suffix path) in
  match supported_languages !! ext with
  | Some python => _parse_python content path
  | Some javascript => Ok (_parse_javascript content path javascript)
  | Some typescript => Ok (_parse_javascript content path typescript)
  | None => Ok (mkAnalysis path None false "" [])
  end.

(** [_get_file_content(content_file)] *)
Definition _get_file_content (encoding content : string) : result string :=
  if String.eqb encoding "base64" then b64decode content else Ok content.

(** [_analyze_file(repo, content_file)], on a file entry; the cache is
    threaded through. *)
Definition _analyze_file (repo_full_name : string)
    (path sha encoding content : string) (c : CacheManager.t)
    : result (option FileAnalysis * CacheManager.t) :=
  if negb (_is_supported_file path) then Ok (None, c)
  else
    let cache_key := "analysis:" ++ repo_full_name ++ ":" ++ sha in
    match CacheManager.get c cache_key with
    | Some cached => Ok (Some cached, c)
    | None =>
        text ← _get_file_content encoding content;
        analysis ← _parse_code text path;
        Ok (Some analysis, CacheManager.set c cache_key analysis)
    end.

(** The body shared by the loops of [scan_repository] and
    [_process_directory], and [_process_directory] itself as the loop over
    the listing of a directory; [results] is the dictionary both write to. *)
Fixpoint process_entry (repo_full_name : string) (content_file : ContentFile)
    (results : gmap string FileAnalysis) (c : CacheManager.t)
    : result (gmap string FileAnalysis * CacheManager.t) :=
  match content_file with
  | dir _ entries =>
      (fix process_entries (entries : list ContentFile)
           (results : gmap string FileAnalysis) (c : CacheManager.t)
           : result (gmap string FileAnalysis * CacheManager.t) :=
         match entries with
         | [] => Ok (results, c)
         | e :: entries' =>
             rc ← process_entry repo_full_name e results c;
             process_entries entries' rc.1 rc.2
         end) entries results c
  | file path sha encoding content =>
      ac ← _analyze_file repo_full_name path sha encoding content c;
      match ac.1 with
      | Some analysis => Ok (<[path := analysis]> results, ac.2)
      | None => Ok (results, ac.2)
      end
  end.

Fixpoint _process_directory (repo_full_name : string)
    (entries : list ContentFile) (results : gmap string FileAnalysis)
    (c : CacheManager.t)
    : result (gmap string FileAnalysis * CacheManager.t) :=
  match entries with
  | [] => Ok (results, c)
  | e :: entries' =>
      rc ← process_entry repo_full_name e results c;
      _process_directory repo_full_name entries' rc.1 rc.2
  end.

(** [scan_repository(repo_name)], on the repository the client returns for
    that name. *)
Definition scan_repository (repo : Repository) (c : CacheManager.t)
    : result (gmap string FileAnalysis * CacheManager.t) :=
  _process_directory (full_name repo) (contents repo) ∅ c.

End Library.

End CodeScanner.

(** ** The scan as a loop over files

    The files of a listing in the order the scan reaches them, and the scan
    as a single loop over that sequence (proved equal to the recursive
    one below). *)

Module Flat.

Import CodeScanner.

Record File : Type := mkFile {
  fpath : string;
  fsha : string;
  fencoding : string;
  fcontent : string
}.

Fixpoint files_of (content_file : ContentFile) : list File :=
  match content_file with
  | file p s e c => [mkFile p s e c]
  | dir _ entries => flat_map files_of entries
  end.

Definition cache_key (repo_full_name sha : string) : string :=
  "analysis:" ++ repo_full_name ++ ":" ++ sha.

Section Library.

Variable ast_parse : string -> result Ast.node.
Variable cleandoc : string -> string.
Variable get_source_segment : string -> Ast.node -> option string.
Variable b64decode : string -> result string.

Fixpoint process_files (repo_full_name : string) (fs : list File)
    (results : gmap string FileAnalysis) (c : CacheManager.t)
    : result (gmap string FileAnalysis * CacheManager.t) :=
  match fs with
  | [] => Ok (results, c)
  | f :: fs' =>
      rc ← process_entry ast_parse cleandoc get_source_segment b64decode
             repo_full_name
             (file (fpath f) (fsha f) (fencoding f) (fcontent f)) results c;
      process_files repo_full_name fs' rc.1 rc.2
  end.

End Library.

End Flat.

(** ** The order of [ast.walk], level by level *)

Module Levels.

Import Ast CodeScanner.

(** The number of nodes of a sequence of trees. *)
Definition forest_size (q : list node) : nat := list_sum (map node_size q).

(** The first [d] levels below a sequence of nodes: the nodes themselves,
    their children, the children of these, and so on. *)
Fixpoint levels (d : nat) (q : list node) : list (list node) :=
  match d with
  | O => []
  | S d' => q :: levels d' (flat_map iter_child_nodes q)
  end.

(** What one turn of the loop of [_parse_python] appends for a node. *)
Definition items_of_node (cleandoc : string -> string)
    (get_source_segment : string -> node -> option string)
    (content : string) (n : node) : list UndocumentedItem :=
  match definition_of n with
  | Some (k, nm, l) =>
      if negb (_has_proper_docs cleandoc n)
      then [mkItem k nm l (get_source_segment content n)]
      else []
  | None => []
  end.

(** What one turn of the loop of [_parse_javascript] appends for a match. *)
Definition items_of_match (content : string) (m : Re.Match)
    : list UndocumentedItem :=
  undocumented_items
    (js_step content (mkAnalysis "" None false content []) m).

End Levels.

(** The extensions of the supported languages. *)
Definition supported_extensions : list string :=
  [".py"; ".js"; ".jsx"; ".ts"; ".tsx"].

(** ** The specification's wording of multi-item insertion

    Section 4.6 asks for the items of a file to be inserted in descending
    order of [line], so that every block lands at the line its item had in
    the original content. *)

Module Spec.

Import DocumentationGenerator.

(** Insertion of [x] into a list sorted by descending [line]. *)
Fixpoint insert_desc (x : UndocumentedItem) (l : list UndocumentedItem)
    : list UndocumentedItem :=
  match l with
  | [] => [x]
  | y :: l' => if line y <=? line x then x :: l else y :: insert_desc x l'
  end.

Definition sort_desc (l : list UndocumentedItem) : list UndocumentedItem :=
  fold_right insert_desc [] l.

(** The handler of the specification: the loop of the code, over the items
    in descending order of [line]. *)
Definition handle_descending
    (_get_ai_response : string -> result (option string))
    (insert : string -> UndocumentedItem -> string -> result string)
    (template : option string -> string) (analysis : FileAnalysis)
    : result string :=
  handle_items _get_ai_response insert (build_prompts template analysis)
    (sort_desc (undocumented_items analysis)) (original_content analysis).

End Spec.

(** ** Sample inputs *)

Module Samples.

Import Ast.

Definition nl (ls : list string) : string :=
  fold_right (fun l acc => l ++ Py.LF ++ acc) "" ls.

(** [example.py] of the specification. *)
Definition add_py : string := nl ["def add(a, b):"; "    return a + b"].

(** A leaf node and a [Name] node (its child is the context). *)
Definition leaf : node := Other [].
Definition name_node : node := Other [leaf].

(** [arguments] with [n] positional parameters. *)
Definition arguments (n : nat) : node := Other (repeat leaf n).

Definition add_def : node :=
  FunctionDef "add" 1 (arguments 2)
    [Other [Other [name_node; leaf; name_node]]] [].

(** What [ast.parse] makes of [add_py]. *)
Definition add_tree : node := Module [add_def].

(** Two functions, one after the other. *)
Definition two_defs_py : string :=
  nl ["def f():"; "    pass"; "def g():"; "    pass"].

Definition f_def : node := FunctionDef "f" 1 (arguments 0) [leaf] [].
Definition g_def : node := FunctionDef "g" 3 (arguments 0) [leaf] [].
Definition two_defs_tree : node := Module [f_def; g_def].

(** A class with a method, followed by a function. *)
Definition nested_py : string :=
  nl ["class A:"; "    def m(self):"; "        pass"; "def f():"; "    pass"].

Definition m_def : node := FunctionDef "m" 2 (arguments 1) [leaf] [].
Definition A_def : node := ClassDef "A" 1 [] [m_def] [].
Definition f4_def : node := FunctionDef "f" 4 (arguments 0) [leaf] [].
Definition nested_tree : node := Module [A_def; f4_def].

(** Definitions whose docstring has ten and eleven characters. *)
Definition ten_doc_def : node :=
  FunctionDef "f" 1 (arguments 0) [Expr (Constant (CStr "0123456789")); leaf] [].
Definition eleven_doc_def : node :=
  FunctionDef "f" 1 (arguments 0) [Expr (Constant (CStr "0123456789a")); leaf] [].

(** The analysis of a file before any item is recorded. *)
Definition blank_analysis : FileAnalysis :=
  mkAnalysis "f.py" (Some python) false "" [].

(** A stand-in for [ast.parse] that knows the samples and rejects every
    other text. *)
Definition ast_parse (s : string) : result node :=
  if String.eqb s add_py then Ok add_tree
  else if String.eqb s two_defs_py then Ok two_defs_tree
  else if String.eqb s nested_py then Ok nested_tree
  else Raise SyntaxError.

(** Stand-ins for the other library functions: texts without indentation
    are their own [cleandoc]; no source segments; content that is not
    encoded. *)
Definition cleandoc (s : string) : string := s.
Definition get_source_segment (_ : string) (_ : node) : option string := None.
Definition b64decode (s : string) : result string := Ok s.

(** A generation service that answers every prompt with the same text. *)
Definition reply (text : string) : string -> result (option string) :=
  fun _ => Ok (Some text).

(** JavaScript samples. *)
Definition foo_js : string := nl ["export function foo() {}"].

Definition documented_foo_js : string :=
  nl ["/**"; " * Does foo."; " */"; "export function foo() {}"].

(** A cache manager that never connected. *)
Definition no_cache : CacheManager.t := CacheManager.mk false false ∅ ∅.

(** The tree of the scenario of section 8: a Markdown file and a Python
    file. *)
Definition md_and_py : Repository :=
  mkRepo "owner/repo"
    [ file "README.md" "sha-md" "utf-8" "# Title";
      file "example.py" "sha-py" "utf-8" add_py ].


End Samples.

(** ** main.py: the documentation workflow *)

Module Main.

Import CodeScanner DocumentationGenerator.

(** The dictionary the workflow returns: [{"pr_url": ...}] or
    [{"message": ...}]. *)
Inductive outcome : Type :=
| pr_url (url : string)
| message (text : string).

(** config.py: the fields of [Settings]. *)
Definition settings_fields : list string :=
  [ "app_env"; "github_webhook_secret"; "github_app_id"; "github_client_id";
    "github_client_secret"; "postgres_user"; "postgres_password";
    "postgres_host"; "postgres_port"; "postgres_db"; "redis_url";
    "openai_api_key"; "database_url" ].

Section Workflow.

(** The values the environment gives to the fields of [settings]. *)
Variable settings_value : string -> string.

Variable ast_parse : string -> result Ast.node.
Variable cleandoc : string -> string.
Variable get_source_segment : string -> Ast.node -> option string.
Variable b64decode : string -> result string.
Variable _get_ai_response : string -> result (option string).

(** [GitHubService.create_documentation_pr(repo_name, branch, changes)]:
    the address of the pull request, or what a call of the client raises;
    and the branch name the workflow makes out of the clock. *)
Variable create_documentation_pr :
  string -> string -> gmap string string -> result string.
Variable branch_name : string.

(** [settings.<name>]: a name that is no field of the model raises
    [AttributeError]. *)
Definition settings_getattr (name : string) : result string :=
  if bool_decide (name ∈ settings_fields) then Ok (settings_value name)
  else Raise AttributeError.

(** [GitHubService(access_token)], github_service.py: the token of the
    client, [access_token or settings.github_token]. *)
Definition GitHubService (access_token : option string) : result string :=
  match access_token with
  | Some (String c token) => Ok (String c token)
  | _ => settings_getattr "github_token"
  end.

(** The loop over [analysis_results.items()]. *)
Fixpoint document_files (items : list (string * FileAnalysis))
    (changes : gmap string string) : result (gmap string string) :=
  match items with
  | [] => Ok changes
  | (file_path, analysis) :: rest =>
      if needs_docs analysis then
        documented_code ← generate_documentation _get_ai_response analysis;
        document_files rest (<[file_path := documented_code]> changes)
      else document_files rest changes
  end.

(** [run_documentation_workflow(repo_name)], [repo] being the repository
    the client gives for that name.  The mapping of the scan is gone through
    in the order of [map_to_list]. *)
Definition run_documentation_workflow (repo : Repository)
    (c : CacheManager.t) : result (outcome * CacheManager.t) :=
  _ ← GitHubService None;
  rc ← scan_repository ast_parse cleandoc get_source_segment b64decode repo c;
  changes ← document_files (map_to_list rc.1) ∅;
  if decide (changes = ∅)
  then Ok (message "No documentation needed", rc.2)
  else
    url ← create_documentation_pr (full_name repo) branch_name changes;
    Ok (pr_url url, rc.2).

End Workflow.

End Main.

(** ** utils/logging.py: the logging configuration

    A configuration is what [json.load] can return: dictionaries keep their
    items in order of insertion, with one item per key. *)

Module Logging.

Inductive value : Type :=
| Dict (items : list (string * value))
| Array (elems : list value)
| Str (s : string)
| Int (n : Z)
| Bool (b : bool)
| Float (repr : string)
| Null.

(** The exceptions of subscripts and item assignments. *)
Inductive error : Type :=
| key_error (key : string)
| type_error.

Definition DEBUG : Z := 10.
Definition INFO : Z := 20.
Definition WARNING : Z := 30.

(** [d.get(key)] on the items of a dictionary *)
Fixpoint lookup (key : string) (items : list (string * value))
    : option value :=
  match items with
  | [] => None
  | (k, v) :: rest => if String.eqb k key then Some v else lookup key rest
  end.

(** [d[key] = v]: the value of an item that is there is replaced in place, a
    new item goes to the end. *)
Fixpoint setitem (key : string) (v : value) (items : list (string * value))
    : list (string * value) :=
  match items with
  | [] => [(key, v)]
  | (k, w) :: rest =>
      if String.eqb k key then (k, v) :: rest
      else (k, w) :: setitem key v rest
  end.

(** [merge_configs(base, custom)] with the dictionary [custom] as a value:
    [merged] starts as the copy of [base] and takes the items of [custom] one
    after the other. *)
Fixpoint merge_into (custom : value) (merged : list (string * value))
    {struct custom} : list (string * value) :=
  match custom with
  | Dict items =>
      (fix loop (items merged : list (string * value)) {struct items}
           : list (string * value) :=
         match items with
         | [] => merged
         | (key, v) :: rest =>
             loop rest
               match lookup key merged, v with
               | Some (Dict b), Dict _ =>
                   setitem key (Dict (merge_into v b)) merged
               | _, _ => setitem key v merged
               end
         end) items merged
  | _ => merged
  end.

Definition merge_configs (base custom : list (string * value))
    : list (string * value) :=
  merge_into (Dict custom) base.

(** [get_base_config(default_level)] *)
Definition json_format : string :=
  let pad := "                    " in
  Py.LF ++ pad ++ "asctime: %(asctime)s" ++ Py.LF
  ++ pad ++ "levelname: %(levelname)s" ++ Py.LF
  ++ pad ++ "name: %(name)s" ++ Py.LF
  ++ pad ++ "message: %(message)s" ++ Py.LF
  ++ pad ++ "pathname: %(pathname)s" ++ Py.LF
  ++ pad ++ "lineno: %(lineno)d" ++ Py.LF
  ++ "                ".

Definition get_base_config (default_level : Z) : list (string * value) :=
  [ ("version", Int 1);
    ("disable_existing_loggers", Bool false);
    ("formatters", Dict
       [ ("standard", Dict
            [ ("format",
               Str "%(asctime)s [%(levelname)s] %(name)s: %(message)s");
              ("datefmt", Str "%Y-%m-%d %H:%M:%S") ]);
         ("json", Dict
            [ ("()", Str "pythonjsonlogger.jsonlogger.JsonFormatter");
              ("format", Str json_format) ]) ]);
    ("handlers", Dict
       [ ("console", Dict
            [ ("class", Str "logging.StreamHandler");
              ("formatter", Str "standard");
              ("level", Int default_level);
              ("stream", Str "ext://sys.stdout") ]);
         ("file", Dict
            [ ("class", Str "logging.handlers.RotatingFileHandler");
              ("formatter", Str "json");
              ("filename", Str "logs/app.log");
              ("maxBytes", Int 10485760);
              ("backupCount", Int 5);
              ("encoding", Str "utf8") ]) ]);
    ("loggers", Dict
       [ ("", Dict
            [ ("handlers", Array [Str "console"; Str "file"]);
              ("level", Int default_level);
              ("propagate", Bool true) ]);
         ("src.app", Dict
            [ ("level", Int DEBUG);
              ("propagate", Bool false) ]) ]) ].

(** [x[key]] on any value: only a dictionary takes a string as subscript. *)
Definition subscript (x : value) (key : string) : error + value :=
  match x with
  | Dict items =>
      match lookup key items with
      | Some v => inr v
      | None => inl (key_error key)
      end
  | _ => inl type_error
  end.

(** [config[outer][inner]['level'] = level], the dictionaries changed in
    place. *)
Definition set_level (outer inner : string) (level : Z)
    (config : list (string * value)) : error + list (string * value) :=
  match subscript (Dict config) outer with
  | inl e => inl e
  | inr group =>
      match subscript group inner with
      | inl e => inl e
      | inr (Dict target) =>
          match group with
          | Dict members =>
              inr (setitem outer
                     (Dict (setitem inner
                              (Dict (setitem "level" (Int level) target))
                              members))
                     config)
          | _ => inl type_error
          end
      | inr _ => inl type_error
      end
  end.

(** [apply_env_overrides(config)], for the value of [settings.app_env] *)
Definition apply_env_overrides (app_env : string)
    (config : list (string * value)) : error + list (string * value) :=
  if String.eqb app_env "production" then
    match set_level "handlers" "console" WARNING config with
    | inl e => inl e
    | inr config => set_level "loggers" "" INFO config
    end
  else if String.eqb app_env "development" then
    match set_level "handlers" "console" DEBUG config with
    | inl e => inl e
    | inr config => set_level "loggers" "" DEBUG config
    end
  else inr config.

(** The configuration [configure_logging] hands to [dictConfig]:
    [file_config] is the dictionary loaded from the configuration file
    (a file that holds another JSON value is not modelled), [None] when no
    file was named or reading it failed with one of the two exceptions that
    are caught. *)
Definition configured (app_env : string) (default_level : Z)
    (file_config : option (list (string * value))) (env_override : bool)
    : error + list (string * value) :=
  let config := get_base_config default_level in
  let config :=
    match file_config with
    | Some custom => merge_configs config custom
    | None => config
    end in
  if env_override then apply_env_overrides app_env config else inr config.

(** The value the loop of [merge_configs] stores under a key: the merge of
    two dictionaries, else the custom value. *)
Definition merged_value (old : option value) (v : value) : value :=
  match old, v with
  | Some (Dict b), Dict c => Dict (merge_configs b c)
  | _, _ => v
  end.

(** [config[outer][inner]['level']] *)
Definition level_at (outer inner : string) (config : list (string * value))
    : error + value :=
  match subscript (Dict config) outer with
  | inl e => inl e
  | inr group =>
      match subscript group inner with
      | inl e => inl e
      | inr target => subscript target "level"
      end
  end.

(** The item [outer] of a dictionary, when there is one, is a dictionary,
    and so is the item [inner] of that one. *)
Definition dict_at (outer inner : string) (config : list (string * value))
    : Prop :=
  match lookup outer config with
  | None => True
  | Some (Dict group) =>
      NoDup (map fst group)
      /\ match lookup inner group with
         | None | Some (Dict _) => True
         | Some _ => False
         end
  | Some _ => False
  end.

(** One item per key, in a dictionary and in the dictionaries inside it. *)
Fixpoint well_formed (v : value) : Prop :=
  match v with
  | Dict items =>
      NoDup (map fst items)
      /\ (fix all (l : list (string * value)) : Prop :=
            match l with
            | [] => True
            | (_, w) :: rest => well_formed w /\ all rest
            end) items
  | _ => True
  end.

End Logging.

(** ** services/auth.py: the signature of a webhook *)

Module Auth.

(** What a verification does: it returns [True], raises [HTTPException]
    with a status code and a detail, or lets a [TypeError] through. *)
Inductive outcome : Type :=
| returns_true
| http_exception (status_code : Z) (detail : string)
| raises_type_error.

Section Hmac.

(** [hmac.new(secret.encode(), body, hashlib.sha256).hexdigest()], and the
    text of the [TypeError] of [hmac.compare_digest]. *)
Variable hexdigest : string -> string -> string.
Variable type_error_text : string.

(** [hmac.compare_digest(a, b)] on two [str]: [None] stands for the
    [TypeError] it raises when one of them is not ASCII. *)
Definition compare_digest (a b : string) : option bool :=
  if Py.isascii a && Py.isascii b then Some (String.eqb a b) else None.

(** [verify_github_webhook(request)]: [header] is the value of
    [X-Hub-Signature-256], when the request has one. *)
Definition verify_github_webhook (header : option string)
    (body secret : string) : outcome :=
  let failed (reason : string) :=
    http_exception 401 ("Webhook verification failed: " ++ reason) in
  let signature := default "" header in
  if String.eqb signature "" then failed "Missing signature header"
  else if String.eqb secret "" then failed "Webhook secret not configured"
  else
    let expected := hexdigest secret body in
    let incoming := Py.replace "sha256=" "" signature in
    match compare_digest incoming expected with
    | Some true => returns_true
    | Some false => failed "Invalid signature"
    | None => failed type_error_text
    end.

(** [verify_webhook_signature(request)] *)
Definition verify_webhook_signature (header : option string)
    (body secret : string) : outcome :=
  let signature := default "" header in
  if String.eqb signature "" then
    http_exception 401 "Missing signature header"
  else
    let expected := hexdigest secret body in
    match compare_digest ("sha256=" ++ expected) signature with
    | Some true => returns_true
    | Some false => http_exception 401 "Invalid webhook signature"
    | None => raises_type_error
    end.

End Hmac.

(** A text of hexadecimal digits in lower case, as [hexdigest] gives. *)
Fixpoint is_hex (s : string) : bool :=
  match s with
  | EmptyString => true
  | String c s' =>
      let n := Py.ord c in
      ((48 <=? n) && (n <=? 57) || (97 <=? n) && (n <=? 102))%nat && is_hex s'
  end.

End Auth.

(** ** Notions the properties are stated with *)

(** The lines [ls] as [splitlines] reads them back from their join by line
    feeds: a last line that is empty is not among them. *)
Definition without_empty_last (ls : list string) : list string :=
  match last ls with
  | Some EmptyString => removelast ls
  | _ => ls
  end.

(** What [e] is when the generation call is behind a failure: the call
    raised [e] on some prompt, or it returned [None] and [e] is the
    [AttributeError] of [None.strip()]. *)
Definition service_failure (ai : string -> result (option string))
    (e : exn) : Prop :=
  (exists prompt, ai prompt = Raise e)
  \/ (e = AttributeError /\ exists prompt, ai prompt = Ok None).

(** ** Notions the further properties are stated with *)

(** The analysis under construction: the path, language and content it was
    opened with, and [needs_docs] set exactly when an item was recorded. *)
Definition analysis_of (p : string) (l : option Language) (c : string)
    (a : FileAnalysis) : Prop :=
  path a = p /\ language a = l /\ original_content a = c
  /\ needs_docs a
     = match undocumented_items a with [] => false | _ :: _ => true end.

(** [subnode n t]: the node [n] is [t] or lies below it. *)
Inductive subnode (n : Ast.node) : Ast.node -> Prop :=
| subnode_self : subnode n n
| subnode_child (t c : Ast.node) :
    In c (Ast.iter_child_nodes t) -> subnode n c -> subnode n t.

(** A text of white space only. *)
Fixpoint all_space (s : string) : bool :=
  match s with
  | EmptyString => true
  | String c s' => Py.isspace c && all_space s'
  end.

(** More sample inputs. *)

Module MoreSamples.

(** An analysis with two items of the same name: a function [run] and a
    method [run] of a class further down. *)
Definition twice_run : FileAnalysis :=
  mkAnalysis "jobs.py" (Some python) true
    (Samples.nl ["def run():"; "    pass"; "class Job:"; "    def run(self):";
                 "        pass"])
    [ mkItem function "run" 1 (Some "def run():");
      mkItem function "run" 4 (Some "def run(self):") ].

End MoreSamples.

(** * Properties *)

Import CodeScanner DocumentationGenerator.

(** ** The string primitives on small inputs *)

Example splitlines_mixed_boundaries :
  Py.splitlines
    ("a" ++ Py.LF ++ Py.LF ++ "b" ++ String (Py.chr 13) Py.LF
     ++ String (Py.chr 13) "c" ++ Py.LF ++ Py.LF)
  = ["a"; ""; "b"; ""; "c"; ""].
Proof. reflexivity. Qed.

Example strip_both_sides :
  Py.strip ("  " ++ Py.LF ++ " a b " ++ Py.LF) = "a b"
  /\ Py.rstrip "   " = "" /\ Py.lstrip "  x " = "x ".
Proof. repeat split; reflexivity. Qed.

Example getitem_and_insert :
  Py.getitem ["a"; "b"] (-1) = Ok "b"
  /\ Py.getitem ["a"; "b"] 2 = Raise IndexError
  /\ Py.list_insert ["a"; "b"] (-1) "x" = ["a"; "x"; "b"]
  /\ Py.list_insert ["a"; "b"] 7 "x" = ["a"; "b"; "x"].
Proof. repeat split; reflexivity. Qed.

Example suffix_samples :
  map PurePath.suffix
    ["a/b.py"; "a.b/c"; ".bashrc"; "x.tar.GZ"; "foo."; "a/b.PY/"; "README.md"]
  = [".py"; ""; ""; ".GZ"; ""; ".PY"; ".md"].
Proof. vm_compute. reflexivity. Qed.

Example supported_samples :
  map CodeScanner._is_supported_file
    ["a/b.py"; "x.TsX"; "lib/util.jsx"; "README.md"; "Makefile"; ".py"]
  = [true; true; true; false; false; false].
Proof. vm_compute. reflexivity. Qed.

(** The scenario of section 8 for JavaScript: without a comment the function
    is reported, with a one-line comment right before it is not. *)
Example foo_js_scenario :
  map name (undocumented_items
              (CodeScanner._parse_javascript Samples.foo_js "foo.js" javascript))
  = ["foo"]
  /\ undocumented_items
       (CodeScanner._parse_javascript
          (Samples.nl ["/** doc */"; "export function foo() {}"])
          "foo.js" javascript)
     = [].
Proof. split; vm_compute; reflexivity. Qed.

(** ** The matcher consumes what the pattern asks for *)

Section Matcher.

#[local] Open Scope nat_scope.

Lemma strip_prefix_length l :
  forall s s',
    Re.strip_prefix l s = Some s' ->
    String.length s' + String.length l = String.length s.
Proof.
  induction l as [|a l IH]; intros s s' H.
  - cbn in H. injection H as <-. cbn. lia.
  - destruct s as [|b s]; [discriminate H|]. cbn in H.
    destruct (Ascii.eqb a b); [|discriminate H].
    apply IH in H. cbn. lia.
Qed.

Lemma orelse_Some {A : Type} (x y : option A) res :
  Re.orelse x y = Some res -> x = Some res \/ y = Some res.
Proof. destruct x; cbn; intros H; [left | right]; exact H. Qed.

(** A successful run hands to its continuation a rest that is shorter than
    the text by at least [min_length]. *)
Lemma exec_consumes r :
  forall s gs k res,
    Re.exec r s gs k = Some res ->
    exists s1 gs1,
      k s1 gs1 = Some res
      /\ String.length s1 + Re.min_length r <= String.length s.
Proof.
  induction r as [|l|p|r1 IH1 r2 IH2|r1 IH1 r2 IH2|r1 IH1|p|p|p|g r1 IH1];
    intros s gs k res H; cbn [Re.exec Re.min_length] in *.
  - exists s, gs. split; [exact H | lia].
  - destruct (Re.strip_prefix l s) as [s'|] eqn:Hl; [|discriminate H].
    apply strip_prefix_length in Hl. exists s', gs.
    split; [exact H | unfold Py.len; lia].
  - destruct s as [|c s]; [discriminate H|].
    destruct (p c); [|discriminate H].
    exists s, gs. split; [exact H | cbn; lia].
  - apply IH1 in H as (s1 & gs1 & H & Hlen1).
    apply IH2 in H as (s2 & gs2 & H & Hlen2).
    exists s2, gs2. split; [exact H | lia].
  - apply orelse_Some in H as [H|H].
    + apply IH1 in H as (s1 & gs1 & H & Hlen). exists s1, gs1.
      split; [exact H | lia].
    + apply IH2 in H as (s1 & gs1 & H & Hlen). exists s1, gs1.
      split; [exact H | lia].
  - apply orelse_Some in H as [H|H].
    + apply IH1 in H as (s1 & gs1 & H & Hlen). exists s1, gs1.
      split; [exact H | lia].
    + exists s, gs. split; [exact H | lia].
  - induction s as [|c s IHs].
    + exists "", gs. split; [exact H | lia].
    + destruct (p c).
      * apply orelse_Some in H as [H|H].
        -- apply IHs in H as (s1 & gs1 & H & Hlen). exists s1, gs1.
           split; [exact H | cbn; lia].
        -- exists (String c s), gs. split; [exact H | lia].
      * exists (String c s), gs. split; [exact H | lia].
  - destruct s as [|c0 s]; [discriminate H|].
    destruct (p c0); [|discriminate H].
    assert (exists s1 gs1,
              k s1 gs1 = Some res /\ String.length s1 <= String.length s)
      as (s1 & gs1 & Hk & Hlen).
    { clear c0. induction s as [|c s IHs].
      - exists "", gs. split; [exact H | lia].
      - destruct (p c).
        + apply orelse_Some in H as [H|H].
          * apply IHs in H as (s1 & gs1 & H & Hlen). exists s1, gs1.
            split; [exact H | cbn; lia].
          * exists (String c s), gs. split; [exact H | lia].
        + exists (String c s), gs. split; [exact H | lia]. }
    exists s1, gs1. split; [exact Hk | cbn; lia].
  - induction s as [|c s IHs].
    + apply orelse_Some in H as [H|H]; [|discriminate H].
      exists "", gs. split; [exact H | lia].
    + apply orelse_Some in H as [H|H].
      * exists (String c s), gs. split; [exact H | lia].
      * destruct (p c); [|discriminate H].
        apply IHs in H as (s1 & gs1 & H & Hlen). exists s1, gs1.
        split; [exact H | cbn; lia].
  - apply IH1 in H as (s1 & gs1 & H & Hlen). eexists _, _.
    split; [exact H | lia].
Qed.

Lemma take_length n :
  forall s, String.length (Py.take n s) = Nat.min n (String.length s).
Proof.
  induction n as [|n IH]; intros [|c s]; cbn; try reflexivity.
  rewrite IH. reflexivity.
Qed.

(** A match of [js_function_pattern] is never empty: it holds at least a
    keyword, a space, a name and a pair of parentheses. *)
Lemma js_match_not_empty pos s m :
  Re.match_here js_function_pattern pos s = Some m ->
  9 <= Py.len (Re.group0 m).
Proof.
  unfold Re.match_here.
  destruct (Re.exec js_function_pattern s [] _) as [[s' gs]|] eqn:Hexec;
    [|discriminate].
  intros H. injection H as <-. cbn [Re.group0].
  apply exec_consumes in Hexec as (s1 & gs1 & Hk & Hlen).
  injection Hk as -> ->.
  unfold Py.len. rewrite take_length.
  change (Re.min_length js_function_pattern) with 9 in Hlen. lia.
Qed.

End Matcher.

(** ** Evaluations on the samples *)

(** C2 (defect of the code).  On the example of the specification the
    analysis yields the single item (function, add, line 1); the insertion
    puts the block right after line 1 and leaves the return line as it was,
    but it indents the block like the declaration line, by no space at all,
    where the claim (and Python) asks for four. *)
Theorem add_example_block_not_indented :
  forall cleandoc gss,
    _parse_python Samples.ast_parse cleandoc gss Samples.add_py "example.py"
    = Ok (mkAnalysis "example.py" (Some python) true Samples.add_py
            [mkItem function "add" 1 (gss Samples.add_py Samples.add_def)])
    /\ forall c,
         _insert_python_docs Samples.add_py (mkItem function "add" 1 c)
           "Adds two numbers."
         = Ok (Py.join Py.LF
                 [ "def add(a, b):"; TQ ++ "Adds two numbers."; TQ;
                   "    return a + b" ]).
Proof.
  intros cleandoc gss. split.
  - vm_compute. reflexivity.
  - intros c. vm_compute. reflexivity.
Qed.

(** C1 (defect of the code).  The handler inserts in the order of
    [undocumented_items], each time at the item's original line in the text
    already changed: with two functions at lines 1 and 3, the block of the
    second lands inside the first function, while insertion in descending
    order puts it after [def g():]. *)
Theorem two_defs_second_block_misplaced :
  forall cleandoc gss,
  exists analysis,
    _parse_python Samples.ast_parse cleandoc gss Samples.two_defs_py "two.py"
    = Ok analysis
    /\ map line (undocumented_items analysis) = [1; 3]
    /\ _handle_python (Samples.reply "Doc.") analysis
       = Ok (Py.join Py.LF
               [ "def f():"; TQ ++ "Doc."; TQ; TQ ++ "Doc."; TQ; "    pass";
                 "def g():"; "    pass" ])
    /\ Spec.handle_descending (Samples.reply "Doc.") _insert_python_docs
         python_prompt analysis
       = Ok (Py.join Py.LF
               [ "def f():"; TQ ++ "Doc."; TQ; "    pass";
                 "def g():"; TQ ++ "Doc."; TQ; "    pass" ]).
Proof.
  intros cleandoc gss. eexists. split; [vm_compute; reflexivity|].
  repeat split; vm_compute; reflexivity.
Qed.

(** C3 (defect of the code).  After the comment block for the only
    undocumented item of a JavaScript file is inserted, extraction on the new
    content reports the same function again: the inserted comment spans
    several lines and [_has_jsdoc] reads the last one only. *)
Theorem inserted_jsdoc_not_recognised :
  let analysis := _parse_javascript Samples.foo_js "foo.js" javascript in
  undocumented_items analysis
  = [mkItem function "foo" 1 (Some "export function foo()")]
  /\ exists out,
       generate_documentation (Samples.reply "Does foo.") analysis = Ok out
       /\ out = Py.join Py.LF
                  ["/**"; " * Does foo."; " */"; "export function foo() {}"]
       /\ undocumented_items (_parse_javascript out "foo.js" javascript)
          = [mkItem function "foo" 4 (Some "export function foo()")].
Proof.
  split; [vm_compute; reflexivity|].
  eexists. split; [vm_compute; reflexivity|].
  split; vm_compute; reflexivity.
Qed.

(** C6 (defect of the code).  A comment block that spans several lines and
    stands right before the declaration is not taken for documentation:
    only the last line before the declaration is searched, and the
    closing line of the block holds no opening delimiter.  The same block
    on one line is recognised. *)
Theorem multiline_jsdoc_not_documentation :
  _has_jsdoc (Samples.nl ["/**"; " * Does foo."; " */"]) = false
  /\ undocumented_items
       (_parse_javascript Samples.documented_foo_js "foo.js" javascript)
     = [mkItem function "foo" 4 (Some "export function foo()")]
  /\ _has_jsdoc (Samples.nl ["/** Does foo. */"]) = true
  /\ undocumented_items
       (_parse_javascript
          (Samples.nl ["/** Does foo. */"; "export function foo() {}"])
          "foo.js" javascript)
     = [].
Proof. repeat split; vm_compute; reflexivity. Qed.

(** ** The kind of the JavaScript and TypeScript items *)

Lemma fold_js_step_Forall (P : UndocumentedItem -> Prop) content ms :
  (forall nm l c, P (mkItem function nm l c)) ->
  forall a, Forall P (undocumented_items a) ->
  Forall P (undocumented_items (fold_left (js_step content) ms a)).
Proof.
  intros HP. induction ms as [|m ms IH]; intros a Ha; simpl; [exact Ha|].
  apply IH. unfold js_step.
  destruct (negb (_has_jsdoc _)); [|exact Ha].
  simpl. apply Forall_app. split; [exact Ha|].
  constructor; [apply HP | constructor].
Qed.

(** C10.  Every item that extraction yields for JavaScript or TypeScript
    content has the type [function]; a match on a class declaration is
    recorded as a function too. *)
Theorem js_items_are_functions :
  (forall content path lang,
     Forall (fun item => type item = function)
       (undocumented_items (_parse_javascript content path lang)))
  /\ undocumented_items
       (_parse_javascript "class Foo(x) {}" "foo.ts" typescript)
     = [mkItem function "Foo" 1 (Some "class Foo(x)")].
Proof.
  split.
  - intros content path lang. unfold _parse_javascript.
    apply fold_js_step_Forall; [reflexivity | constructor].
  - vm_compute. reflexivity.
Qed.

(** ** The threshold on Python docstrings *)

(** C7.  A definition has proper documentation exactly when it carries a
    docstring whose trimmed length exceeds 10; with a docstring of trimmed
    length at most 10 (10 included) the loop of [_parse_python] records it as
    undocumented, with 11 or more it leaves the analysis as it is. *)
Theorem docstring_threshold :
  forall cleandoc gss content (n : Ast.node),
    (_has_proper_docs cleandoc n = true
     <-> exists d, Ast.get_docstring cleandoc n = Some d
                   /\ (10 < Py.len (Py.strip d))%nat)
    /\ (forall d k nm l a,
          Ast.get_docstring cleandoc n = Some d ->
          (Py.len (Py.strip d) <= 10)%nat ->
          definition_of n = Some (k, nm, l) ->
          _has_proper_docs cleandoc n = false
          /\ py_step cleandoc gss content a n
             = append_item a (mkItem k nm l (gss content n)))
    /\ (forall d a,
          Ast.get_docstring cleandoc n = Some d ->
          (11 <= Py.len (Py.strip d))%nat ->
          _has_proper_docs cleandoc n = true
          /\ py_step cleandoc gss content a n = a).
Proof.
  intros cleandoc gss content n. unfold py_step, _has_proper_docs.
  split; [|split].
  - destruct (Ast.get_docstring cleandoc n) as [d|]; split.
    + intros H. exists d. split; [reflexivity|].
      apply Nat.ltb_lt. exact H.
    + intros (d' & Hd & Hlen). injection Hd as <-. apply Nat.ltb_lt. exact Hlen.
    + discriminate.
    + intros (d' & Hd & _). discriminate.
  - intros d k nm l a Hd Hlen Hdef. rewrite Hd, Hdef.
    assert ((10 <? Py.len (Py.strip d))%nat = false) as ->
      by (apply Nat.ltb_ge; exact Hlen).
    split; reflexivity.
  - intros d a Hd Hlen. rewrite Hd.
    assert ((10 <? Py.len (Py.strip d))%nat = true) as ->
      by (apply Nat.ltb_lt; lia).
    split; [reflexivity|].
    destruct (definition_of n) as [[[k nm] l]|]; reflexivity.
Qed.

Lemma docstring_threshold_witness :
  (_has_proper_docs Samples.cleandoc Samples.ten_doc_def = false
   /\ py_step Samples.cleandoc Samples.get_source_segment ""
        Samples.blank_analysis Samples.ten_doc_def
      = append_item Samples.blank_analysis (mkItem function "f" 1 None))
  /\ (_has_proper_docs Samples.cleandoc Samples.eleven_doc_def = true
      /\ py_step Samples.cleandoc Samples.get_source_segment ""
           Samples.blank_analysis Samples.eleven_doc_def
         = Samples.blank_analysis).
Proof.
  split.
  - apply (proj1 (proj2 (docstring_threshold Samples.cleandoc
                           Samples.get_source_segment "" Samples.ten_doc_def))
             "0123456789" function "f" 1 Samples.blank_analysis).
    + reflexivity.
    + vm_compute. lia.
    + reflexivity.
  - apply (proj2 (proj2 (docstring_threshold Samples.cleandoc
                           Samples.get_source_segment ""
                           Samples.eleven_doc_def))
             "0123456789a" Samples.blank_analysis).
    + reflexivity.
    + vm_compute. lia.
Defined.

(** ** The repository scan *)

Lemma ContentFile_nested_ind (P : ContentFile -> Prop) :
  (forall p s e c, P (file p s e c)) ->
  (forall p entries, Forall P entries -> P (dir p entries)) ->
  forall content_file, P content_file.
Proof.
  intros Hfile Hdir. fix IH 1. intros [p s e c|p entries].
  - apply Hfile.
  - apply Hdir.
    refine ((fix go (es : list ContentFile) : Forall P es :=
               match es with
               | [] => Forall_nil_2 P
               | x :: es' => Forall_cons_2 P x es' (IH x) (go es')
               end) entries).
Qed.

Section Scan.

Variable ast_parse : string -> result Ast.node.
Variable cleandoc : string -> string.
Variable get_source_segment : string -> Ast.node -> option string.
Variable b64decode : string -> result string.

#[local] Abbreviation process_entry :=
  (process_entry ast_parse cleandoc get_source_segment b64decode).
#[local] Abbreviation _process_directory :=
  (_process_directory ast_parse cleandoc get_source_segment b64decode).
#[local] Abbreviation process_files :=
  (Flat.process_files ast_parse cleandoc get_source_segment b64decode).
#[local] Abbreviation _analyze_file :=
  (_analyze_file ast_parse cleandoc get_source_segment b64decode).

Lemma process_files_app nm fs1 fs2 results c :
  process_files nm (fs1 ++ fs2) results c
  = (rc ← process_files nm fs1 results c; process_files nm fs2 rc.1 rc.2).
Proof.
  revert results c. induction fs1 as [|f fs1 IH]; intros results c.
  - reflexivity.
  - cbn [app Flat.process_files].
    destruct (process_entry nm _ results c) as [[r1 c1]|e]; cbn.
    + apply IH.
    + reflexivity.
Qed.

Lemma process_entry_flat nm content_file :
  forall results c,
    process_entry nm content_file results c
    = process_files nm (Flat.files_of content_file) results c.
Proof.
  induction content_file as [p s e ct|p entries IH]
    using ContentFile_nested_ind; intros results c.
  - cbn [Flat.files_of Flat.process_files Flat.fpath Flat.fsha
         Flat.fencoding Flat.fcontent].
    destruct (process_entry nm (file p s e ct) results c) as [[r1 c1]|err];
      reflexivity.
  - cbn [Flat.files_of CodeScanner.process_entry].
    revert results c. induction IH as [|x es Hx _ IHes]; intros results c.
    + reflexivity.
    + cbn [flat_map]. rewrite process_files_app, <- Hx.
      destruct (process_entry nm x results c) as [[r1 c1]|err]; cbn.
      * apply IHes.
      * reflexivity.
Qed.

Lemma process_directory_flat nm entries :
  forall results c,
    _process_directory nm entries results c
    = process_files nm (flat_map Flat.files_of entries) results c.
Proof.
  induction entries as [|x es IH]; intros results c.
  - reflexivity.
  - cbn [CodeScanner._process_directory flat_map].
    rewrite process_files_app, <- process_entry_flat.
    destruct (process_entry nm x results c) as [[r1 c1]|err]; cbn.
    + apply IH.
    + reflexivity.
Qed.

Lemma analyze_file_supported nm p s e ct c a c' :
  _analyze_file nm p s e ct c = Ok (Some a, c') ->
  _is_supported_file p = true.
Proof.
  unfold CodeScanner._analyze_file.
  destruct (_is_supported_file p); [reflexivity|].
  cbn. intros H. discriminate H.
Qed.

(** The keys of the dictionary after the loop: those it had, and paths of
    supported files of the listing. *)
Lemma process_files_keys nm fs :
  forall results c r c' p,
    process_files nm fs results c = Ok (r, c') ->
    is_Some (r !! p) ->
    is_Some (results !! p)
    \/ exists f, In f fs /\ Flat.fpath f = p /\ _is_supported_file p = true.
Proof.
  induction fs as [|f fs IH]; intros results c r c' p Hrun Hp.
  - cbn in Hrun. injection Hrun as <- <-. left. exact Hp.
  - cbn [Flat.process_files CodeScanner.process_entry] in Hrun.
    destruct (_analyze_file nm (Flat.fpath f) (Flat.fsha f)
                (Flat.fencoding f) (Flat.fcontent f) c)
      as [[[a|] c1]|err] eqn:Han; cbn in Hrun; [| |discriminate Hrun].
    + destruct (IH _ _ _ _ p Hrun Hp) as [Hin|(g & Hg & Hpath & Hsup)].
      * destruct (decide (Flat.fpath f = p)) as [Heq|Hne].
        -- right. exists f. split; [left; reflexivity|]. split; [exact Heq|].
           rewrite <- Heq. eapply analyze_file_supported. exact Han.
        -- left. rewrite lookup_insert_ne in Hin by exact Hne. exact Hin.
      * right. exists g. split; [right; exact Hg|]. split; assumption.
    + destruct (IH _ _ _ _ p Hrun Hp) as [Hin|(g & Hg & Hpath & Hsup)].
      * left. exact Hin.
      * right. exists g. split; [right; exact Hg|]. split; assumption.
Qed.

End Scan.

Lemma supported_file_extension p :
  _is_supported_file p = true
  <-> In (Py.lower (PurePath.suffix p)) supported_extensions.
Proof.
  unfold _is_supported_file, supported_languages, supported_extensions.
  rewrite bool_decide_eq_true, <- elem_of_dom.
  rewrite !dom_insert_L, dom_empty_L, <- list_elem_of_In.
  rewrite !elem_of_cons, elem_of_nil, !elem_of_union, !elem_of_singleton.
  rewrite elem_of_empty. tauto.
Qed.

(** C9.  Every key of the mapping a scan returns is the path of a file of
    the repository whose extension, lower-cased, is one of .py, .js, .jsx,
    .ts, .tsx: files of any other extension have no entry.  For the tree
    with one Markdown file and one Python file, the keys of the mapping are
    the path of the Python file alone. *)
Theorem scan_omits_unsupported_files :
  forall ast_parse cleandoc gss b64decode,
    (forall repo c r c' p,
       scan_repository ast_parse cleandoc gss b64decode repo c = Ok (r, c') ->
       is_Some (r !! p) ->
       In (Py.lower (PurePath.suffix p)) supported_extensions
       /\ exists f, In f (flat_map Flat.files_of (contents repo))
                    /\ Flat.fpath f = p)
    /\ (forall c r c',
          scan_repository ast_parse cleandoc gss b64decode
            Samples.md_and_py c = Ok (r, c') ->
          dom r = {["example.py"]}).
Proof.
  intros ast_parse cleandoc gss b64decode. split.
  - intros repo c r c' p Hscan Hp. unfold scan_repository in Hscan.
    rewrite process_directory_flat in Hscan.
    destruct (process_files_keys _ _ _ _ _ _ _ _ _ _ _ Hscan Hp)
      as [Hin|(f & Hf & Hpath & Hsup)].
    + rewrite lookup_empty in Hin. destruct Hin as [x Hx]. discriminate Hx.
    + split; [apply supported_file_extension; exact Hsup|].
      exists f. split; assumption.
  - intros c r c'. unfold scan_repository, Samples.md_and_py.
    cbn [contents full_name CodeScanner._process_directory
         CodeScanner.process_entry].
    unfold CodeScanner._analyze_file.
    assert (_is_supported_file "README.md" = false) as ->
      by (vm_compute; reflexivity).
    assert (_is_supported_file "example.py" = true) as ->
      by (vm_compute; reflexivity).
    cbn.
    destruct (CacheManager.get c _) as [cached|]; cbn.
    + intros H. injection H as <- <-.
      rewrite dom_insert_L, dom_empty_L. set_solver.
    + destruct (_parse_code ast_parse cleandoc gss _ _) as [a|err]; cbn;
        [|discriminate].
      intros H. injection H as <- <-.
      rewrite dom_insert_L, dom_empty_L. set_solver.
Qed.

Lemma scan_omits_unsupported_files_witness :
  (In (Py.lower (PurePath.suffix "example.py")) supported_extensions
   /\ exists f, In f (flat_map Flat.files_of (contents Samples.md_and_py))
                /\ Flat.fpath f = "example.py")
  /\ dom (<["example.py" :=
             mkAnalysis "example.py" (Some python) true Samples.add_py
               [mkItem function "add" 1 None]]>
            (∅ : gmap string FileAnalysis))
     = {["example.py"]}.
Proof.
  pose proof (scan_omits_unsupported_files Samples.ast_parse Samples.cleandoc
                Samples.get_source_segment Samples.b64decode) as [Hkeys Hdom].
  assert (scan_repository Samples.ast_parse Samples.cleandoc
            Samples.get_source_segment Samples.b64decode Samples.md_and_py
            Samples.no_cache
          = Ok (<["example.py" :=
                   mkAnalysis "example.py" (Some python) true Samples.add_py
                     [mkItem function "add" 1 None]]> ∅,
                Samples.no_cache)) as Hscan
    by (vm_compute; reflexivity).
  split.
  - apply (Hkeys _ _ _ _ "example.py" Hscan).
    rewrite lookup_insert_eq. eexists. reflexivity.
  - apply (Hdom _ _ _ Hscan).
Defined.

(** ** Parse failures *)

Lemma cache_get_set_ne c k k' v :
  k <> k' -> CacheManager.get (CacheManager.set c k v) k' = CacheManager.get c k'.
Proof.
  intros Hne. unfold CacheManager.get, CacheManager.set.
  destruct c as [pool down store fallback]; cbn.
  destruct pool; cbn; [|reflexivity].
  destruct down; cbn; apply lookup_insert_ne; exact Hne.
Qed.


Section Failures.

Variable ast_parse : string -> result Ast.node.
Variable cleandoc : string -> string.
Variable get_source_segment : string -> Ast.node -> option string.
Variable b64decode : string -> result string.

#[local] Abbreviation process_files :=
  (Flat.process_files ast_parse cleandoc get_source_segment b64decode).
#[local] Abbreviation _analyze_file :=
  (_analyze_file ast_parse cleandoc get_source_segment b64decode).




End Failures.




(** ** The order of the items *)

Section WalkOrder.

Import Ast Levels.

Lemma node_size_children n :
  node_size n = S (forest_size (iter_child_nodes n)).
Proof.
  unfold forest_size.
  destruct n; cbn [node_size iter_child_nodes map];
    rewrite ?map_app; cbn [list_sum fold_right];
    rewrite ?list_sum_app; lia.
Qed.

Lemma forest_size_app q r :
  forest_size (q ++ r) = (forest_size q + forest_size r)%nat.
Proof. unfold forest_size. rewrite map_app, list_sum_app. reflexivity. Qed.

Lemma forest_size_cons n q :
  forest_size (n :: q) = (node_size n + forest_size q)%nat.
Proof. reflexivity. Qed.

Lemma forest_size_children q :
  forest_size q
  = (List.length q + forest_size (flat_map iter_child_nodes q))%nat.
Proof.
  induction q as [|n q IH]; [reflexivity|].
  cbn [flat_map List.length]. rewrite forest_size_cons, forest_size_app.
  rewrite node_size_children, IH. lia.
Qed.

(** With fuel for every node, the loop yields every node. *)
Lemma walk_loop_length fuel :
  forall todo,
    (forest_size todo <= fuel)%nat ->
    List.length (walk_loop fuel todo) = forest_size todo.
Proof.
  induction fuel as [|fuel IH]; intros [|n todo] Hfuel; try reflexivity.
  - rewrite forest_size_cons, node_size_children in Hfuel. lia.
  - cbn [walk_loop List.length]. rewrite IH.
    + rewrite forest_size_app, forest_size_cons, node_size_children. lia.
    + rewrite forest_size_app.
      rewrite forest_size_cons, node_size_children in Hfuel. lia.
Qed.

(** [walk] yields every node of the tree: the fuel it starts with is
    enough. *)
Lemma walk_length tree : List.length (walk tree) = node_size tree.
Proof.
  unfold walk. rewrite walk_loop_length; unfold forest_size; cbn; lia.
Qed.

(** A whole level leaves the deque before any node of the next. *)
Lemma walk_loop_level q :
  forall r fuel,
    walk_loop (List.length q + fuel) (q ++ r)
    = (q ++ walk_loop fuel (r ++ flat_map iter_child_nodes q))%list.
Proof.
  induction q as [|n q IH]; intros r fuel.
  - cbn. rewrite app_nil_r. reflexivity.
  - cbn [List.length Nat.add app walk_loop flat_map].
    rewrite <- app_assoc, IH, <- app_assoc. reflexivity.
Qed.

Lemma walk_loop_levels d :
  forall fuel q,
    (forest_size q <= fuel)%nat ->
    (forest_size q <= d)%nat ->
    walk_loop fuel q = concat (levels d q).
Proof.
  induction d as [|d IH]; intros fuel q Hfuel Hd.
  - destruct q as [|n q].
    + destruct fuel; reflexivity.
    + rewrite forest_size_cons, node_size_children in Hd. lia.
  - cbn [levels concat].
    pose proof (forest_size_children q) as Hsize.
    replace fuel with (List.length q + (fuel - List.length q))%nat by lia.
    pose proof (walk_loop_level q [] (fuel - List.length q)) as Hlevel.
    rewrite app_nil_r in Hlevel. cbn [app] in Hlevel. rewrite Hlevel.
    f_equal.
    apply IH; [lia|].
    destruct q as [|n q]; [cbn; lia|]. cbn [List.length] in Hsize. lia.
Qed.

Lemma walk_levels tree :
  walk tree = concat (levels (node_size tree) [tree]).
Proof.
  unfold walk. apply walk_loop_levels; unfold forest_size; cbn; lia.
Qed.

Variable cleandoc : string -> string.
Variable get_source_segment : string -> node -> option string.

Lemma fold_py_step_items content ns :
  forall a,
    undocumented_items
      (fold_left (py_step cleandoc get_source_segment content) ns a)
    = (undocumented_items a
       ++ flat_map (items_of_node cleandoc get_source_segment content) ns)%list.
Proof.
  induction ns as [|n ns IH]; intros a; cbn [fold_left flat_map].
  - rewrite app_nil_r. reflexivity.
  - rewrite IH. unfold py_step, items_of_node.
    destruct (definition_of n) as [[[k nm] l]|]; [|reflexivity].
    destruct (negb (_has_proper_docs cleandoc n)); [|reflexivity].
    cbn. rewrite <- app_assoc. reflexivity.
Qed.

End WalkOrder.

Section MatchOrder.

Import Levels.

Lemma match_here_start r pos s m :
  Re.match_here r pos s = Some m -> Re.start m = pos.
Proof.
  unfold Re.match_here.
  destruct (Re.exec r s [] _) as [[s' gs]|]; [|discriminate].
  intros H. injection H as <-. reflexivity.
Qed.

(** The matches of [finditer] start at or after the position the scan is
    at, each one at or after the one before. *)
Lemma finditer_from_sorted r s :
  forall pos skip,
    Forall (fun m => (pos <= Re.start m)%nat) (Re.finditer_from r pos skip s)
    /\ StronglySorted (fun m1 m2 => (Re.start m1 <= Re.start m2)%nat)
         (Re.finditer_from r pos skip s).
Proof.
  induction s as [|ch s IH]; intros pos skip.
  - destruct skip as [|skip]; cbn [Re.finditer_from].
    + destruct (Re.match_here r pos "") as [m|] eqn:Hm.
      * apply match_here_start in Hm. split.
        -- constructor; [lia | constructor].
        -- constructor; constructor.
      * split; constructor.
    + split; constructor.
  - assert (forall k,
              Forall (fun m => (pos <= Re.start m)%nat)
                (Re.finditer_from r (S pos) k s)) as Hweak.
    { intros k. destruct (IH (S pos) k) as [Hall _].
      eapply Forall_impl; [exact Hall|]. cbn. intros m Hm. lia. }
    destruct skip as [|skip]; cbn [Re.finditer_from].
    + destruct (Re.match_here r pos (String ch s)) as [m|] eqn:Hm.
      * apply match_here_start in Hm. split.
        -- constructor; [lia | apply Hweak].
        -- constructor; [apply IH|]. rewrite Hm. apply Hweak.
      * split; [apply Hweak | apply IH].
    + split; [apply Hweak | apply IH].
Qed.

Lemma count_char_take_mono c s :
  forall p q,
    (p <= q)%nat ->
    (Py.count_char c (Py.take p s) <= Py.count_char c (Py.take q s))%nat.
Proof.
  induction s as [|ch s IH]; intros p q Hpq.
  - destruct p, q; cbn; lia.
  - destruct p as [|p]; [cbn; lia|].
    destruct q as [|q]; [lia|].
    cbn [Py.take Py.count_char].
    specialize (IH p q ltac:(lia)).
    destruct (Ascii.eqb ch c); lia.
Qed.

(** The line number [_parse_javascript] gives to a match at offset [p]. *)
Lemma items_of_match_line content m :
  Forall
    (fun item =>
       line item
       = Z.of_nat
           (Py.count_char (Py.chr 10) (Py.take (Re.start m) content)) + 1)
    (items_of_match content m).
Proof.
  unfold items_of_match, js_step.
  destruct (negb (_has_jsdoc _)); cbn; repeat constructor.
Qed.

Lemma fold_js_step_items content ms :
  forall a,
    undocumented_items (fold_left (js_step content) ms a)
    = (undocumented_items a ++ flat_map (items_of_match content) ms)%list.
Proof.
  induction ms as [|m ms IH]; intros a; cbn [fold_left flat_map].
  - rewrite app_nil_r. reflexivity.
  - rewrite IH. unfold items_of_match, js_step.
    destruct (negb (_has_jsdoc _)); [|reflexivity].
    cbn. rewrite <- app_assoc. reflexivity.
Qed.

Lemma items_of_matches_bounded content p ms :
  Forall (fun m => (p <= Re.start m)%nat) ms ->
  Forall
    (fun item =>
       Z.of_nat (Py.count_char (Py.chr 10) (Py.take p content)) + 1
       <= line item)
    (flat_map (items_of_match content) ms).
Proof.
  induction 1 as [|m ms Hm _ IH]; cbn [flat_map]; [constructor|].
  apply Forall_app. split; [|exact IH].
  eapply Forall_impl; [apply items_of_match_line|].
  cbn. intros item ->.
  pose proof (count_char_take_mono (Py.chr 10) content _ _ Hm). lia.
Qed.

Lemma items_of_matches_sorted content ms :
  StronglySorted (fun m1 m2 => (Re.start m1 <= Re.start m2)%nat) ms ->
  StronglySorted Z.le (map line (flat_map (items_of_match content) ms)).
Proof.
  induction 1 as [|m ms _ IH Hm]; cbn [flat_map map]; [constructor|].
  pose proof (items_of_match_line content m) as Hline.
  pose proof (items_of_matches_bounded content _ _ Hm) as Hrest.
  unfold items_of_match, js_step in *.
  destruct (negb (_has_jsdoc _)); cbn in *; [|exact IH].
  constructor; [exact IH|].
  apply Forall_map. inversion Hline as [|? ? Hl _]; subst.
  eapply Forall_impl; [exact Hrest|]. cbn. intros item Hitem. lia.
Qed.

End MatchOrder.

(** C4, the claim as stated, fails: for a class with a method followed by a
    function, the method (line 2) is listed after the function (line 4). *)
Lemma nested_items_not_in_source_order :
  exists analysis,
    _parse_python Samples.ast_parse Samples.cleandoc
      Samples.get_source_segment Samples.nested_py "nested.py"
    = Ok analysis
    /\ map name (undocumented_items analysis) = ["A"; "f"; "m"]
    /\ map line (undocumented_items analysis) = [1; 4; 2]
    /\ ~ Sorted Z.le (map line (undocumented_items analysis)).
Proof.
  eexists. split; [vm_compute; reflexivity|].
  split; [reflexivity|]. split; [reflexivity|].
  cbn. intros H. apply Sorted_inv in H as [H _].
  apply Sorted_inv in H as [_ H]. apply HdRel_inv in H. lia.
Qed.

(** C4, amended.  For JavaScript and TypeScript content the items are in
    source order: their line numbers never decrease.  For Python content
    they are in the order of [ast.walk], which is breadth first: the
    undocumented definitions among the nodes of depth 0, then those of depth
    1, and so on, every depth in the order of the tree; a nested definition
    comes after every definition that is less deeply nested. *)
Theorem items_follow_walk_order :
  (forall content path lang,
     Sorted Z.le
       (map line (undocumented_items (_parse_javascript content path lang))))
  /\ (forall ast_parse cleandoc gss content path tree,
        ast_parse content = Ok tree ->
        exists analysis,
          _parse_python ast_parse cleandoc gss content path = Ok analysis
          /\ undocumented_items analysis
             = flat_map (Levels.items_of_node cleandoc gss content)
                 (concat (Levels.levels (Ast.node_size tree) [tree]))).
Proof.
  split.
  - intros content path lang. apply StronglySorted_Sorted.
    unfold _parse_javascript. rewrite fold_js_step_items. cbn [app undocumented_items].
    apply items_of_matches_sorted. apply finditer_from_sorted.
  - intros ast_parse cleandoc gss content path tree Hparse.
    unfold _parse_python. rewrite Hparse. cbn. eexists. split; [reflexivity|].
    rewrite fold_py_step_items, walk_levels. reflexivity.
Qed.

Lemma items_follow_walk_order_witness :
  exists analysis,
    _parse_python Samples.ast_parse Samples.cleandoc
      Samples.get_source_segment Samples.nested_py "nested.py"
    = Ok analysis
    /\ undocumented_items analysis
       = flat_map
           (Levels.items_of_node Samples.cleandoc Samples.get_source_segment
              Samples.nested_py)
           (concat
              (Levels.levels (Ast.node_size Samples.nested_tree)
                 [Samples.nested_tree])).
Proof.
  apply (proj2 items_follow_walk_order Samples.ast_parse Samples.cleandoc
           Samples.get_source_segment Samples.nested_py "nested.py"
           Samples.nested_tree).
  vm_compute. reflexivity.
Defined.

(** ** Insertion and the lines of the original *)

Section Lines.

#[local] Open Scope nat_scope.
#[local] Arguments String.append !s1 s2 : simpl nomatch.

Lemma string_app_assoc (a b c : string) :
  ((a ++ b) ++ c)%string = (a ++ (b ++ c))%string.
Proof.
  induction a as [|ch a IH]; simpl; [reflexivity|].
  f_equal. exact IH.
Qed.

Lemma string_app_nil_r (a : string) : (a ++ "")%string = a.
Proof.
  induction a as [|ch a IH]; simpl; [reflexivity|].
  f_equal. exact IH.
Qed.

Lemma no_break_app a b :
  Py.no_break (a ++ b) = Py.no_break a && Py.no_break b.
Proof.
  induction a as [|ch a IH]; simpl; [reflexivity|].
  rewrite IH, andb_assoc. reflexivity.
Qed.

(** A line boundary that closes a text closes its last line: what follows
    is split on its own. *)
Lemma splitlines_from_closed n :
  forall s line rest,
    String.length s <= n ->
    Py.splitlines_from line (s ++ Py.LF ++ rest)
    = (Py.splitlines_from line (s ++ Py.LF) ++ Py.splitlines rest)%list.
Proof.
  assert (forall line rest,
            Py.splitlines_from line (Py.LF ++ rest)
            = (line :: Py.splitlines rest)%list) as Hbase.
  { intros line rest. cbn. destruct rest; reflexivity. }
  induction n as [|n IH]; intros s line rest Hlen.
  - destruct s; [|cbn in Hlen; lia].
    cbn [String.append]. rewrite (Hbase line rest). reflexivity.
  - destruct s as [|c s]; [cbn [String.append]; rewrite (Hbase line rest); reflexivity|].
    cbn [String.length] in Hlen.
    cbn [String.append Py.splitlines_from].
    destruct (Py.islinebreak c) eqn:Hc.
    + destruct s as [|c' s].
      * cbn [String.append]. change (String (Py.chr 10) rest) with (Py.LF ++ rest)%string.
        cbn [Py.LF String.append].
        destruct ((Py.ord c =? 13) && (Py.ord (Py.chr 10) =? 10)).
        -- reflexivity.
        -- change (String (Py.chr 10) rest) with (Py.LF ++ rest)%string.
           rewrite Hbase. reflexivity.
      * cbn [String.append]. cbn [String.length] in Hlen.
        destruct ((Py.ord c =? 13) && (Py.ord c' =? 10)).
        -- rewrite (IH s "" rest) by lia. reflexivity.
        -- change (String c' (s ++ Py.LF ++ rest))
             with ((String c' s) ++ Py.LF ++ rest)%string.
           rewrite (IH (String c' s) "" rest) by (cbn; lia). reflexivity.
    + apply IH. lia.
Qed.

Lemma splitlines_closed s rest :
  Py.splitlines (s ++ Py.LF ++ rest)
  = (Py.splitlines (s ++ Py.LF) ++ Py.splitlines rest)%list.
Proof. unfold Py.splitlines. eapply splitlines_from_closed. reflexivity. Qed.

(** A text without boundary, closed by one, is a single line. *)
Lemma splitlines_from_line s :
  forall line,
    Py.no_break s = true ->
    Py.splitlines_from line (s ++ Py.LF) = [(line ++ s)%string].
Proof.
  induction s as [|c s IH]; intros line Hs.
  - cbn. rewrite string_app_nil_r. reflexivity.
  - cbn in Hs. apply andb_true_iff in Hs as [Hc Hs].
    apply negb_true_iff in Hc.
    cbn [String.append Py.splitlines_from]. rewrite Hc, IH by exact Hs.
    rewrite string_app_assoc. reflexivity.
Qed.

(** The lines [splitlines] yields hold no boundary. *)
Lemma splitlines_from_no_break n :
  forall s line,
    String.length s <= n ->
    Py.no_break line = true ->
    Forall (fun l => Py.no_break l = true) (Py.splitlines_from line s).
Proof.
  induction n as [|n IH]; intros s line Hlen Hline.
  - destruct s; [|cbn in Hlen; lia].
    cbn. destruct line; repeat constructor. exact Hline.
  - destruct s as [|c s].
    { cbn. destruct line; repeat constructor. exact Hline. }
    cbn [String.length] in Hlen. cbn [Py.splitlines_from].
    destruct (Py.islinebreak c) eqn:Hc.
    + destruct s as [|c' s].
      * constructor; [exact Hline | apply IH; [cbn; lia | reflexivity]].
      * cbn [String.length] in Hlen.
        destruct ((Py.ord c =? 13) && (Py.ord c' =? 10));
          (constructor; [exact Hline | apply IH; [cbn; lia | reflexivity]]).
    + apply IH; [lia|].
      rewrite no_break_app, Hline. cbn. rewrite Hc. reflexivity.
Qed.

Lemma splitlines_no_break s :
  Forall (fun l => Py.no_break l = true) (Py.splitlines s).
Proof. eapply splitlines_from_no_break; reflexivity. Qed.

(** Joining texts with line feeds and closing the last one: every text is
    split on its own. *)
Lemma splitlines_join x xs :
  Py.splitlines (Py.join Py.LF (x :: xs) ++ Py.LF)
  = flat_map (fun l => Py.splitlines (l ++ Py.LF)) (x :: xs).
Proof.
  revert x. induction xs as [|y xs IH]; intros x.
  - cbn [Py.join flat_map]. rewrite app_nil_r. reflexivity.
  - change (Py.join Py.LF (x :: y :: xs))
      with (x ++ Py.LF ++ Py.join Py.LF (y :: xs))%string.
    rewrite !string_app_assoc, splitlines_closed, IH. reflexivity.
Qed.

Lemma flat_map_lines ls :
  Forall (fun l => Py.no_break l = true) ls ->
  flat_map (fun l => Py.splitlines (l ++ Py.LF)) ls = ls.
Proof.
  induction 1 as [|l ls Hl _ IH]; [reflexivity|].
  cbn [flat_map]. rewrite IH. unfold Py.splitlines.
  rewrite splitlines_from_line by exact Hl. reflexivity.
Qed.

(** The lines of a text with a block spliced in between two runs of
    lines. *)
Lemma splitlines_spliced before block after :
  Forall (fun l => Py.no_break l = true) before ->
  Forall (fun l => Py.no_break l = true) after ->
  Py.splitlines (Py.join Py.LF (before ++ block :: after) ++ Py.LF)
  = (before ++ Py.splitlines (block ++ Py.LF) ++ after)%list.
Proof.
  intros Hbefore Hafter.
  destruct (before ++ block :: after)%list as [|x xs] eqn:Hlist.
  { destruct before; discriminate Hlist. }
  rewrite splitlines_join, <- Hlist, flat_map_app. cbn [flat_map].
  rewrite !flat_map_lines by assumption. reflexivity.
Qed.

(** A text without boundary that no boundary closes is one line, and none
    when it is empty. *)
Lemma splitlines_from_open s :
  forall line,
    Py.no_break s = true ->
    Py.splitlines_from line s
    = match (line ++ s)%string with
      | EmptyString => []
      | l => [l]
      end.
Proof.
  induction s as [|c s IH]; intros line Hs.
  - rewrite string_app_nil_r. destruct line; reflexivity.
  - cbn in Hs. apply andb_true_iff in Hs as [Hc Hs].
    apply negb_true_iff in Hc.
    cbn [Py.splitlines_from]. rewrite Hc, IH by exact Hs.
    rewrite string_app_assoc. reflexivity.
Qed.

(** Joining texts with line feeds without closing the last one: the last
    text is split as it stands. *)
Lemma splitlines_join_open ls e :
  Py.splitlines (Py.join Py.LF (ls ++ [e]))
  = (flat_map (fun l => Py.splitlines (l ++ Py.LF)) ls
     ++ Py.splitlines e)%list.
Proof.
  induction ls as [|x ls IH]; [reflexivity|].
  cbn [app flat_map]. rewrite <- app_assoc, <- IH.
  destruct (ls ++ [e])%list as [|y ys] eqn:Hlist.
  { destruct ls; discriminate Hlist. }
  change (Py.join Py.LF (x :: y :: ys))
    with (x ++ Py.LF ++ Py.join Py.LF (y :: ys))%string.
  apply splitlines_closed.
Qed.

(** A text that ends in a line feed and an open line that is not empty:
    closing that line adds nothing. *)
Lemma splitlines_open_end a b :
  Py.no_break b = true -> b <> "" ->
  Py.splitlines (a ++ Py.LF ++ b)
  = (Py.splitlines (a ++ Py.LF) ++ [b])%list
  /\ Py.splitlines ((a ++ Py.LF ++ b) ++ Py.LF)
     = (Py.splitlines (a ++ Py.LF) ++ [b])%list.
Proof.
  intros Hb Hne. split.
  - rewrite splitlines_closed. unfold Py.splitlines at 2.
    rewrite splitlines_from_open by exact Hb.
    destruct b; [contradiction | reflexivity].
  - rewrite !string_app_assoc, splitlines_closed.
    unfold Py.splitlines at 2.
    rewrite splitlines_from_line by exact Hb. reflexivity.
Qed.

Lemma no_break_repeat_space n : Py.no_break (Py.repeat_char " " n) = true.
Proof. induction n as [|n IH]; [reflexivity|]. cbn. exact IH. Qed.

Lemma no_break_indent l : Py.no_break (indent_of l) = true.
Proof. apply no_break_repeat_space. Qed.

(** Both documentation blocks end in a line feed and a closing line that
    is not empty. *)
Lemma python_docstring_lines indent docs :
  Py.no_break indent = true ->
  exists front,
    Py.splitlines (python_docstring indent docs)
    = (front ++ [(indent ++ TQ)%string])%list
    /\ Py.splitlines (python_docstring indent docs ++ Py.LF)
       = (front ++ [(indent ++ TQ)%string])%list.
Proof.
  intros Hindent. unfold python_docstring.
  exists (Py.splitlines ((indent ++ TQ ++ Py.strip docs) ++ Py.LF)).
  replace (indent ++ TQ ++ Py.strip docs ++ Py.LF ++ indent ++ TQ)%string
    with ((indent ++ TQ ++ Py.strip docs) ++ Py.LF ++ indent ++ TQ)%string
    by (rewrite !string_app_assoc; reflexivity).
  apply splitlines_open_end.
  - rewrite no_break_app, Hindent. reflexivity.
  - destruct indent; discriminate.
Qed.

Lemma js_docstring_block_lines indent docs :
  Py.no_break indent = true ->
  exists front,
    Py.splitlines (js_docstring indent docs)
    = (front ++ [(indent ++ " */")%string])%list
    /\ Py.splitlines (js_docstring indent docs ++ Py.LF)
       = (front ++ [(indent ++ " */")%string])%list.
Proof.
  intros Hindent. unfold js_docstring.
  set (text := Py.replace_char (Py.chr 10) (Py.LF ++ indent ++ " * ")
                 (Py.strip docs)).
  exists (Py.splitlines
            ((indent ++ "/**" ++ Py.LF ++ indent ++ " * " ++ text)
             ++ Py.LF)).
  replace (indent ++ "/**" ++ Py.LF ++ indent ++ " * " ++ text ++ Py.LF
           ++ indent ++ " */")%string
    with ((indent ++ "/**" ++ Py.LF ++ indent ++ " * " ++ text) ++ Py.LF
          ++ indent ++ " */")%string
    by (rewrite !string_app_assoc; reflexivity).
  apply splitlines_open_end.
  - rewrite no_break_app, Hindent. reflexivity.
  - destruct indent; discriminate.
Qed.

Lemma without_empty_last_snoc ls e :
  without_empty_last (ls ++ [e])
  = match e with
    | EmptyString => ls
    | _ => (ls ++ [e])%list
    end.
Proof.
  unfold without_empty_last. rewrite last_snoc.
  destruct e; [apply removelast_last | reflexivity].
Qed.

(** The lines of a text with a block spliced in between two runs of lines,
    as the text stands: a last line that is empty is not read back. *)
Lemma splitlines_spliced_open before block after front closing :
  Forall (fun l => Py.no_break l = true) before ->
  Forall (fun l => Py.no_break l = true) after ->
  closing <> "" ->
  Py.splitlines block = (front ++ [closing])%list ->
  Py.splitlines (block ++ Py.LF) = (front ++ [closing])%list ->
  Py.splitlines (Py.join Py.LF (before ++ block :: after))
  = without_empty_last (before ++ Py.splitlines block ++ after).
Proof.
  intros Hbefore Hafter Hclosing Hopen Hclosed.
  destruct after as [|e after _] using rev_ind.
  - rewrite app_nil_r, splitlines_join_open, flat_map_lines by exact Hbefore.
    rewrite Hopen, app_assoc, without_empty_last_snoc.
    destruct closing; [contradiction | reflexivity].
  - apply Forall_app in Hafter as [Hafter He].
    apply Forall_inv in He.
    replace (before ++ block :: after ++ [e])%list
      with ((before ++ block :: after) ++ [e])%list
      by (rewrite <- app_assoc; reflexivity).
    rewrite splitlines_join_open, flat_map_app. cbn [flat_map].
    rewrite !flat_map_lines by assumption.
    rewrite Hclosed, <- Hopen.
    replace (before ++ Py.splitlines block ++ after ++ [e])%list
      with ((before ++ Py.splitlines block ++ after) ++ [e])%list
      by (rewrite <- !app_assoc; reflexivity).
    rewrite without_empty_last_snoc.
    unfold Py.splitlines at 2. rewrite splitlines_from_open by exact He.
    cbn [String.append].
    destruct e; [rewrite app_nil_r|]; rewrite <- ?app_assoc; reflexivity.
Qed.

Lemma without_empty_last_keeps ls :
  last ls <> Some "" -> without_empty_last ls = ls.
Proof.
  unfold without_empty_last. intros H.
  destruct (last ls) as [[|c s]|]; [contradiction | reflexivity..].
Qed.

End Lines.

Lemma getitem_in_bounds {A : Type} (l : list A) (i : Z) :
  0 <= i < Z.of_nat (List.length l) ->
  exists x, nth_error l (Z.to_nat i) = Some x /\ Py.getitem l i = Ok x.
Proof.
  intros Hi. unfold Py.getitem.
  destruct (Z.ltb_spec i 0) as [Hneg|_]; [lia|].
  destruct (Z.leb_spec 0 i) as [_|Hneg]; [|lia].
  destruct (Z.ltb_spec i (Z.of_nat (List.length l))) as [_|Hbig]; [|lia].
  cbn [andb].
  destruct (nth_error l (Z.to_nat i)) as [x|] eqn:Hx.
  - exists x. split; reflexivity.
  - apply nth_error_None in Hx. lia.
Qed.

Lemma list_insert_in_bounds {A : Type} (l : list A) (i : Z) (x : A) :
  0 <= i <= Z.of_nat (List.length l) ->
  Py.list_insert l i x
  = (firstn (Z.to_nat i) l ++ x :: skipn (Z.to_nat i) l)%list.
Proof.
  intros Hi. unfold Py.list_insert.
  destruct (Z.ltb_spec i 0) as [Hneg|_]; [lia|].
  rewrite Z.min_l by lia. reflexivity.
Qed.

(** C8, the claim as stated, fails: the blank line that ends a content is
    not among the lines of the text either insertion returns. *)
Lemma insertion_drops_empty_last_line :
  Py.splitlines ("def f():" ++ Py.LF ++ "    pass" ++ Py.LF ++ Py.LF)
  = ["def f():"; "    pass"; ""]
  /\ (exists out,
        _insert_python_docs
          ("def f():" ++ Py.LF ++ "    pass" ++ Py.LF ++ Py.LF)
          (mkItem function "f" 1 None) "Doc."
        = Ok out
        /\ Py.splitlines out
           = ["def f():"; (TQ ++ "Doc.")%string; TQ; "    pass"]
        /\ ~ In "" (Py.splitlines out))
  /\ (exists out,
        _insert_js_docs
          ("def f():" ++ Py.LF ++ "    pass" ++ Py.LF ++ Py.LF)
          (mkItem function "f" 1 None) "Doc."
        = Ok out
        /\ Py.splitlines out
           = ["/**"; " * Doc."; " */"; "def f():"; "    pass"]
        /\ ~ In "" (Py.splitlines out)).
Proof.
  split; [reflexivity|]. split.
  - eexists. split; [vm_compute; reflexivity|].
    split; [reflexivity|]. vm_compute.
    intros [H|[H|[H|[H|[]]]]]; discriminate H.
  - eexists. split; [vm_compute; reflexivity|].
    split; [reflexivity|]. vm_compute.
    intros [H|[H|[H|[H|[H|[]]]]]]; discriminate H.
Qed.

(** C8, amended.  For an item whose line is within the lines of the
    content, each insertion returns a text, and the lines of that text are
    the original lines before the insertion point, the lines of the
    documentation block, and the original lines after it, unchanged and in
    the original order, except that a last original line that is empty is
    not among them.  So every original line is kept when the last line of the
    content is not empty, and for Python also when the block goes after the
    last line.  The Python block goes after the line of the item, the
    JavaScript and TypeScript block before it. *)
Theorem insertion_keeps_lines_but_empty_last :
  forall code item docs,
    1 <= line item <= Z.of_nat (List.length (Py.splitlines code)) ->
    let lines := Py.splitlines code in
    exists l,
      nth_error lines (Z.to_nat (line item - 1)) = Some l
      /\ (let k := Z.to_nat (line item) in
          let block := Py.splitlines (python_docstring (indent_of l) docs) in
          exists out,
            _insert_python_docs code item docs = Ok out
            /\ Py.splitlines out
               = without_empty_last
                   (firstn k lines ++ block ++ skipn k lines)
            /\ (last lines <> Some ""
                \/ line item = Z.of_nat (List.length lines) ->
                Py.splitlines out
                = (firstn k lines ++ block ++ skipn k lines)%list))
      /\ (let k := Z.to_nat (line item - 1) in
          let block := Py.splitlines (js_docstring (indent_of l) docs) in
          exists out,
            _insert_js_docs code item docs = Ok out
            /\ _insert_ts_docs code item docs = Ok out
            /\ Py.splitlines out
               = without_empty_last
                   (firstn k lines ++ block ++ skipn k lines)
            /\ (last lines <> Some "" ->
                Py.splitlines out
                = (firstn k lines ++ block ++ skipn k lines)%list)).
Proof.
  intros code item docs Hline lines.
  change (Py.splitlines code) with lines in Hline.
  destruct (getitem_in_bounds lines (line item - 1)) as (l & Hnth & Hget);
    [lia|].
  pose proof (splitlines_no_break code) as Hlines. fold lines in Hlines.
  assert (forall k, (k < List.length lines)%nat ->
                    last (skipn k lines) = last lines) as Hlast.
  { intros k Hk. rewrite <- (firstn_skipn k lines) at 2.
    destruct (skipn k lines) as [|x xs] eqn:Hskip.
    - apply (f_equal (@List.length string)) in Hskip.
      rewrite length_skipn in Hskip. cbn in Hskip. lia.
    - symmetry. apply last_app_cons. }
  exists l. split; [exact Hnth|]. split.
  - cbn zeta.
    destruct (python_docstring_lines (indent_of l) docs (no_break_indent l))
      as (front & Hopen & Hclosed).
    eexists. split; [|split].
    + unfold _insert_python_docs. fold lines. rewrite Hget. cbn.
      rewrite list_insert_in_bounds by (fold lines in Hline; lia).
      replace (line item - 1 + 1) with (line item) by lia. reflexivity.
    + eapply splitlines_spliced_open;
        [apply Forall_take; exact Hlines | apply Forall_drop; exact Hlines
        | | exact Hopen | exact Hclosed].
      destruct (indent_of l); discriminate.
    + intros Hkeep.
      erewrite splitlines_spliced_open;
        [| apply Forall_take; exact Hlines | apply Forall_drop; exact Hlines
         | | exact Hopen | exact Hclosed];
        [|destruct (indent_of l); discriminate].
      apply without_empty_last_keeps.
      destruct (decide (line item = Z.of_nat (List.length lines)))
        as [Hend|Hin].
      * rewrite Hend, Nat2Z.id, skipn_all, app_nil_r, Hopen, app_assoc,
          last_snoc.
        intros H. injection H as H. destruct (indent_of l); discriminate H.
      * destruct Hkeep as [Hkeep|Hend]; [|contradiction].
        rewrite app_assoc.
        destruct (skipn (Z.to_nat (line item)) lines) as [|x xs] eqn:Hskip.
        { apply (f_equal (@List.length string)) in Hskip.
          rewrite length_skipn in Hskip. cbn in Hskip. lia. }
        rewrite last_app_cons, <- Hskip, Hlast by lia. exact Hkeep.
  - cbn zeta.
    destruct (js_docstring_block_lines (indent_of l) docs (no_break_indent l))
      as (front & Hopen & Hclosed).
    assert (_insert_js_docs code item docs
            = Ok (Py.join Py.LF
                    (firstn (Z.to_nat (line item - 1)) lines
                     ++ js_docstring (indent_of l) docs
                     :: skipn (Z.to_nat (line item - 1)) lines))) as Hjs.
    { unfold _insert_js_docs. fold lines. rewrite Hget. cbn.
      rewrite list_insert_in_bounds by (fold lines in Hline; lia).
      reflexivity. }
    assert (Py.splitlines
              (Py.join Py.LF
                 (firstn (Z.to_nat (line item - 1)) lines
                  ++ js_docstring (indent_of l) docs
                  :: skipn (Z.to_nat (line item - 1)) lines))
            = without_empty_last
                (firstn (Z.to_nat (line item - 1)) lines
                 ++ Py.splitlines (js_docstring (indent_of l) docs)
                 ++ skipn (Z.to_nat (line item - 1)) lines)) as Hout.
    { eapply splitlines_spliced_open;
        [apply Forall_take; exact Hlines | apply Forall_drop; exact Hlines
        | | exact Hopen | exact Hclosed].
      destruct (indent_of l); discriminate. }
    eexists. split; [exact Hjs|]. split; [exact Hjs|].
    split; [exact Hout|].
    intros Hkeep. rewrite Hout. apply without_empty_last_keeps.
    rewrite app_assoc.
    destruct (skipn (Z.to_nat (line item - 1)) lines) as [|x xs] eqn:Hskip.
    { apply (f_equal (@List.length string)) in Hskip.
      rewrite length_skipn in Hskip. cbn in Hskip. fold lines in Hline. lia. }
    rewrite last_app_cons, <- Hskip, Hlast by (fold lines in Hline; lia).
    exact Hkeep.
Qed.

Lemma insertion_keeps_lines_but_empty_last_witness :
  let lines := Py.splitlines Samples.add_py in
  exists l,
    nth_error lines 0 = Some l
    /\ (let block :=
          Py.splitlines (python_docstring (indent_of l) "Adds two numbers.") in
        exists out,
          _insert_python_docs Samples.add_py (mkItem function "add" 1 None)
            "Adds two numbers."
          = Ok out
          /\ Py.splitlines out
             = without_empty_last (firstn 1 lines ++ block ++ skipn 1 lines)
          /\ (last lines <> Some "" \/ 1 = Z.of_nat (List.length lines) ->
              Py.splitlines out
              = (firstn 1 lines ++ block ++ skipn 1 lines)%list))
    /\ (let block :=
          Py.splitlines (js_docstring (indent_of l) "Adds two numbers.") in
        exists out,
          _insert_js_docs Samples.add_py (mkItem function "add" 1 None)
            "Adds two numbers."
          = Ok out
          /\ _insert_ts_docs Samples.add_py (mkItem function "add" 1 None)
               "Adds two numbers."
             = Ok out
          /\ Py.splitlines out
             = without_empty_last (firstn 0 lines ++ block ++ skipn 0 lines)
          /\ (last lines <> Some "" ->
              Py.splitlines out
              = (firstn 0 lines ++ block ++ skipn 0 lines)%list)).
Proof.
  apply (insertion_keeps_lines_but_empty_last Samples.add_py
           (mkItem function "add" 1 None) "Adds two numbers.").
  vm_compute. split; discriminate.
Defined.

(** * Further properties of the code *)

(** ** documenter.py: when an insertion raises *)

Lemma getitem_cases {A : Type} (l : list A) (i : Z) :
  let n := Z.of_nat (List.length l) in
  (- n <= i < n /\ exists x, Py.getitem l i = Ok x)
  \/ ((i < - n \/ n <= i) /\ Py.getitem l i = Raise IndexError).
Proof.
  cbn zeta. unfold Py.getitem.
  set (n := Z.of_nat (List.length l)).
  destruct (Z.ltb_spec i 0) as [Hneg|Hpos].
  - destruct (Z.leb_spec 0 (i + n)) as [Hlo|Hlo]; cbn [andb].
    + destruct (Z.ltb_spec (i + n) n) as [Hhi|Hhi]; [|lia].
      destruct (nth_error l (Z.to_nat (i + n))) as [x|] eqn:Hx.
      * left. split; [lia | exists x; reflexivity].
      * apply nth_error_None in Hx. lia.
    + right. split; [lia | reflexivity].
  - destruct (Z.leb_spec 0 i) as [_|Hlo]; [|lia]. cbn [andb].
    destruct (Z.ltb_spec i n) as [Hhi|Hhi].
    + destruct (nth_error l (Z.to_nat i)) as [x|] eqn:Hx.
      * left. split; [lia | exists x; reflexivity].
      * apply nth_error_None in Hx. lia.
    + right. split; [lia | reflexivity].
Qed.

(** X1.  An insertion raises exactly when [item.line - 1] is no index of
    the list of lines in the sense of Python, negative indices included: with
    [n] lines, [IndexError] for [line <= -n] and for [line > n], a text for
    every line from [1 - n] to [n] (so line 0 and negative lines are taken
    without complaint); on empty content every line raises.  No other error
    comes out of an insertion. *)
Theorem insertion_raises_iff :
  forall code item docs,
    let n := Z.of_nat (List.length (Py.splitlines code)) in
    (_insert_python_docs code item docs = Raise IndexError
     <-> (line item <= - n \/ n < line item))
    /\ ((exists out, _insert_python_docs code item docs = Ok out)
        <-> 1 - n <= line item <= n)
    /\ (_insert_js_docs code item docs = Raise IndexError
        <-> (line item <= - n \/ n < line item))
    /\ ((exists out, _insert_js_docs code item docs = Ok out)
        <-> 1 - n <= line item <= n)
    /\ _insert_ts_docs code item docs = _insert_js_docs code item docs.
Proof.
  intros code item docs n.
  unfold _insert_ts_docs, _insert_python_docs, _insert_js_docs.
  destruct (getitem_cases (Py.splitlines code) (line item - 1))
    as [[Hin (l & Hl)]|[Hout Hl]]; fold n in Hin || fold n in Hout;
    rewrite Hl; cbn.
  - repeat split; try (intros H; discriminate H); try lia;
      try (intros _; eexists; reflexivity).
  - repeat split; try reflexivity; try lia;
      try (intros [out H]; discriminate H);
      match goal with
      | H : exists _, Raise _ = Ok _ |- _ => destruct H as [? H]; discriminate H
      end.
Qed.

(** ** documenter.py: prompts and handlers *)

Lemma find_append {A : Type} (f : A -> bool) (l1 l2 : list A) :
  List.find f (l1 ++ l2)
  = match List.find f l1 with
    | Some x => Some x
    | None => List.find f l2
    end.
Proof.
  induction l1 as [|x l1 IH]; [reflexivity|].
  cbn [app List.find]. destruct (f x); [reflexivity | exact IH].
Qed.

Lemma find_all_false {A : Type} (f : A -> bool) (l : list A) :
  (forall x, In x l -> f x = false) -> List.find f l = None.
Proof.
  induction l as [|x l IH]; intros H; [reflexivity|].
  cbn [List.find]. rewrite (H x) by (left; reflexivity).
  apply IH. intros y Hy. apply H. right. exact Hy.
Qed.

Lemma fold_prompts_lookup (template : option string -> string)
    (items : list UndocumentedItem) :
  forall (prompts : gmap string string) nm,
    fold_left
      (fun prompts item => <[name item := template (code item)]> prompts)
      items prompts !! nm
    = match
        List.find (fun item => bool_decide (name item = nm)) (rev items)
      with
      | Some item => Some (template (code item))
      | None => prompts !! nm
      end.
Proof.
  induction items as [|item items IH]; intros prompts nm.
  - reflexivity.
  - cbn [fold_left rev]. rewrite IH, find_append.
    destruct (List.find _ (rev items)) as [found|]; [reflexivity|].
    cbn [List.find]. destruct (bool_decide_reflect (name item = nm)) as [Heq|Hne].
    + rewrite Heq. apply lookup_insert_eq.
    + apply lookup_insert_ne. exact Hne.
Qed.

(** X2.  The prompts are keyed by item name alone: of several items with
    one name, all get the prompt built from the code of the last of them.  So
    for an item followed by no item of the same name the prompt shows its own
    code, and an earlier item of that name is documented from the code of the
    later one. *)
Theorem prompt_of_last_namesake :
  forall template analysis before item after,
    undocumented_items analysis = (before ++ item :: after)%list ->
    Forall (fun other => name other <> name item) after ->
    build_prompts template analysis !! name item = Some (template (code item))
    /\ forall earlier,
         In earlier before -> name earlier = name item ->
         build_prompts template analysis !! name earlier
         = Some (template (code item)).
Proof.
  intros template analysis before item after Hitems Hafter.
  assert (build_prompts template analysis !! name item
          = Some (template (code item))) as Hlast.
  { unfold build_prompts. rewrite fold_prompts_lookup, Hitems.
    rewrite rev_app_distr. cbn [rev]. rewrite <- app_assoc, find_append.
    assert (List.find (fun other => bool_decide (name other = name item))
              (rev after) = None) as ->.
    { apply find_all_false. intros other Hin. apply in_rev in Hin.
      rewrite Forall_forall in Hafter.
      apply bool_decide_eq_false. apply Hafter.
      apply list_elem_of_In. exact Hin. }
    cbn [app List.find]. rewrite bool_decide_eq_true_2 by reflexivity.
    reflexivity. }
  split; [exact Hlast|].
  intros earlier _ Hname. rewrite Hname. exact Hlast.
Qed.

Lemma prompt_of_last_namesake_witness :
  _build_python_prompts MoreSamples.twice_run !! "run"
  = Some (python_prompt (Some "def run(self):"))
  /\ forall earlier,
       In earlier [mkItem function "run" 1 (Some "def run():")] ->
       name earlier = "run" ->
       _build_python_prompts MoreSamples.twice_run !! name earlier
       = Some (python_prompt (Some "def run(self):")).
Proof.
  apply (prompt_of_last_namesake python_prompt MoreSamples.twice_run
           [mkItem function "run" 1 (Some "def run():")]
           (mkItem function "run" 4 (Some "def run(self):")) []).
  - reflexivity.
  - constructor.
Defined.

Lemma handle_items_errors ai insert prompts items :
  (forall code item docs e, insert code item docs = Raise e -> e = IndexError) ->
  Forall (fun item => is_Some (prompts !! name item)) items ->
  forall code e,
    handle_items ai insert prompts items code = Raise e ->
    e = IndexError \/ service_failure ai e.
Proof.
  intros Hinsert. induction 1 as [|item items [p Hp] _ IH]; intros code e H.
  - discriminate H.
  - cbn [handle_items] in H. rewrite Hp in H. cbn in H.
    destruct (ai p) as [[docs|]|e'] eqn:Hai; cbn in H.
    + destruct (insert code item docs) as [code'|e'] eqn:Hins; cbn in H.
      * eapply IH. exact H.
      * injection H as <-. left. eapply Hinsert. exact Hins.
    + destruct (getitem_cases (Py.splitlines code) (line item - 1))
        as [[_ (l & Hl)]|[_ Hl]]; rewrite Hl in H; cbn in H;
        injection H as <-.
      * right. right. split; [reflexivity|]. exists p. exact Hai.
      * left. reflexivity.
    + injection H as <-. right. left. exists p. exact Hai.
Qed.

Lemma build_prompts_covers template analysis :
  Forall (fun item => is_Some (build_prompts template analysis !! name item))
    (undocumented_items analysis).
Proof.
  apply Forall_forall. intros item Hin. apply list_elem_of_In in Hin.
  unfold build_prompts. rewrite fold_prompts_lookup.
  destruct (List.find _ (rev (undocumented_items analysis))) as [found|] eqn:Hf.
  - eexists. reflexivity.
  - exfalso. pose proof (find_none _ _ Hf item (proj1 (in_rev _ _) Hin)) as Hf'.
    cbn in Hf'. rename Hf' into Hf2. clear Hf. rename Hf2 into Hf.
    rewrite bool_decide_eq_true_2 in Hf by reflexivity. discriminate Hf.
Qed.

Lemma insert_python_errors code item docs e :
  _insert_python_docs code item docs = Raise e -> e = IndexError.
Proof.
  unfold _insert_python_docs.
  destruct (getitem_cases (Py.splitlines code) (line item - 1))
    as [[_ (l & Hl)]|[_ Hl]]; rewrite Hl; cbn; intros H.
  - discriminate H.
  - injection H as <-. reflexivity.
Qed.

Lemma insert_js_errors code item docs e :
  _insert_js_docs code item docs = Raise e -> e = IndexError.
Proof.
  unfold _insert_js_docs.
  destruct (getitem_cases (Py.splitlines code) (line item - 1))
    as [[_ (l & Hl)]|[_ Hl]]; rewrite Hl; cbn; intros H.
  - discriminate H.
  - injection H as <-. reflexivity.
Qed.

(** X3.  What [generate_documentation] raises is the [IndexError] of an
    item whose line is out of range, or comes from the generation call: the
    exception the call raised on a prompt, or the [AttributeError] of
    [None.strip()] when the call returned [None].  The lookup
    [prompts[item['name']]] adds no [KeyError] of its own, since the prompts
    were built from the very items the loop goes through.  So when the call
    returns a text for every prompt, the only error is the [IndexError]. *)
Theorem generate_documentation_errors :
  forall _get_ai_response analysis e,
    generate_documentation _get_ai_response analysis = Raise e ->
    (e = IndexError \/ service_failure _get_ai_response e)
    /\ ((forall prompt, exists text,
           _get_ai_response prompt = Ok (Some text)) ->
        e = IndexError).
Proof.
  intros ai analysis e H.
  assert (e = IndexError \/ service_failure ai e) as Hcases.
  { revert H. unfold generate_documentation.
    destruct (negb (needs_docs analysis)); [discriminate|].
    destruct (language analysis) as [[| |]|];
      unfold _handle_python, _handle_javascript, _handle_typescript,
        _handle_generic, _build_python_prompts, _build_js_prompts,
        _build_ts_prompts;
      try discriminate; intros H.
    - eapply handle_items_errors; [| apply build_prompts_covers | exact H].
      apply insert_python_errors.
    - eapply handle_items_errors; [| apply build_prompts_covers | exact H].
      apply insert_js_errors.
    - eapply handle_items_errors; [| apply build_prompts_covers | exact H].
      apply insert_js_errors. }
  split; [exact Hcases|].
  intros Htext. destruct Hcases as [He|[[p Hp]|[_ [p Hp]]]]; [exact He| |];
    destruct (Htext p) as [text Ht]; congruence.
Qed.

Lemma generate_documentation_errors_witness :
  generate_documentation (Samples.reply "Doc.")
    (mkAnalysis "a.py" (Some python) true "" [mkItem function "f" 1 None])
  = Raise IndexError
  /\ (IndexError = IndexError
      \/ service_failure (Samples.reply "Doc.") IndexError)
  /\ ((forall prompt, exists text,
         Samples.reply "Doc." prompt = Ok (Some text)) ->
      IndexError = IndexError).
Proof.
  assert (generate_documentation (Samples.reply "Doc.")
            (mkAnalysis "a.py" (Some python) true ""
               [mkItem function "f" 1 None])
          = Raise IndexError) as H by (vm_compute; reflexivity).
  split; [exact H|].
  apply (generate_documentation_errors (Samples.reply "Doc.")
           (mkAnalysis "a.py" (Some python) true ""
              [mkItem function "f" 1 None]) IndexError H).
Defined.

(** ** scanner.py: what an analysis records *)

Lemma append_item_analysis_of p l c a item :
  analysis_of p l c a -> analysis_of p l c (append_item a item).
Proof.
  intros (Hp & Hl & Hc & _). unfold analysis_of, append_item. cbn.
  repeat split; try assumption.
  destruct (undocumented_items a); reflexivity.
Qed.

Lemma fold_js_step_analysis_of p l c content ms :
  forall a,
    analysis_of p l c a ->
    analysis_of p l c (fold_left (js_step content) ms a).
Proof.
  induction ms as [|m ms IH]; intros a Ha; [exact Ha|].
  cbn [fold_left]. apply IH. unfold js_step.
  destruct (negb (_has_jsdoc _)); [|exact Ha].
  apply append_item_analysis_of. exact Ha.
Qed.

Lemma fold_py_step_analysis_of cleandoc gss p l c content ns :
  forall a,
    analysis_of p l c a ->
    analysis_of p l c (fold_left (py_step cleandoc gss content) ns a).
Proof.
  induction ns as [|n ns IH]; intros a Ha; [exact Ha|].
  cbn [fold_left]. apply IH. unfold py_step.
  destruct (definition_of n) as [[[k nm] ln]|]; [|exact Ha].
  destruct (negb (_has_proper_docs cleandoc n)); [|exact Ha].
  apply append_item_analysis_of. exact Ha.
Qed.

(** X4.  An analysis that [_parse_code] returns records the path it was
    given, the language its extension stands for and (for a supported
    language) the content as it was; [needs_docs] is set exactly when
    [undocumented_items] is not empty. *)
Theorem parse_code_record :
  forall ast_parse cleandoc gss content p a,
    _parse_code ast_parse cleandoc gss content p = Ok a ->
    path a = p
    /\ language a = supported_languages !! Py.lower (PurePath.suffix p)
    /\ (is_Some (language a) -> original_content a = content)
    /\ (needs_docs a = true <-> undocumented_items a <> []).
Proof.
  intros ast_parse cleandoc gss content p a. unfold _parse_code.
  assert (forall l,
            analysis_of p l content a ->
            path a = p /\ language a = l
            /\ (is_Some (language a) -> original_content a = content)
            /\ (needs_docs a = true <-> undocumented_items a <> [])) as Hrec.
  { intros l (Hp & Hl & Hc & Hn). repeat split; try assumption.
    - intros _. exact Hc.
    - rewrite Hn. destruct (undocumented_items a); [discriminate|].
      intros _. discriminate.
    - rewrite Hn. destruct (undocumented_items a); [congruence|].
      intros _. reflexivity. }
  destruct (supported_languages !! _) as [[| |]|].
  - unfold _parse_python. destruct (ast_parse content) as [tree|e]; cbn;
      [|discriminate].
    intros H. injection H as <-. apply Hrec.
    apply fold_py_step_analysis_of. repeat split.
  - intros H. injection H as <-. apply Hrec. unfold _parse_javascript.
    apply fold_js_step_analysis_of. repeat split.
  - intros H. injection H as <-. apply Hrec. unfold _parse_javascript.
    apply fold_js_step_analysis_of. repeat split.
  - intros H. injection H as <-. cbn. repeat split; try discriminate.
    + intros [x Hx]. discriminate Hx.
    + intros H. exfalso. apply H. reflexivity.
Qed.

Lemma parse_code_record_witness :
  path (_parse_javascript Samples.foo_js "src/foo.jsx" javascript)
  = "src/foo.jsx"
  /\ language (_parse_javascript Samples.foo_js "src/foo.jsx" javascript)
     = supported_languages !! Py.lower (PurePath.suffix "src/foo.jsx")
  /\ (is_Some
        (language (_parse_javascript Samples.foo_js "src/foo.jsx" javascript)) ->
      original_content
        (_parse_javascript Samples.foo_js "src/foo.jsx" javascript)
      = Samples.foo_js)
  /\ (needs_docs (_parse_javascript Samples.foo_js "src/foo.jsx" javascript)
      = true
      <-> undocumented_items
            (_parse_javascript Samples.foo_js "src/foo.jsx" javascript)
          <> []).
Proof.
  apply (parse_code_record Samples.ast_parse Samples.cleandoc
           Samples.get_source_segment Samples.foo_js "src/foo.jsx").
  vm_compute. reflexivity.
Defined.

(** ** scanner.py: the definitions [_parse_python] reports *)

Section Reported.

Import Ast Levels.

Lemma levels_subnode d :
  forall q n,
    In n (concat (levels d q)) -> exists t, In t q /\ subnode n t.
Proof.
  induction d as [|d IH]; intros q n Hn; [destruct Hn|].
  cbn [levels concat] in Hn. apply in_app_or in Hn as [Hn|Hn].
  - exists n. split; [exact Hn | constructor].
  - apply IH in Hn as (c & Hc & Hsub).
    apply in_flat_map in Hc as (t & Ht & Hc).
    exists t. split; [exact Ht|]. econstructor; eassumption.
Qed.

Lemma forest_size_In (t : node) q :
  In t q -> (1 <= List.length q)%nat /\ (1 <= forest_size q)%nat.
Proof.
  destruct q as [|x q]; [intros []|]. intros _.
  rewrite forest_size_cons, node_size_children. cbn. lia.
Qed.

Lemma subnode_levels n t :
  subnode n t ->
  forall q d,
    In t q -> (forest_size q <= d)%nat -> In n (concat (levels d q)).
Proof.
  induction 1 as [|t c Hc _ IH]; intros q d Hq Hd.
  - destruct (forest_size_In _ _ Hq) as [_ Hsize].
    destruct d as [|d]; [lia|]. cbn [levels concat].
    apply in_or_app. left. exact Hq.
  - destruct (forest_size_In _ _ Hq) as [Hlen _].
    pose proof (forest_size_children q) as Hsize.
    destruct d as [|d]; [lia|]. cbn [levels concat].
    apply in_or_app. right. apply IH; [|lia].
    apply in_flat_map. exists t. split; assumption.
Qed.

(** The nodes [ast.walk] yields are the nodes of the tree. *)
Lemma walk_subnode tree n : In n (walk tree) <-> subnode n tree.
Proof.
  rewrite walk_levels. split.
  - intros H. apply levels_subnode in H as (t & [<-|[]] & Hsub). exact Hsub.
  - intros H. eapply subnode_levels; [exact H | left; reflexivity |].
    unfold forest_size. cbn. lia.
Qed.

End Reported.

(** X6.  The items of a Python analysis are those of the definitions
    (functions, async functions and classes) anywhere in the tree, at any
    depth of nesting, that lack a proper docstring: every such definition is
    reported with its kind, name and [lineno], and nothing else is. *)
Theorem python_items_are_undocumented_definitions :
  forall ast_parse cleandoc gss content p tree analysis,
    ast_parse content = Ok tree ->
    _parse_python ast_parse cleandoc gss content p = Ok analysis ->
    forall item,
      In item (undocumented_items analysis)
      <-> exists n k nm l,
            subnode n tree
            /\ definition_of n = Some (k, nm, l)
            /\ _has_proper_docs cleandoc n = false
            /\ item = mkItem k nm l (gss content n).
Proof.
  intros ast_parse cleandoc gss content p tree analysis Hparse.
  unfold _parse_python. rewrite Hparse. cbn. intros H. injection H as <-.
  intros item. rewrite fold_py_step_items. cbn [undocumented_items app].
  rewrite in_flat_map. split.
  - intros (n & Hn & Hitem). apply walk_subnode in Hn.
    unfold Levels.items_of_node in Hitem.
    destruct (definition_of n) as [[[k nm] l]|] eqn:Hdef; [|destruct Hitem].
    destruct (_has_proper_docs cleandoc n) eqn:Hdocs; cbn in Hitem;
      [destruct Hitem|].
    destruct Hitem as [<-|[]]. exists n, k, nm, l. repeat split; assumption.
  - intros (n & k & nm & l & Hsub & Hdef & Hdocs & ->).
    exists n. split; [apply walk_subnode; exact Hsub|].
    unfold Levels.items_of_node. rewrite Hdef, Hdocs. left. reflexivity.
Qed.

Lemma python_items_are_undocumented_definitions_witness :
  In (mkItem function "m" 2 None)
    [ mkItem class "A" 1 None; mkItem function "f" 4 None;
      mkItem function "m" 2 None ]
  <-> exists n k nm l,
        subnode n Samples.nested_tree
        /\ definition_of n = Some (k, nm, l)
        /\ _has_proper_docs Samples.cleandoc n = false
        /\ mkItem function "m" 2 None
           = mkItem k nm l (Samples.get_source_segment Samples.nested_py n).
Proof.
  apply (python_items_are_undocumented_definitions Samples.ast_parse
           Samples.cleandoc Samples.get_source_segment Samples.nested_py
           "nested.py" Samples.nested_tree
           (mkAnalysis "nested.py" (Some python) true Samples.nested_py
              [ mkItem class "A" 1 None; mkItem function "f" 4 None;
                mkItem function "m" 2 None ])).
  - vm_compute. reflexivity.
  - vm_compute. reflexivity.
Defined.

(** ** scanner.py: what [_has_jsdoc] looks at *)

Section LastLine.

#[local] Arguments String.append !s1 s2 : simpl nomatch.

Lemma rstrip_go_space ws : all_space ws = true -> Py.rstrip_go ws = None.
Proof.
  induction ws as [|c ws IH]; [reflexivity|]. simpl.
  intros H. apply andb_true_iff in H as [Hc Hws].
  rewrite IH, Hc by exact Hws. reflexivity.
Qed.

Lemma rstrip_go_app_space x ws :
  all_space ws = true -> Py.rstrip_go (x ++ ws) = Py.rstrip_go x.
Proof.
  intros Hws. induction x as [|c x IH]; simpl.
  - apply rstrip_go_space. exact Hws.
  - rewrite IH. reflexivity.
Qed.

Lemma rstrip_go_app a t t' :
  Py.rstrip_go t = Some t' -> Py.rstrip_go (a ++ t) = Some (a ++ t').
Proof.
  intros Ht. induction a as [|c a IH]; simpl; [exact Ht|].
  rewrite IH. reflexivity.
Qed.

Lemma rstrip_fixed b : Py.rstrip b = b -> b <> "" -> Py.rstrip_go b = Some b.
Proof.
  unfold Py.rstrip. destruct (Py.rstrip_go b) as [t|].
  - intros ->. reflexivity.
  - intros <- H. exfalso. apply H. reflexivity.
Qed.

Lemma rfind_char_absent c b :
  Py.count_char c b = 0%nat -> Py.rfind_char c b = -1.
Proof.
  induction b as [|c' b IH]; [reflexivity|]. simpl.
  destruct (Ascii.eqb c' c); [discriminate|].
  intros H. rewrite IH by exact H. reflexivity.
Qed.

Lemma rfind_char_app c a t :
  0 <= Py.rfind_char c t ->
  Py.rfind_char c (a ++ t) = Z.of_nat (String.length a) + Py.rfind_char c t.
Proof.
  intros Ht. induction a as [|c' a IH]; [simpl; lia|].
  cbn [String.append Py.rfind_char String.length]. cbv zeta. rewrite IH.
  destruct (Z.leb_spec 0 (Z.of_nat (String.length a) + Py.rfind_char c t));
    lia.
Qed.

Lemma drop_app a t : Py.drop (String.length a) (a ++ t) = t.
Proof. induction a as [|c a IH]; [destruct t; reflexivity | exact IH]. Qed.

Lemma app_not_empty a c t : String.eqb (a ++ String c t) "" = false.
Proof. destruct a; reflexivity. Qed.

(** Only the last line with something on it counts. *)
Lemma has_jsdoc_last_line a b ws :
  Py.count_char (Py.chr 10) b = 0%nat ->
  Py.rstrip_go b = Some b ->
  all_space ws = true ->
  _has_jsdoc (a ++ Py.LF ++ b ++ ws)
  = bool_decide (is_Some (Re.search jsdoc_pattern b)).
Proof.
  intros Hlf Hb Hws. unfold _has_jsdoc, Py.rstrip.
  replace (a ++ Py.LF ++ b ++ ws) with ((a ++ Py.LF ++ b) ++ ws)
    by (rewrite !string_app_assoc; reflexivity).
  rewrite rstrip_go_app_space by exact Hws.
  rewrite (rstrip_go_app a (Py.LF ++ b) (Py.LF ++ b))
    by (apply (rstrip_go_app Py.LF); exact Hb).
  unfold Py.LF at 1. cbn [String.append]. rewrite app_not_empty.
  change (String (Py.chr 10) b) with (Py.LF ++ b).
  assert (Py.rfind_char (Py.chr 10) (Py.LF ++ b) = 0) as Hfirst.
  { simpl. rewrite rfind_char_absent by exact Hlf. reflexivity. }
  rewrite rfind_char_app by lia. rewrite Hfirst.
  destruct (Z.eqb_spec (Z.of_nat (String.length a) + 0) (-1)) as [Hneg|_];
    [lia|]. cbn [negb].
  replace (Z.to_nat (Z.of_nat (String.length a) + 0 + 1))
    with (String.length (a ++ Py.LF)).
  - replace (a ++ Py.LF ++ b) with ((a ++ Py.LF) ++ b)
      by (rewrite string_app_assoc; reflexivity).
    rewrite drop_app. reflexivity.
  - induction a as [|c a IH]; [reflexivity|]. simpl. simpl in IH. lia.
Qed.

Lemma has_jsdoc_one_line b :
  Py.count_char (Py.chr 10) b = 0%nat ->
  Py.rstrip_go b = Some b ->
  _has_jsdoc b = bool_decide (is_Some (Re.search jsdoc_pattern b)).
Proof.
  intros Hlf Hb. unfold _has_jsdoc, Py.rstrip. rewrite Hb.
  destruct b as [|c b]; [discriminate Hb|]. cbn [String.eqb].
  rewrite rfind_char_absent by exact Hlf. reflexivity.
Qed.

Lemma has_jsdoc_space ws : all_space ws = true -> _has_jsdoc ws = false.
Proof.
  intros Hws. unfold _has_jsdoc, Py.rstrip.
  rewrite rstrip_go_space by exact Hws. reflexivity.
Qed.

(** The closing line of a block comment, at any indentation, holds no
    opening delimiter. *)
Lemma closing_line_search n :
  forall pos,
    Re.search_from jsdoc_pattern pos (Py.repeat_char " " n ++ " */") = None.
Proof.
  induction n as [|n IH]; intros pos; [reflexivity|].
  cbn [Py.repeat_char String.append Re.search_from].
  rewrite IH. reflexivity.
Qed.

Lemma closing_line_facts n :
  Py.count_char (Py.chr 10) (Py.repeat_char " " n ++ " */") = 0%nat
  /\ Py.rstrip_go (Py.repeat_char " " n ++ " */")
     = Some (Py.repeat_char " " n ++ " */").
Proof.
  split.
  - induction n as [|n IH]; [reflexivity | exact IH].
  - apply rstrip_go_app. reflexivity.
Qed.

End LastLine.

(** X7.  [_has_jsdoc] reads one line: the last line of the preceding code
    that is not blank.  Whatever stands on the lines before it, and whatever
    white space follows it, the answer is the one for that line alone; and
    preceding code of white space only (a declaration at the top of the
    file) has no documentation. *)
Theorem has_jsdoc_reads_last_line :
  (forall ws, all_space ws = true -> _has_jsdoc ws = false)
  /\ (forall a b ws,
        Py.count_char (Py.chr 10) b = 0%nat ->
        Py.rstrip b = b -> b <> "" ->
        all_space ws = true ->
        _has_jsdoc (a ++ Py.LF ++ b ++ ws) = _has_jsdoc b).
Proof.
  split; [apply has_jsdoc_space|].
  intros a b ws Hlf Hb Hne Hws.
  pose proof (rstrip_fixed b Hb Hne) as Hgo.
  rewrite has_jsdoc_last_line, has_jsdoc_one_line by assumption.
  reflexivity.
Qed.

Lemma has_jsdoc_reads_last_line_witness :
  _has_jsdoc ("  " ++ Py.LF) = false
  /\ _has_jsdoc ("/** Adds." ++ Py.LF ++ "const x = 1;" ++ Py.LF ++ "  ")
     = _has_jsdoc "const x = 1;".
Proof.
  pose proof has_jsdoc_reads_last_line as [Hspace Hline]. split.
  - apply Hspace. reflexivity.
  - apply (Hline "/** Adds." "const x = 1;" (Py.LF ++ "  "));
      [reflexivity | reflexivity | discriminate | reflexivity].
Defined.

(** X8.  [_has_jsdoc] never recognises a block that [_insert_js_docs]
    writes: preceding code that ends with such a block (at any indentation,
    for any generated text, after any text, white space following) counts as
    undocumented, so a function documented by the tool is reported again by
    the next scan. *)
Theorem has_jsdoc_rejects_inserted_block :
  forall before n docs ws,
    all_space ws = true ->
    _has_jsdoc (before ++ js_docstring (Py.repeat_char " " n) docs ++ ws)
    = false.
Proof.
  intros before n docs ws Hws. unfold js_docstring.
  set (indent := Py.repeat_char " " n).
  set (text := Py.replace_char (Py.chr 10) (Py.LF ++ indent ++ " * ")
                 (Py.strip docs)).
  replace (before
           ++ (indent ++ "/**" ++ Py.LF ++ indent ++ " * " ++ text ++ Py.LF
               ++ indent ++ " */") ++ ws)
    with ((before ++ indent ++ "/**" ++ Py.LF ++ indent ++ " * " ++ text)
          ++ Py.LF ++ (indent ++ " */") ++ ws)
    by (rewrite !string_app_assoc; reflexivity).
  destruct (closing_line_facts n) as [Hlf Hgo].
  rewrite has_jsdoc_last_line by assumption.
  unfold Re.search. fold indent. unfold indent.
  rewrite closing_line_search. reflexivity.
Qed.

Lemma has_jsdoc_rejects_inserted_block_witness :
  _has_jsdoc
    ("const x = 1;" ++ Py.LF
     ++ js_docstring (Py.repeat_char " " 2) "Does foo." ++ Py.LF ++ "  ")
  = false.
Proof.
  apply (has_jsdoc_rejects_inserted_block ("const x = 1;" ++ Py.LF) 2
           "Does foo." (Py.LF ++ "  ")).
  reflexivity.
Defined.

(** ** From the scanner to the documenter: JavaScript and TypeScript *)

Section LineNumbers.

#[local] Arguments String.append !s1 s2 : simpl nomatch.
#[local] Open Scope nat_scope.

Lemma splitlines_from_line_open s :
  forall line, line <> "" -> 1 <= List.length (Py.splitlines_from line s).
Proof.
  induction s as [|c s IH]; intros line Hline.
  - destruct line; [contradiction | cbn; lia].
  - cbn [Py.splitlines_from]. destruct (Py.islinebreak c).
    + destruct s as [|c' s]; [cbn; lia|].
      destruct ((Py.ord c =? 13) && (Py.ord c' =? 10)); cbn; lia.
    + apply IH. destruct line; discriminate.
Qed.

Lemma splitlines_from_text s :
  forall line, s <> "" -> 1 <= List.length (Py.splitlines_from line s).
Proof.
  destruct s as [|c s]; intros line Hs; [contradiction|].
  cbn [Py.splitlines_from]. destruct (Py.islinebreak c).
  - destruct s as [|c' s]; [cbn; lia|].
    destruct ((Py.ord c =? 13) && (Py.ord c' =? 10)); cbn; lia.
  - apply splitlines_from_line_open. destruct line; discriminate.
Qed.

Lemma count_char_cons c c' s :
  Py.count_char c (String c' s) <= S (Py.count_char c s).
Proof. cbn. destruct (Ascii.eqb c' c); lia. Qed.

Lemma not_break_not_LF c :
  Py.islinebreak c = false -> Ascii.eqb c (Py.chr 10) = false.
Proof.
  intros H. destruct (Ascii.eqb_spec c (Py.chr 10)) as [->|]; [|reflexivity].
  discriminate H.
Qed.

Lemma CR_not_LF c : (Py.ord c =? 13) = true -> Ascii.eqb c (Py.chr 10) = false.
Proof.
  intros H. destruct (Ascii.eqb_spec c (Py.chr 10)) as [->|]; [|reflexivity].
  discriminate H.
Qed.

(** The line feeds before an offset inside the text are fewer than the
    lines [splitlines] finds. *)
Lemma count_lines_bound n :
  forall s line p,
    String.length s <= n ->
    p < String.length s ->
    Py.count_char (Py.chr 10) (Py.take p s) + 1
    <= List.length (Py.splitlines_from line s).
Proof.
  induction n as [|n IH]; intros s line p Hn Hp; [lia|].
  destruct s as [|c s]; [cbn in Hp; lia|].
  cbn [String.length] in Hn, Hp.
  destruct p as [|p].
  { cbn [Py.take Py.count_char]. apply splitlines_from_text. discriminate. }
  cbn [Py.take Py.splitlines_from Py.count_char].
  destruct (Py.islinebreak c) eqn:Hc.
  - destruct s as [|c' s]; [cbn in Hp; lia|].
    cbn [String.length] in Hn, Hp.
    destruct ((Py.ord c =? 13) && (Py.ord c' =? 10)) eqn:Hcrlf.
    + apply andb_true_iff in Hcrlf as [Hcr _].
      rewrite (CR_not_LF c Hcr). cbn [List.length].
      destruct p as [|p]; [cbn; lia|].
      pose proof (count_char_cons (Py.chr 10) c' (Py.take p s)) as Hle.
      cbn [Py.take].
      specialize (IH s "" p ltac:(lia) ltac:(lia)). lia.
    + cbn [List.length].
      specialize (IH (String c' s) "" p ltac:(cbn; lia) ltac:(cbn; lia)).
      destruct (Ascii.eqb c (Py.chr 10)); lia.
  - rewrite (not_break_not_LF c Hc). apply IH; lia.
Qed.

Lemma match_here_group0_length r pos s m :
  Re.match_here r pos s = Some m ->
  Py.len (Re.group0 m) <= String.length s.
Proof.
  unfold Re.match_here.
  destruct (Re.exec r s [] _) as [[s' gs]|]; [|discriminate].
  intros H. injection H as <-. cbn [Re.group0].
  unfold Py.len. rewrite take_length. lia.
Qed.

(** The matches of the scanner's pattern start inside the text. *)
Lemma finditer_from_inside s :
  forall pos skip,
    Forall (fun m => Re.start m < pos + String.length s)
      (Re.finditer_from js_function_pattern pos skip s).
Proof.
  assert (forall pos t m,
            Re.match_here js_function_pattern pos t = Some m ->
            Re.start m < pos + String.length t) as Hhere.
  { intros pos t m Hm.
    pose proof (js_match_not_empty _ _ _ Hm).
    pose proof (match_here_group0_length _ _ _ _ Hm).
    apply match_here_start in Hm. lia. }
  induction s as [|c s IH]; intros pos skip.
  - destruct skip as [|skip]; cbn [Re.finditer_from]; [|constructor].
    destruct (Re.match_here js_function_pattern pos "") as [m|] eqn:Hm;
      [|constructor].
    constructor; [eapply Hhere; exact Hm | constructor].
  - assert (forall k,
              Forall (fun m => Re.start m < pos + String.length (String c s))
                (Re.finditer_from js_function_pattern (S pos) k s)) as Hrest.
    { intros k. eapply Forall_impl; [apply IH|].
      cbn. intros m Hm. lia. }
    destruct skip as [|skip]; cbn [Re.finditer_from]; [|apply Hrest].
    destruct (Re.match_here js_function_pattern pos (String c s))
      as [m|] eqn:Hm; [|apply Hrest].
    constructor; [eapply Hhere; exact Hm | apply Hrest].
Qed.

Lemma splitlines_from_closed_length n :
  forall s line,
    String.length s <= n ->
    List.length (Py.splitlines_from line (s ++ Py.LF))
    <= S (List.length (Py.splitlines_from line s)).
Proof.
  induction n as [|n IH]; intros s line Hn.
  - destruct s; [|cbn in Hn; lia]. destruct line; simpl; lia.
  - destruct s as [|c s]; [destruct line; simpl; lia|].
    cbn [String.length] in Hn.
    simpl String.append. cbn [Py.splitlines_from].
    destruct (Py.islinebreak c).
    + destruct s as [|c' s].
      * simpl String.append. unfold Py.LF.
        destruct ((Py.ord c =? 13) && (Py.ord (Py.chr 10) =? 10)); simpl; lia.
      * simpl String.append. cbn [String.length] in Hn.
        pose proof (IH s "" ltac:(lia)) as IH1.
        pose proof (IH (String c' s) "" ltac:(cbn; lia)) as IH2.
        simpl String.append in IH2.
        set (crlf := (Py.ord c =? 13) && (Py.ord c' =? 10)) in *.
        cbv beta iota in *. fold crlf.
        destruct crlf; cbn [List.length]; lia.
    + apply IH. lia.
Qed.

Lemma splitlines_closed_length s :
  List.length (Py.splitlines (s ++ Py.LF)) <= S (List.length (Py.splitlines s)).
Proof. eapply splitlines_from_closed_length. reflexivity. Qed.

(** A block of [_insert_js_docs] has two lines or more. *)
Lemma js_docstring_lines indent docs :
  2 <= List.length (Py.splitlines (js_docstring indent docs ++ Py.LF)).
Proof.
  unfold js_docstring.
  set (text := Py.replace_char _ _ _).
  replace ((indent ++ "/**" ++ Py.LF ++ indent ++ " * " ++ text ++ Py.LF
            ++ indent ++ " */") ++ Py.LF)
    with ((indent ++ "/**") ++ Py.LF
          ++ (indent ++ " * " ++ text ++ Py.LF ++ indent ++ " */") ++ Py.LF)
    by (rewrite !string_app_assoc; reflexivity).
  rewrite splitlines_closed, length_app.
  assert (1 <= List.length (Py.splitlines ((indent ++ "/**") ++ Py.LF))).
  { apply splitlines_from_text. destruct indent; discriminate. }
  assert (1 <= List.length
                 (Py.splitlines
                    ((indent ++ " * " ++ text ++ Py.LF ++ indent ++ " */")
                     ++ Py.LF))).
  { apply splitlines_from_text. destruct indent; discriminate. }
  lia.
Qed.

End LineNumbers.

(** An insertion for a line in range leaves a text of more lines. *)
Lemma insert_js_docs_grows code item docs :
  1 <= line item <= Z.of_nat (List.length (Py.splitlines code)) ->
  exists out,
    _insert_js_docs code item docs = Ok out
    /\ (List.length (Py.splitlines code) < List.length (Py.splitlines out))%nat.
Proof.
  intros Hline. set (lines := Py.splitlines code) in *.
  destruct (getitem_in_bounds lines (line item - 1)) as (l & Hnth & Hget);
    [lia|].
  eexists. split.
  - unfold _insert_js_docs. fold lines. rewrite Hget. cbn.
    rewrite list_insert_in_bounds by lia. reflexivity.
  - set (k := Z.to_nat (line item - 1)).
    set (block := js_docstring (indent_of l) docs).
    pose proof (splitlines_no_break code) as Hlines. fold lines in Hlines.
    pose proof (splitlines_spliced (firstn k lines) block (skipn k lines)
                  (Forall_take _ _ _ Hlines) (Forall_drop _ _ _ Hlines))
      as Hsplit.
    pose proof (splitlines_closed_length
                  (Py.join Py.LF (firstn k lines ++ block :: skipn k lines)))
      as Hclosed.
    rewrite Hsplit, !length_app in Hclosed.
    pose proof (js_docstring_lines (indent_of l) docs) as Hblock.
    fold block in Hblock.
    pose proof (length_app (firstn k lines) (skipn k lines)) as Hall.
    rewrite firstn_skipn in Hall. lia.
Qed.

Lemma handle_js_items_outcome ai prompts items :
  Forall (fun item => is_Some (prompts !! name item)) items ->
  forall n code,
    Forall (fun item => 1 <= line item <= Z.of_nat n) items ->
    (n <= List.length (Py.splitlines code))%nat ->
    (exists out, handle_items ai _insert_js_docs prompts items code = Ok out)
    \/ (exists e,
          handle_items ai _insert_js_docs prompts items code = Raise e
          /\ service_failure ai e).
Proof.
  induction 1 as [|item items [p Hp] _ IH]; intros n code Hlines Hn.
  - left. eexists. reflexivity.
  - apply Forall_cons in Hlines as [Hline Hlines].
    cbn [handle_items]. rewrite Hp. cbn.
    destruct (ai p) as [[docs|]|e] eqn:Hai; cbn.
    + destruct (insert_js_docs_grows code item docs) as (out & -> & Hgrow);
        [lia|].
      cbn. apply (IH n); [exact Hlines | lia].
    + right. exists AttributeError.
      destruct (getitem_in_bounds (Py.splitlines code) (line item - 1))
        as (l & _ & ->); [lia|].
      split; [reflexivity|]. right. split; [reflexivity|].
      exists p. exact Hai.
    + right. exists e. split; [reflexivity|]. left. exists p. exact Hai.
Qed.

Lemma js_lines_in_range content p lang :
  Forall
    (fun item =>
       1 <= line item <= Z.of_nat (List.length (Py.splitlines content)))
    (undocumented_items (_parse_javascript content p lang)).
Proof.
  unfold _parse_javascript.
  rewrite fold_js_step_items. cbn [undocumented_items app].
  apply Forall_flat_map. unfold Re.finditer.
  eapply Forall_impl; [apply (finditer_from_inside content 0 0)|].
  cbn beta. intros m Hm.
  eapply Forall_impl; [apply items_of_match_line|].
  cbn beta. intros item ->.
  pose proof (count_lines_bound (String.length content) content ""
                (Re.start m) ltac:(lia) ltac:(lia)) as Hbound.
  unfold Py.splitlines. lia.
Qed.

(** X9.  Every item of a JavaScript or TypeScript analysis has a line
    number from 1 to the number of lines of the content: the invariant that
    [line] indexes a line of [original_content] holds for what
    [_parse_javascript] builds, and an insertion for any of its items into
    that content returns a text. *)
Theorem js_item_lines_in_range :
  forall content p lang,
    Forall
      (fun item =>
         1 <= line item <= Z.of_nat (List.length (Py.splitlines content))
         /\ forall docs,
              exists out, _insert_js_docs content item docs = Ok out)
      (undocumented_items (_parse_javascript content p lang)).
Proof.
  intros content p lang.
  eapply Forall_impl; [apply js_lines_in_range|].
  cbn beta. intros item Hline. split; [exact Hline|].
  intros docs.
  destruct (insert_js_docs_grows content item docs Hline) as (out & Hout & _).
  exists out. exact Hout.
Qed.

(** X10.  For a JavaScript or TypeScript file the way from content to
    documented text fails only by the generation call.  [_parse_code]
    returns an analysis, whatever the content; on it, no insertion of
    [generate_documentation] misses its line (the lines of the items are in
    range and insertions only add lines).  So when the call returns a text
    for every prompt, [generate_documentation] returns a text; and what it
    raises otherwise is what the call raised, or the [AttributeError] of a
    reply that is [None]. *)
Theorem js_documentation_fails_only_by_service :
  forall _get_ai_response ast_parse cleandoc gss content p,
    supported_languages !! Py.lower (PurePath.suffix p) = Some javascript
    \/ supported_languages !! Py.lower (PurePath.suffix p) = Some typescript ->
    exists analysis,
      _parse_code ast_parse cleandoc gss content p = Ok analysis
      /\ ((forall prompt, exists text,
             _get_ai_response prompt = Ok (Some text)) ->
          exists out, generate_documentation _get_ai_response analysis = Ok out)
      /\ (forall e,
            generate_documentation _get_ai_response analysis = Raise e ->
            service_failure _get_ai_response e).
Proof.
  intros ai ast_parse cleandoc gss content p Hlang.
  assert (forall lang,
            lang = javascript \/ lang = typescript ->
            (exists out,
               generate_documentation ai (_parse_javascript content p lang)
               = Ok out)
            \/ (exists e,
                  generate_documentation ai (_parse_javascript content p lang)
                  = Raise e
                  /\ service_failure ai e)) as Hgen.
  { intros lang Hl. unfold generate_documentation.
    destruct (negb (needs_docs _)); [left; eexists; reflexivity|].
    pose proof (fold_js_step_analysis_of p (Some lang) content content
                  (Re.finditer js_function_pattern content)
                  (mkAnalysis p (Some lang) false content [])
                  ltac:(repeat split)) as (_ & Hlanguage & Hcontent & _).
    fold (_parse_javascript content p lang) in Hlanguage, Hcontent.
    rewrite Hlanguage.
    assert (forall template,
              (exists out,
                 handle_items ai _insert_js_docs
                   (build_prompts template (_parse_javascript content p lang))
                   (undocumented_items (_parse_javascript content p lang))
                   (original_content (_parse_javascript content p lang))
                 = Ok out)
              \/ (exists e,
                    handle_items ai _insert_js_docs
                      (build_prompts template
                         (_parse_javascript content p lang))
                      (undocumented_items (_parse_javascript content p lang))
                      (original_content (_parse_javascript content p lang))
                    = Raise e
                    /\ service_failure ai e)) as Hjs.
    { intros template. eapply handle_js_items_outcome;
        [apply build_prompts_covers | apply js_lines_in_range |].
      rewrite Hcontent. reflexivity. }
    destruct Hl as [-> | ->].
    - apply (Hjs js_prompt).
    - apply (Hjs ts_prompt). }
  assert (forall lang,
            lang = javascript \/ lang = typescript ->
            ((forall prompt, exists text, ai prompt = Ok (Some text)) ->
             exists out,
               generate_documentation ai (_parse_javascript content p lang)
               = Ok out)
            /\ (forall e,
                  generate_documentation ai (_parse_javascript content p lang)
                  = Raise e ->
                  service_failure ai e)) as Hboth.
  { intros lang Hl. destruct (Hgen lang Hl) as [[out Hout]|(e & He & Hfail)].
    - split; [intros _; exists out; exact Hout|].
      intros e He. rewrite Hout in He. discriminate He.
    - split.
      + intros Htext. exfalso.
        destruct Hfail as [[q Hq]|[_ [q Hq]]];
          destruct (Htext q) as [text Ht]; congruence.
      + intros e' He'. rewrite He in He'. injection He' as <-. exact Hfail. }
  unfold _parse_code.
  destruct Hlang as [-> | ->].
  - eexists. split; [reflexivity|].
    apply (Hboth javascript). left. reflexivity.
  - eexists. split; [reflexivity|].
    apply (Hboth typescript). right. reflexivity.
Qed.

Lemma js_documentation_fails_only_by_service_witness :
  exists analysis,
    _parse_code Samples.ast_parse Samples.cleandoc Samples.get_source_segment
      Samples.foo_js "foo.js"
    = Ok analysis
    /\ ((forall prompt, exists text,
           Samples.reply "Does foo." prompt = Ok (Some text)) ->
        exists out,
          generate_documentation (Samples.reply "Does foo.") analysis = Ok out)
    /\ (forall e,
          generate_documentation (Samples.reply "Does foo.") analysis
          = Raise e ->
          service_failure (Samples.reply "Does foo.") e).
Proof.
  apply (js_documentation_fails_only_by_service (Samples.reply "Does foo.")
           Samples.ast_parse Samples.cleandoc Samples.get_source_segment
           Samples.foo_js "foo.js").
  left. vm_compute. reflexivity.
Defined.

(** ** utils/cache.py: a value written, read and deleted *)

Lemma cache_get_set_eq c k v :
  CacheManager._pool c = true ->
  CacheManager.get (CacheManager.set c k v) k = Some v.
Proof.
  intros Hpool. unfold CacheManager.get, CacheManager.set.
  destruct c as [pool down store fallback]; cbn in *. subst pool. cbn.
  destruct down; cbn; apply lookup_insert_eq.
Qed.

(** X11.  With a connected manager a value that was set is the value got
    under its key, and no other key is affected, whether the calls to Redis
    succeed or fail throughout; a manager that never connected stores nothing:
    [set] leaves it as it is and every [get] gives [None]. *)
Theorem cache_set_then_get :
  forall c k v,
    (CacheManager._pool c = true ->
     CacheManager.get (CacheManager.set c k v) k = Some v
     /\ forall k', k <> k' ->
          CacheManager.get (CacheManager.set c k v) k' = CacheManager.get c k')
    /\ (CacheManager._pool c = false ->
        CacheManager.set c k v = c
        /\ forall k', CacheManager.get c k' = None).
Proof.
  intros c k v. split.
  - intros Hpool. split; [apply cache_get_set_eq; exact Hpool|].
    intros k' Hne. apply cache_get_set_ne. exact Hne.
  - intros Hpool. unfold CacheManager.get, CacheManager.set.
    rewrite Hpool. cbn. split; reflexivity.
Qed.

Lemma cache_set_then_get_witness :
  (CacheManager.get
     (CacheManager.set (CacheManager.mk true false ∅ ∅) "k"
        Samples.blank_analysis) "k"
   = Some Samples.blank_analysis
   /\ forall k', "k" <> k' ->
        CacheManager.get
          (CacheManager.set (CacheManager.mk true false ∅ ∅) "k"
             Samples.blank_analysis) k'
        = CacheManager.get (CacheManager.mk true false ∅ ∅) k')
  /\ (CacheManager.set Samples.no_cache "k" Samples.blank_analysis
      = Samples.no_cache
      /\ forall k', CacheManager.get Samples.no_cache k' = None).
Proof.
  split.
  - apply (proj1 (cache_set_then_get (CacheManager.mk true false ∅ ∅) "k"
                    Samples.blank_analysis)).
    reflexivity.
  - apply (proj2 (cache_set_then_get Samples.no_cache "k"
                    Samples.blank_analysis)).
    reflexivity.
Defined.

(** X12.  [delete] removes an entry only from Redis.  While the calls to
    Redis succeed, the key is gone afterwards and the other keys are as
    before; while they fail, [delete] returns [False] and changes nothing, so
    a value that [get] serves from the fallback store is still served after it
    was deleted. *)
Theorem cache_delete :
  forall c k,
    CacheManager._pool c = true ->
    (CacheManager.redis_down c = false ->
     (CacheManager.delete c k).1 = true
     /\ CacheManager.get (CacheManager.delete c k).2 k = None
     /\ forall k', k <> k' ->
          CacheManager.get (CacheManager.delete c k).2 k'
          = CacheManager.get c k')
    /\ (CacheManager.redis_down c = true ->
        CacheManager.delete c k = (false, c)
        /\ forall v,
             CacheManager.get
               (CacheManager.delete (CacheManager.set c k v) k).2 k
             = Some v).
Proof.
  intros c k Hpool.
  destruct c as [pool down store fallback]; cbn in Hpool; subst pool.
  unfold CacheManager.delete, CacheManager.get, CacheManager.set. cbn.
  split; intros ->; cbn.
  - split; [reflexivity|]. split; [apply lookup_delete_eq|].
    intros k' Hne. apply lookup_delete_ne. exact Hne.
  - split; [reflexivity|]. intros v. apply lookup_insert_eq.
Qed.

Lemma cache_delete_witness :
  CacheManager.delete (CacheManager.mk true true ∅ ∅) "k"
  = (false, CacheManager.mk true true ∅ ∅)
  /\ forall v,
       CacheManager.get
         (CacheManager.delete
            (CacheManager.set (CacheManager.mk true true ∅ ∅) "k" v) "k").2
         "k"
       = Some v.
Proof.
  apply (proj2 (cache_delete (CacheManager.mk true true ∅ ∅) "k"
                  ltac:(reflexivity))).
  reflexivity.
Defined.

(** X13.  The two stores are never reconciled.  A value set while the calls
    to Redis fail goes to the fallback store only: once the calls succeed
    again, [get] answers from Redis as if it had never been set.  And a value
    set while they succeed is not seen while they fail. *)
Theorem cache_stores_not_reconciled :
  forall c k v,
    CacheManager._pool c = true ->
    (CacheManager.redis_down c = true ->
     CacheManager.get
       (CacheManager.with_redis_down false (CacheManager.set c k v)) k
     = CacheManager.redis c !! k)
    /\ (CacheManager.redis_down c = false ->
        CacheManager.get
          (CacheManager.with_redis_down true (CacheManager.set c k v)) k
        = CacheManager._fallback_cache c !! k).
Proof.
  intros c k v Hpool.
  destruct c as [pool down store fallback]; cbn in Hpool; subst pool.
  unfold CacheManager.with_redis_down, CacheManager.get, CacheManager.set.
  cbn. split; intros ->; reflexivity.
Qed.

Lemma cache_stores_not_reconciled_witness :
  CacheManager.get
    (CacheManager.with_redis_down false
       (CacheManager.set (CacheManager.mk true true ∅ ∅) "k"
          Samples.blank_analysis)) "k"
  = CacheManager.redis (CacheManager.mk true true ∅ ∅) !! "k".
Proof.
  apply (proj1 (cache_stores_not_reconciled (CacheManager.mk true true ∅ ∅)
                  "k" Samples.blank_analysis ltac:(reflexivity))).
  reflexivity.
Defined.

(** ** scanner.py: analyses served from the cache *)

(** X14.  With a connected cache a file is analysed once per repository
    and content identity: after [_analyze_file] returned an analysis for a
    file, the call for any supported file of the same [sha] returns that very
    analysis and leaves the cache as it is, without looking at the path, the
    encoding or the content it is given. *)
Theorem analyze_file_memoised :
  forall ast_parse cleandoc gss b64decode nm p sha e ct c a c1 p' e' ct',
    CacheManager._pool c = true ->
    _analyze_file ast_parse cleandoc gss b64decode nm p sha e ct c
    = Ok (Some a, c1) ->
    _is_supported_file p' = true ->
    _analyze_file ast_parse cleandoc gss b64decode nm p' sha e' ct' c1
    = Ok (Some a, c1).
Proof.
  intros ast_parse cleandoc gss b64decode nm p sha e ct c a c1 p' e' ct'
    Hpool Hfirst Hsup.
  unfold _analyze_file in *. rewrite Hsup. cbn [negb].
  destruct (negb (_is_supported_file p)); [discriminate Hfirst|].
  destruct (CacheManager.get c _) as [cached|] eqn:Hget.
  - injection Hfirst as <- <-. rewrite Hget. reflexivity.
  - destruct (_get_file_content b64decode e ct) as [text|err];
      cbn in Hfirst; [|discriminate Hfirst].
    destruct (_parse_code ast_parse cleandoc gss text p) as [an|err];
      cbn in Hfirst; [|discriminate Hfirst].
    injection Hfirst as <- <-.
    rewrite cache_get_set_eq by exact Hpool. reflexivity.
Qed.

Lemma analyze_file_memoised_witness :
  _analyze_file Samples.ast_parse Samples.cleandoc Samples.get_source_segment
    Samples.b64decode "owner/repo" "copy.py" "sha-js" "utf-8" "def ("
    (CacheManager.set (CacheManager.mk true false ∅ ∅)
       "analysis:owner/repo:sha-js"
       (_parse_javascript Samples.foo_js "foo.js" javascript))
  = Ok (Some (_parse_javascript Samples.foo_js "foo.js" javascript),
        CacheManager.set (CacheManager.mk true false ∅ ∅)
          "analysis:owner/repo:sha-js"
          (_parse_javascript Samples.foo_js "foo.js" javascript)).
Proof.
  apply (analyze_file_memoised Samples.ast_parse Samples.cleandoc
           Samples.get_source_segment Samples.b64decode "owner/repo"
           "foo.js" "sha-js" "utf-8" Samples.foo_js
           (CacheManager.mk true false ∅ ∅)).
  - reflexivity.
  - vm_compute. reflexivity.
  - vm_compute. reflexivity.
Defined.

(** ** scanner.py: the entries of a scan *)

Section Entries.

Variable ast_parse : string -> result Ast.node.
Variable cleandoc : string -> string.
Variable get_source_segment : string -> Ast.node -> option string.
Variable b64decode : string -> result string.

#[local] Abbreviation process_files :=
  (Flat.process_files ast_parse cleandoc get_source_segment b64decode).
#[local] Abbreviation _analyze_file :=
  (_analyze_file ast_parse cleandoc get_source_segment b64decode).

Lemma analyze_file_none nm p s e ct c c1 :
  _analyze_file nm p s e ct c = Ok (None, c1) ->
  _is_supported_file p = false.
Proof.
  unfold CodeScanner._analyze_file.
  destruct (_is_supported_file p); [|reflexivity]. cbn [negb].
  destruct (CacheManager.get c _); [discriminate|].
  destruct (_get_file_content b64decode e ct); cbn; [|discriminate].
  destruct (_parse_code _ _ _ _ _); cbn; discriminate.
Qed.

(** The loop drops no key and gives every supported file its entry. *)
Lemma process_files_covers nm fs :
  forall results c r c',
    process_files nm fs results c = Ok (r, c') ->
    (forall p, is_Some (results !! p) -> is_Some (r !! p))
    /\ (forall f,
          In f fs -> _is_supported_file (Flat.fpath f) = true ->
          is_Some (r !! Flat.fpath f)).
Proof.
  induction fs as [|f fs IH]; intros results c r c' Hrun.
  - cbn in Hrun. injection Hrun as <- <-.
    split; [intros p H; exact H | intros f []].
  - cbn [Flat.process_files CodeScanner.process_entry] in Hrun.
    destruct (_analyze_file nm (Flat.fpath f) (Flat.fsha f)
                (Flat.fencoding f) (Flat.fcontent f) c)
      as [[[a|] c1]|err] eqn:Han; cbn in Hrun; [| |discriminate Hrun].
    + destruct (IH _ _ _ _ Hrun) as [Hkeep Hcover]. split.
      * intros p Hp. apply Hkeep.
        destruct (decide (Flat.fpath f = p)) as [->|Hne].
        -- rewrite lookup_insert_eq. eexists. reflexivity.
        -- rewrite lookup_insert_ne by exact Hne. exact Hp.
      * intros g [<-|Hg] Hsup; [|apply Hcover; assumption].
        apply Hkeep. rewrite lookup_insert_eq. eexists. reflexivity.
    + destruct (IH _ _ _ _ Hrun) as [Hkeep Hcover]. split; [exact Hkeep|].
      intros g [<-|Hg] Hsup; [|apply Hcover; assumption].
      apply analyze_file_none in Han. congruence.
Qed.

(** Without a connected cache every entry is the analysis of a file of
    that path, and the cache is left as it was. *)
Lemma process_files_uncached nm fs :
  forall results c r c',
    CacheManager._pool c = false ->
    process_files nm fs results c = Ok (r, c') ->
    c' = c
    /\ forall p a,
         r !! p = Some a ->
         results !! p = Some a
         \/ exists f text,
              In f fs /\ Flat.fpath f = p
              /\ _get_file_content b64decode (Flat.fencoding f)
                   (Flat.fcontent f) = Ok text
              /\ _parse_code ast_parse cleandoc get_source_segment text p
                 = Ok a.
Proof.
  induction fs as [|f fs IH]; intros results c r c' Hpool Hrun.
  - cbn in Hrun. injection Hrun as <- <-.
    split; [reflexivity | intros p a H; left; exact H].
  - cbn [Flat.process_files CodeScanner.process_entry] in Hrun.
    unfold CodeScanner._analyze_file in Hrun.
    assert (forall k, CacheManager.get c k = None) as Hmiss.
    { intros k. unfold CacheManager.get. rewrite Hpool. reflexivity. }
    assert (forall k v, CacheManager.set c k v = c) as Hset.
    { intros k v. unfold CacheManager.set. rewrite Hpool. reflexivity. }
    rewrite Hmiss in Hrun.
    destruct (negb (_is_supported_file (Flat.fpath f))); cbn in Hrun.
    + destruct (IH _ _ _ _ Hpool Hrun) as [-> Hentries].
      split; [reflexivity|]. intros p a Hp.
      destruct (Hentries p a Hp) as [H|(g & text & Hg & H)];
        [left; exact H|].
      right. exists g, text. split; [right; exact Hg | exact H].
    + destruct (_get_file_content b64decode _ _) as [text|err] eqn:Htext;
        cbn in Hrun; [|discriminate Hrun].
      destruct (_parse_code _ _ _ text _) as [an|err] eqn:Hparse;
        cbn in Hrun; [|discriminate Hrun].
      rewrite Hset in Hrun.
      destruct (IH _ _ _ _ Hpool Hrun) as [-> Hentries].
      split; [reflexivity|]. intros p a Hp.
      destruct (Hentries p a Hp) as [H|(g & text' & Hg & H)].
      * destruct (decide (Flat.fpath f = p)) as [Heq|Hne].
        -- rewrite <- Heq, lookup_insert_eq in H. injection H as <-.
           right. exists f, text. split; [left; reflexivity|].
           split; [exact Heq|]. rewrite <- Heq. split; assumption.
        -- rewrite lookup_insert_ne in H by exact Hne. left. exact H.
      * right. exists g, text'. split; [right; exact Hg | exact H].
Qed.

End Entries.

(** X15.  When a scan returns, its mapping has an entry for a path exactly
    when a file of the repository, at any depth of the tree, has that path
    and a supported extension: no supported file is left out, and nothing
    else is put in. *)
Theorem scan_entries_are_supported_files :
  forall ast_parse cleandoc gss b64decode repo c r c',
    scan_repository ast_parse cleandoc gss b64decode repo c = Ok (r, c') ->
    forall p,
      is_Some (r !! p)
      <-> exists f,
            In f (flat_map Flat.files_of (contents repo))
            /\ Flat.fpath f = p /\ _is_supported_file p = true.
Proof.
  intros ast_parse cleandoc gss b64decode repo c r c' Hscan p.
  unfold scan_repository in Hscan. rewrite process_directory_flat in Hscan.
  split.
  - intros Hp.
    destruct (process_files_keys _ _ _ _ _ _ _ _ _ _ _ Hscan Hp) as [H|H];
      [|exact H].
    rewrite lookup_empty in H. destruct H as [x Hx]. discriminate Hx.
  - intros (f & Hf & <- & Hsup).
    eapply process_files_covers; eassumption.
Qed.

Lemma scan_entries_are_supported_files_witness :
  is_Some
    ((<["example.py" :=
         mkAnalysis "example.py" (Some python) true Samples.add_py
           [mkItem function "add" 1 None]]> ∅ : gmap string FileAnalysis)
     !! "README.md")
  <-> exists f,
        In f (flat_map Flat.files_of (contents Samples.md_and_py))
        /\ Flat.fpath f = "README.md"
        /\ _is_supported_file "README.md" = true.
Proof.
  apply (scan_entries_are_supported_files Samples.ast_parse Samples.cleandoc
           Samples.get_source_segment Samples.b64decode Samples.md_and_py
           Samples.no_cache _ Samples.no_cache).
  vm_compute. reflexivity.
Defined.

(** X16.  A scan with a cache manager that never connected leaves the
    manager as it was, and every entry of its mapping is what [_parse_code]
    makes of the decoded content of a file with that path. *)
Theorem scan_without_cache :
  forall ast_parse cleandoc gss b64decode repo c r c',
    CacheManager._pool c = false ->
    scan_repository ast_parse cleandoc gss b64decode repo c = Ok (r, c') ->
    c' = c
    /\ forall p a,
         r !! p = Some a ->
         exists f text,
           In f (flat_map Flat.files_of (contents repo))
           /\ Flat.fpath f = p
           /\ _get_file_content b64decode (Flat.fencoding f) (Flat.fcontent f)
              = Ok text
           /\ _parse_code ast_parse cleandoc gss text p = Ok a.
Proof.
  intros ast_parse cleandoc gss b64decode repo c r c' Hpool Hscan.
  unfold scan_repository in Hscan. rewrite process_directory_flat in Hscan.
  destruct (process_files_uncached _ _ _ _ _ _ _ _ _ _ Hpool Hscan)
    as [Hc Hentries].
  split; [exact Hc|]. intros p a Hp.
  destruct (Hentries p a Hp) as [H|H]; [|exact H].
  rewrite lookup_empty in H. discriminate H.
Qed.

Lemma scan_without_cache_witness :
  Samples.no_cache = Samples.no_cache
  /\ forall p a,
       (<["example.py" :=
           mkAnalysis "example.py" (Some python) true Samples.add_py
             [mkItem function "add" 1 None]]> ∅ : gmap string FileAnalysis)
       !! p = Some a ->
       exists f text,
         In f (flat_map Flat.files_of (contents Samples.md_and_py))
         /\ Flat.fpath f = p
         /\ _get_file_content Samples.b64decode (Flat.fencoding f)
              (Flat.fcontent f) = Ok text
         /\ _parse_code Samples.ast_parse Samples.cleandoc
              Samples.get_source_segment text p = Ok a.
Proof.
  apply (scan_without_cache Samples.ast_parse Samples.cleandoc
           Samples.get_source_segment Samples.b64decode Samples.md_and_py
           Samples.no_cache).
  - reflexivity.
  - vm_compute. reflexivity.
Defined.

(** ** main.py: the workflow and the GitHub service *)

(** X17.  [run_documentation_workflow] never gets to the scan.  Its first
    statement builds [GitHubService()] without a token, which reads
    [settings.github_token]; [Settings] has no such field, so the call raises
    [AttributeError], whatever the environment, the repository, the cache
    and the services would answer.  With a token that is not empty the
    service is built. *)
Theorem workflow_stops_at_github_service :
  forall settings_value ast_parse cleandoc gss b64decode ai create_pr branch
         repo c,
    Main.run_documentation_workflow settings_value ast_parse cleandoc gss
      b64decode ai create_pr branch repo c
    = Raise AttributeError
    /\ Main.GitHubService settings_value None = Raise AttributeError
    /\ Main.GitHubService settings_value (Some "") = Raise AttributeError
    /\ forall c' token,
         Main.GitHubService settings_value (Some (String c' token))
         = Ok (String c' token).
Proof.
  intros settings_value ast_parse cleandoc gss b64decode ai create_pr branch
    repo c.
  assert (Main.settings_getattr settings_value "github_token"
          = Raise AttributeError) as Hattr.
  { unfold Main.settings_getattr.
    rewrite bool_decide_eq_false_2; [reflexivity|].
    unfold Main.settings_fields. intros Hin.
    repeat (apply elem_of_cons in Hin as [Hin|Hin]; [discriminate Hin|]).
    apply elem_of_nil in Hin. exact Hin. }
  split; [|split; [|split]].
  - unfold Main.run_documentation_workflow, Main.GitHubService.
    rewrite Hattr. reflexivity.
  - exact Hattr.
  - exact Hattr.
  - reflexivity.
Qed.

(** ** utils/logging.py: merging configurations *)

Section Merge.

Import Logging.

Lemma value_nested_ind (P : value -> Prop) :
  (forall items, Forall (fun kv => P kv.2) items -> P (Dict items)) ->
  (forall elems, P (Array elems)) ->
  (forall s, P (Str s)) -> (forall n, P (Int n)) -> (forall b, P (Bool b)) ->
  (forall r, P (Float r)) -> P Null ->
  forall v, P v.
Proof.
  intros Hdict Harray Hstr Hint Hbool Hfloat Hnull. fix IH 1.
  intros [items|elems|s|n|b|r|];
    [|apply Harray|apply Hstr|apply Hint|apply Hbool|apply Hfloat|apply Hnull].
  apply Hdict.
  refine ((fix go (l : list (string * value)) : Forall (fun kv => P kv.2) l :=
             match l with
             | [] => Forall_nil_2 _
             | kv :: l' => Forall_cons_2 _ kv l' (IH kv.2) (go l')
             end) items).
Qed.

Lemma well_formed_dict items :
  well_formed (Dict items)
  <-> NoDup (map fst items) /\ Forall (fun kv => well_formed kv.2) items.
Proof.
  cbn [well_formed]. split; intros [Hdup Hall]; (split; [exact Hdup|]).
  - induction items as [|[k w] items IH]; constructor.
    + apply Hall.
    + cbn [map fst] in Hdup. apply NoDup_cons in Hdup as [_ Hdup].
      apply IH; [exact Hdup | apply Hall].
  - clear Hdup. induction Hall as [|[k w] items Hw _ IH]; [exact I|].
    split; [exact Hw | exact IH].
Qed.

Lemma merge_configs_cons merged key v rest :
  merge_configs merged ((key, v) :: rest)
  = merge_configs (setitem key (merged_value (lookup key merged) v) merged)
      rest.
Proof.
  unfold merge_configs, merged_value. cbn [merge_into].
  destruct (lookup key merged) as [[]|]; destruct v; reflexivity.
Qed.

Lemma lookup_setitem_eq key v items :
  lookup key (setitem key v items) = Some v.
Proof.
  induction items as [|[k w] items IH]; cbn [setitem lookup].
  - rewrite String.eqb_refl. reflexivity.
  - destruct (String.eqb_spec k key) as [->|Hne]; cbn [lookup].
    + rewrite String.eqb_refl. reflexivity.
    + destruct (String.eqb_spec k key); [contradiction | exact IH].
Qed.

Lemma lookup_setitem_ne key key' v items :
  key <> key' -> lookup key' (setitem key v items) = lookup key' items.
Proof.
  intros Hne. induction items as [|[k w] items IH]; cbn [setitem lookup].
  - destruct (String.eqb_spec key key'); [contradiction | reflexivity].
  - destruct (String.eqb_spec k key) as [->|Hk]; cbn [lookup].
    + destruct (String.eqb_spec key key'); [contradiction | reflexivity].
    + rewrite IH. reflexivity.
Qed.

Lemma setitem_same key v items :
  lookup key items = Some v -> setitem key v items = items.
Proof.
  induction items as [|[k w] items IH]; cbn [setitem lookup]; [discriminate|].
  destruct (String.eqb_spec k key) as [->|Hk].
  - intros H. injection H as ->. reflexivity.
  - intros H. rewrite IH by exact H. reflexivity.
Qed.

Lemma lookup_absent key items :
  ~ In key (map fst items) -> lookup key items = None.
Proof.
  induction items as [|[k w] items IH]; [reflexivity|].
  cbn [map fst In lookup]. intros H.
  destruct (String.eqb_spec k key) as [->|Hk]; [exfalso; auto|].
  apply IH. intros Hin. apply H. right. exact Hin.
Qed.

Lemma lookup_present key v items :
  NoDup (map fst items) -> In (key, v) items -> lookup key items = Some v.
Proof.
  induction items as [|[k w] items IH]; [intros _ []|].
  intros Hdup [Heq|Hin].
  - injection Heq as -> ->. cbn. rewrite String.eqb_refl. reflexivity.
  - cbn [map fst] in Hdup. apply NoDup_cons in Hdup as [Hk Hdup].
    cbn [lookup]. destruct (String.eqb_spec k key) as [->|Hne].
    + exfalso. apply Hk, list_elem_of_In. apply (in_map fst) in Hin.
      exact Hin.
    + apply IH; assumption.
Qed.

(** What the merged configuration holds under a key. *)
Lemma merge_configs_lookup custom :
  forall merged key,
    NoDup (map fst custom) ->
    lookup key (merge_configs merged custom)
    = match lookup key custom with
      | Some v => Some (merged_value (lookup key merged) v)
      | None => lookup key merged
      end.
Proof.
  induction custom as [|[k v] custom IH]; intros merged key Hdup;
    [reflexivity|].
  cbn [map fst] in Hdup. apply NoDup_cons in Hdup as [Hk Hdup].
  rewrite merge_configs_cons, IH by exact Hdup. cbn [lookup].
  destruct (String.eqb_spec k key) as [->|Hne].
  - rewrite lookup_absent, lookup_setitem_eq; [reflexivity|].
    intros Hin. apply Hk, list_elem_of_In. exact Hin.
  - rewrite lookup_setitem_ne by exact Hne. reflexivity.
Qed.

(** A configuration that already holds what the loop would store is left as
    it is. *)
Lemma merge_configs_fixed custom :
  forall merged,
    (forall key v,
       In (key, v) custom ->
       lookup key merged = Some (merged_value (lookup key merged) v)) ->
    merge_configs merged custom = merged.
Proof.
  induction custom as [|[k v] custom IH]; intros merged Hheld; [reflexivity|].
  rewrite merge_configs_cons.
  rewrite setitem_same by (apply Hheld; left; reflexivity).
  apply IH. intros key w Hin. apply Hheld. right. exact Hin.
Qed.

Lemma merge_configs_self v :
  well_formed v ->
  match v with
  | Dict items => merge_configs items items = items
  | _ => True
  end.
Proof.
  induction v as [items IH| | | | | |] using value_nested_ind; try (intros; exact I).
  intros Hwf. apply well_formed_dict in Hwf as [Hdup Hall].
  apply merge_configs_fixed. intros key w Hin.
  rewrite (lookup_present _ _ _ Hdup Hin). f_equal.
  rewrite Forall_forall in IH, Hall.
  apply list_elem_of_In in Hin.
  specialize (IH _ Hin (Hall _ Hin)). cbn in IH.
  destruct w; try reflexivity. cbn. rewrite IH. reflexivity.
Qed.

Lemma merge_configs_again v :
  well_formed v ->
  match v with
  | Dict custom =>
      forall base,
        merge_configs (merge_configs base custom) custom
        = merge_configs base custom
  | _ => True
  end.
Proof.
  induction v as [custom IH| | | | | |] using value_nested_ind;
    try (intros; exact I).
  intros Hwf base. pose proof Hwf as Hwf'.
  apply well_formed_dict in Hwf as [Hdup Hall].
  apply merge_configs_fixed. intros key w Hin.
  rewrite merge_configs_lookup, (lookup_present _ _ _ Hdup Hin)
    by exact Hdup.
  f_equal.
  rewrite Forall_forall in IH, Hall. apply list_elem_of_In in Hin.
  pose proof (IH _ Hin (Hall _ Hin)) as IHw. cbn [snd] in IHw.
  pose proof (merge_configs_self w (Hall _ Hin)) as Hself.
  destruct w as [c| | | | | |];
    try (destruct (lookup key base) as [[]|]; reflexivity).
  unfold merged_value.
  destruct (lookup key base) as [[b| | | | | |]|];
    rewrite ?IHw, ?Hself; reflexivity.
Qed.

End Merge.

(** X18.  [merge_configs] is a deep merge in which the custom side wins:
    under a key of [custom] the result holds the merge of the two values when
    both are dictionaries and the custom value otherwise; under any other key
    it holds what [base] holds. *)
Theorem merge_configs_deep :
  forall base custom key,
    NoDup (map fst custom) ->
    Logging.lookup key (Logging.merge_configs base custom)
    = match Logging.lookup key custom with
      | Some v =>
          Some match Logging.lookup key base, v with
               | Some (Logging.Dict b), Logging.Dict c =>
                   Logging.Dict (Logging.merge_configs b c)
               | _, _ => v
               end
      | None => Logging.lookup key base
      end.
Proof.
  intros base custom key Hdup.
  rewrite merge_configs_lookup by exact Hdup. reflexivity.
Qed.

Lemma merge_configs_deep_witness :
  Logging.lookup "handlers"
    (Logging.merge_configs (Logging.get_base_config 20)
       [("handlers",
         Logging.Dict
           [("console", Logging.Dict [("level", Logging.Int 40)])])])
  = Some
      (Logging.Dict
         (Logging.merge_configs
            [ ("console", Logging.Dict
                 [ ("class", Logging.Str "logging.StreamHandler");
                   ("formatter", Logging.Str "standard");
                   ("level", Logging.Int 20);
                   ("stream", Logging.Str "ext://sys.stdout") ]);
              ("file", Logging.Dict
                 [ ("class",
                    Logging.Str "logging.handlers.RotatingFileHandler");
                   ("formatter", Logging.Str "json");
                   ("filename", Logging.Str "logs/app.log");
                   ("maxBytes", Logging.Int 10485760);
                   ("backupCount", Logging.Int 5);
                   ("encoding", Logging.Str "utf8") ]) ]
            [("console", Logging.Dict [("level", Logging.Int 40)])])).
Proof.
  apply (merge_configs_deep (Logging.get_base_config 20)
           [("handlers",
             Logging.Dict
               [("console", Logging.Dict [("level", Logging.Int 40)])])]
           "handlers").
  repeat constructor. intros H. apply elem_of_nil in H. exact H.
Defined.

(** X19.  Merging is idempotent and has the empty dictionary as unit:
    merging a custom configuration (one item per key at every depth) a second
    time changes nothing, merging it into the empty dictionary gives it back,
    and merging the empty dictionary gives the base back. *)
Theorem merge_configs_idempotent :
  forall base custom,
    Logging.well_formed (Logging.Dict custom) ->
    Logging.merge_configs (Logging.merge_configs base custom) custom
    = Logging.merge_configs base custom
    /\ Logging.merge_configs [] custom = custom
    /\ Logging.merge_configs base [] = base.
Proof.
  intros base custom Hwf. split; [|split].
  - apply (merge_configs_again (Logging.Dict custom) Hwf).
  - assert (forall l : list (string * Logging.value),
              NoDup (map fst l) ->
              forall merged,
                (forall k, In k (map fst l) -> ~ In k (map fst merged)) ->
                Logging.merge_configs merged l = (merged ++ l)%list) as Happ.
    { induction l as [|[k v] l IHl]; intros Hdup merged Hfresh.
      - rewrite app_nil_r. reflexivity.
      - cbn [map fst] in Hdup. apply NoDup_cons in Hdup as [Hk Hdup].
        rewrite merge_configs_cons.
        rewrite (lookup_absent k merged)
          by (apply Hfresh; left; reflexivity).
        change (Logging.merged_value None v) with v.
        assert (Logging.setitem k v merged = (merged ++ [(k, v)])%list) as ->.
        { assert (~ In k (map fst merged)) as Hnew
            by (apply Hfresh; left; reflexivity).
          clear - Hnew. induction merged as [|[k' w] merged IHm];
            [reflexivity|].
          cbn [Logging.setitem app]. cbn [map fst In] in Hnew.
          destruct (String.eqb_spec k' k) as [->|Hne];
            [exfalso; apply Hnew; left; reflexivity|].
          rewrite IHm; [reflexivity|]. intros H. apply Hnew. right. exact H. }
        rewrite IHl; [rewrite <- app_assoc; reflexivity | exact Hdup |].
        intros k0 Hk0. rewrite map_app, in_app_iff. cbn [map fst In].
        intros [Hin|[<-|[]]].
        + apply (Hfresh k0); [right; exact Hk0 | exact Hin].
        + apply Hk, list_elem_of_In. exact Hk0. }
    apply well_formed_dict in Hwf as [Hdup _].
    rewrite Happ; [reflexivity | exact Hdup | intros k _ []].
  - reflexivity.
Qed.

Lemma merge_configs_idempotent_witness :
  Logging.merge_configs
    (Logging.merge_configs (Logging.get_base_config 20)
       [("version", Logging.Int 2);
        ("loggers", Logging.Dict [("app", Logging.Dict [])])])
    [("version", Logging.Int 2);
     ("loggers", Logging.Dict [("app", Logging.Dict [])])]
  = Logging.merge_configs (Logging.get_base_config 20)
      [("version", Logging.Int 2);
       ("loggers", Logging.Dict [("app", Logging.Dict [])])]
  /\ Logging.merge_configs []
       [("version", Logging.Int 2);
        ("loggers", Logging.Dict [("app", Logging.Dict [])])]
     = [("version", Logging.Int 2);
        ("loggers", Logging.Dict [("app", Logging.Dict [])])]
  /\ Logging.merge_configs (Logging.get_base_config 20) []
     = Logging.get_base_config 20.
Proof.
  apply (merge_configs_idempotent (Logging.get_base_config 20)
           [("version", Logging.Int 2);
            ("loggers", Logging.Dict [("app", Logging.Dict [])])]).
  cbn. repeat split; repeat constructor; set_solver.
Defined.

(** ** utils/logging.py: the overrides of the environment *)

Section Overrides.

Import Logging.

Lemma set_level_ok outer inner level config members target :
  lookup outer config = Some (Dict members) ->
  lookup inner members = Some (Dict target) ->
  set_level outer inner level config
  = inr (setitem outer
           (Dict (setitem inner (Dict (setitem "level" (Int level) target))
                    members))
           config).
Proof.
  intros Houter Hinner. unfold set_level, subscript.
  rewrite Houter, Hinner. reflexivity.
Qed.

Lemma level_at_set outer inner level config members target :
  level_at outer inner
    (setitem outer
       (Dict (setitem inner (Dict (setitem "level" (Int level) target))
                members))
       config)
  = inr (Int level).
Proof.
  unfold level_at, subscript. rewrite !lookup_setitem_eq. reflexivity.
Qed.

Lemma level_at_other outer outer' inner v config :
  outer <> outer' ->
  level_at outer' inner (setitem outer v config) = level_at outer' inner config.
Proof.
  intros Hne. unfold level_at, subscript.
  rewrite lookup_setitem_ne by exact Hne. reflexivity.
Qed.

(** A dictionary under [outer] and [inner] in the base stays one after a
    custom configuration that does not put another kind of value there. *)
Lemma merge_keeps_dicts outer inner base custom members target :
  lookup outer base = Some (Dict members) ->
  lookup inner members = Some (Dict target) ->
  NoDup (map fst custom) ->
  dict_at outer inner custom ->
  exists members' target',
    lookup outer (merge_configs base custom) = Some (Dict members')
    /\ lookup inner members' = Some (Dict target').
Proof.
  intros Houter Hinner Hdup Hat. unfold dict_at in Hat.
  rewrite merge_configs_lookup by exact Hdup. rewrite Houter.
  destruct (lookup outer custom) as [[group| | | | | |]|]; try contradiction.
  - destruct Hat as [Hgroup Hat]. cbn [merged_value].
    assert (exists target',
              lookup inner (merge_configs members group)
              = Some (Dict target')) as [target' Htarget].
    { rewrite merge_configs_lookup by exact Hgroup. rewrite Hinner.
      destruct (lookup inner group) as [[t| | | | | |]|]; try contradiction;
        eexists; reflexivity. }
    exists (merge_configs members group), target'.
    split; [reflexivity | exact Htarget].
  - exists members, target. split; [reflexivity | exact Hinner].
Qed.

Lemma set_both_levels console root config h c l r :
  lookup "handlers" config = Some (Dict h) ->
  lookup "console" h = Some (Dict c) ->
  lookup "loggers" config = Some (Dict l) ->
  lookup "" l = Some (Dict r) ->
  exists config',
    match set_level "handlers" "console" console config with
    | inl e => inl e
    | inr config => set_level "loggers" "" root config
    end = inr config'
    /\ level_at "handlers" "console" config' = inr (Int console)
    /\ level_at "loggers" "" config' = inr (Int root).
Proof.
  intros Hh Hc Hl Hr.
  rewrite (set_level_ok _ _ _ _ _ _ Hh Hc).
  rewrite (set_level_ok "loggers" "" root _ l r);
    [|rewrite lookup_setitem_ne by discriminate; exact Hl | exact Hr].
  eexists. split; [reflexivity|]. split.
  - rewrite level_at_other by discriminate. apply level_at_set.
  - apply level_at_set.
Qed.

End Overrides.

(** X20.  The overrides of the environment win over the configuration
    file.  When the file names no configuration, or one whose items
    [handlers], [handlers.console], [loggers] and the root logger, where
    present, are dictionaries, [configure_logging] reaches [dictConfig]
    with a configuration where, in production, the console handler is at
    WARNING and the root logger at INFO and, in development, both are at
    DEBUG, whatever levels the file and [default_level] ask for; in any
    other environment the merged configuration is passed as it is. *)
Theorem env_overrides_win :
  forall app_env default_level file_config,
    match file_config with
    | Some custom =>
        NoDup (map fst custom)
        /\ Logging.dict_at "handlers" "console" custom
        /\ Logging.dict_at "loggers" "" custom
    | None => True
    end ->
    exists config,
      Logging.configured app_env default_level file_config true = inr config
      /\ (app_env = "production" ->
          Logging.level_at "handlers" "console" config
          = inr (Logging.Int Logging.WARNING)
          /\ Logging.level_at "loggers" "" config
             = inr (Logging.Int Logging.INFO))
      /\ (app_env = "development" ->
          Logging.level_at "handlers" "console" config
          = inr (Logging.Int Logging.DEBUG)
          /\ Logging.level_at "loggers" "" config
             = inr (Logging.Int Logging.DEBUG))
      /\ (app_env <> "production" -> app_env <> "development" ->
          Logging.configured app_env default_level file_config false
          = inr config).
Proof.
  intros app_env default_level file_config Hfile.
  unfold Logging.configured.
  set (merged := match file_config with
                 | Some custom =>
                     Logging.merge_configs
                       (Logging.get_base_config default_level) custom
                 | None => Logging.get_base_config default_level
                 end).
  assert (exists h c l r,
            Logging.lookup "handlers" merged = Some (Logging.Dict h)
            /\ Logging.lookup "console" h = Some (Logging.Dict c)
            /\ Logging.lookup "loggers" merged = Some (Logging.Dict l)
            /\ Logging.lookup "" l = Some (Logging.Dict r))
    as (h & c & l & r & Hh & Hc & Hl & Hr).
  { subst merged. destruct file_config as [custom|].
    - destruct Hfile as (Hdup & Hhandlers & Hloggers).
      destruct (merge_keeps_dicts "handlers" "console"
                  (Logging.get_base_config default_level) custom _ _
                  eq_refl eq_refl Hdup Hhandlers) as (h & c & Hh & Hc).
      destruct (merge_keeps_dicts "loggers" ""
                  (Logging.get_base_config default_level) custom _ _
                  eq_refl eq_refl Hdup Hloggers) as (l & r & Hl & Hr).
      exists h, c, l, r. repeat split; assumption.
    - eexists _, _, _, _. repeat split; reflexivity. }
  unfold Logging.apply_env_overrides.
  destruct (String.eqb_spec app_env "production") as [->|Hprod].
  - destruct (set_both_levels Logging.WARNING Logging.INFO merged h c l r
                Hh Hc Hl Hr) as (config & -> & Hconsole & Hroot).
    exists config. split; [reflexivity|]. split; [intros _; split; assumption|].
    split; [discriminate | intros H; contradiction].
  - destruct (String.eqb_spec app_env "development") as [->|Hdev].
    + destruct (set_both_levels Logging.DEBUG Logging.DEBUG merged h c l r
                  Hh Hc Hl Hr) as (config & -> & Hconsole & Hroot).
      exists config. split; [reflexivity|]. split; [discriminate|].
      split; [intros _; split; assumption | intros _ H; contradiction].
    + exists merged. split; [reflexivity|]. split; [intros H; contradiction|].
      split; [intros H; contradiction | reflexivity].
Qed.

Lemma env_overrides_win_witness :
  exists config,
    Logging.configured "production" 10
      (Some [("handlers",
              Logging.Dict
                [("console", Logging.Dict [("level", Logging.Int 10)])])])
      true
    = inr config
    /\ ("production" = "production" ->
        Logging.level_at "handlers" "console" config
        = inr (Logging.Int Logging.WARNING)
        /\ Logging.level_at "loggers" "" config
           = inr (Logging.Int Logging.INFO))
    /\ ("production" = "development" ->
        Logging.level_at "handlers" "console" config
        = inr (Logging.Int Logging.DEBUG)
        /\ Logging.level_at "loggers" "" config
           = inr (Logging.Int Logging.DEBUG))
    /\ ("production" <> "production" -> "production" <> "development" ->
        Logging.configured "production" 10
          (Some [("handlers",
                  Logging.Dict
                    [("console", Logging.Dict [("level", Logging.Int 10)])])])
          false
        = inr config).
Proof.
  apply (env_overrides_win "production" 10
           (Some [("handlers",
                   Logging.Dict
                     [("console", Logging.Dict [("level", Logging.Int 10)])])])).
  split; [|split].
  - repeat constructor. set_solver.
  - cbn. split; [|exact I]. repeat constructor. set_solver.
  - exact I.
Defined.

(** X21.  A configuration file can break the start: when its [handlers]
    item is no dictionary, the overrides for
    production and for development raise [TypeError], which
    [configure_logging] does not catch. *)
Theorem env_overrides_type_error :
  forall app_env default_level custom v,
    app_env = "production" \/ app_env = "development" ->
    NoDup (map fst custom) ->
    Logging.lookup "handlers" custom = Some v ->
    (forall items, v <> Logging.Dict items) ->
    Logging.configured app_env default_level (Some custom) true
    = inl Logging.type_error.
Proof.
  intros app_env default_level custom v Henv Hdup Hv Hkind.
  unfold Logging.configured, Logging.apply_env_overrides.
  assert (forall level,
            Logging.set_level "handlers" "console" level
              (Logging.merge_configs (Logging.get_base_config default_level)
                 custom)
            = inl Logging.type_error) as Hset.
  { intros level. unfold Logging.set_level, Logging.subscript.
    rewrite merge_configs_lookup by exact Hdup. rewrite Hv.
    destruct v; try reflexivity. exfalso. eapply Hkind. reflexivity. }
  destruct Henv as [-> | ->]; cbn [String.eqb Ascii.eqb Bool.eqb];
    rewrite Hset; reflexivity.
Qed.

Lemma env_overrides_type_error_witness :
  Logging.configured "development" 20
    (Some [("handlers", Logging.Str "console")]) true
  = inl Logging.type_error.
Proof.
  apply (env_overrides_type_error "development" 20
           [("handlers", Logging.Str "console")] (Logging.Str "console")).
  - right. reflexivity.
  - repeat constructor. set_solver.
  - reflexivity.
  - intros items H. discriminate H.
Defined.

(** ** services/auth.py: which headers are accepted *)

Section Signature.

#[local] Arguments String.append !s1 s2 : simpl nomatch.

Lemma is_hex_app a b : Auth.is_hex (a ++ b) = Auth.is_hex a && Auth.is_hex b.
Proof.
  induction a as [|c a IH]; [reflexivity|]. simpl.
  rewrite IH, andb_assoc. reflexivity.
Qed.

Lemma is_hex_isascii s : Auth.is_hex s = true -> Py.isascii s = true.
Proof.
  induction s as [|c s IH]; [reflexivity|]. simpl.
  intros H. apply andb_true_iff in H as [Hc Hs]. rewrite (IH Hs), andb_true_r.
  apply Nat.ltb_lt.
  apply orb_true_iff in Hc as [Hc|Hc]; apply andb_true_iff in Hc as [_ Hc];
    apply Nat.leb_le in Hc; lia.
Qed.

(** No occurrence of the marker starts in a text of hexadecimal digits. *)
Lemma replace_from_hex a :
  forall rest,
    Auth.is_hex a = true ->
    Py.replace_from "sha256=" "" 0 (a ++ rest)
    = a ++ Py.replace_from "sha256=" "" 0 rest.
Proof.
  induction a as [|c a IH]; intros rest Ha; [reflexivity|].
  simpl in Ha. apply andb_true_iff in Ha as [Hc Ha].
  simpl String.append. cbn [Py.replace_from].
  assert (String.prefix "sha256=" (String c (a ++ rest)) = false) as ->.
  { cbn [String.prefix].
    destruct (Ascii.ascii_dec "s" c) as [<-|Hne]; [discriminate Hc|].
    reflexivity. }
  rewrite IH by exact Ha. reflexivity.
Qed.

Lemma prefix_app a b : String.prefix a (a ++ b) = true.
Proof.
  induction a as [|c a IH]; [destruct b; reflexivity|].
  simpl. destruct (Ascii.ascii_dec c c) as [_|Hne]; [exact IH|].
  exfalso. apply Hne. reflexivity.
Qed.

Lemma eqb_head a c x y :
  Ascii.eqb a c = false -> String.eqb (String a x) (String c y) = false.
Proof.
  intros H. apply String.eqb_neq. intros E. injection E as -> _.
  rewrite Ascii.eqb_refl in H. discriminate H.
Qed.

Lemma replace_from_cons old new c s :
  Py.replace_from old new 0 (String c s)
  = if String.prefix old (String c s)
    then new ++ Py.replace_from old new (Py.len old - 1) s
    else String c (Py.replace_from old new 0 s).
Proof. reflexivity. Qed.

Lemma replace_hex a :
  Auth.is_hex a = true -> Py.replace "sha256=" "" a = a.
Proof.
  intros Ha. unfold Py.replace.
  rewrite <- (string_app_nil_r a) at 1.
  rewrite replace_from_hex by exact Ha. apply string_app_nil_r.
Qed.

Lemma replace_marker before after :
  Auth.is_hex before = true -> Auth.is_hex after = true ->
  Py.replace "sha256=" "" (before ++ "sha256=" ++ after) = before ++ after.
Proof.
  intros Hb Ha. unfold Py.replace. rewrite replace_from_hex by exact Hb.
  f_equal.
  assert (Py.replace_from "sha256=" "" 0 ("sha256=" ++ after)
          = Py.replace "sha256=" "" after) as ->.
  { change ("sha256=" ++ after) with (String "s" ("ha256=" ++ after)).
    rewrite replace_from_cons.
    assert (String.prefix "sha256=" (String "s" ("ha256=" ++ after)) = true)
      as -> by (apply (prefix_app "sha256=" after)).
    reflexivity. }
  apply replace_hex. exact Ha.
Qed.

(** X22.  [verify_github_webhook] deletes every occurrence of [sha256=]
    from the header before it compares: with a secret that is set, it accepts
    the digest with that marker in front, at any other place, or without it,
    while [verify_webhook_signature] accepts the marker in front only and
    answers 401 to the others. *)
Theorem webhook_marker_anywhere :
  forall hexdigest type_error_text body secret before after,
    secret <> "" ->
    hexdigest secret body = (before ++ after)%string ->
    Auth.is_hex (hexdigest secret body) = true ->
    Auth.verify_github_webhook hexdigest type_error_text
      (Some (before ++ "sha256=" ++ after)) body secret
    = Auth.returns_true
    /\ (before ++ after <> "" ->
        Auth.verify_github_webhook hexdigest type_error_text
          (Some (before ++ after)) body secret
        = Auth.returns_true)
    /\ Auth.verify_webhook_signature hexdigest
         (Some ("sha256=" ++ before ++ after)) body secret
       = Auth.returns_true
    /\ (before <> "" ->
        Auth.verify_webhook_signature hexdigest
          (Some (before ++ "sha256=" ++ after)) body secret
        = Auth.http_exception 401 "Invalid webhook signature"
        /\ Auth.verify_webhook_signature hexdigest
             (Some (before ++ after)) body secret
           = Auth.http_exception 401 "Invalid webhook signature").
Proof.
  intros hexdigest type_error_text body secret before after Hsecret Hdigest
    Hhex.
  rewrite Hdigest, is_hex_app in Hhex.
  apply andb_true_iff in Hhex as [Hb Ha].
  assert (Auth.is_hex (before ++ after) = true) as Hboth
    by (rewrite is_hex_app, Hb, Ha; reflexivity).
  pose proof (is_hex_isascii _ Hboth) as Hascii.
  assert (String.eqb secret "" = false) as Hs
    by (apply String.eqb_neq; exact Hsecret).
  unfold Auth.verify_github_webhook, Auth.verify_webhook_signature,
    Auth.compare_digest.
  cbn [from_option id]. rewrite Hs, Hdigest.
  split; [|split; [|split]].
  - assert (String.eqb (before ++ "sha256=" ++ after) "" = false) as ->
      by (apply (app_not_empty before "s" ("ha256=" ++ after))).
    rewrite replace_marker by assumption.
    rewrite Hascii, String.eqb_refl. reflexivity.
  - intros Hne. apply String.eqb_neq in Hne. rewrite Hne.
    rewrite replace_hex by exact Hboth.
    rewrite Hascii, String.eqb_refl. reflexivity.
  - assert (Py.isascii ("sha256=" ++ before ++ after) = true) as ->
      by (cbn; exact Hascii).
    cbn [String.eqb andb]. cbn. rewrite String.eqb_refl. reflexivity.
  - intros Hne.
    assert (Py.isascii ("sha256=" ++ before ++ after) = true) as ->
      by (cbn; exact Hascii).
    destruct before as [|c before]; [contradiction|].
    cbn in Hb. apply andb_true_iff in Hb as [Hc Hb].
    assert (Ascii.eqb "s" c = false) as Hsc.
    { destruct (Ascii.eqb_spec "s" c) as [<-|]; [discriminate Hc|].
      reflexivity. }
    split.
    + assert (Py.isascii (String c before ++ "sha256=" ++ after) = true)
        as ->.
      { pose proof (is_hex_isascii (String c before)
                      ltac:(cbn; rewrite Hc, Hb; reflexivity)) as H1.
        pose proof (is_hex_isascii after Ha) as H2.
        clear - H1 H2. revert H1.
        generalize (String c before). intros x.
        induction x as [|d x IH]; [intros _; cbn; exact H2|].
        cbn. intros H. apply andb_true_iff in H as [Hd Hx].
        rewrite Hd. apply IH. exact Hx. }
      assert (String.eqb (String c before ++ "sha256=" ++ after) "" = false)
        as -> by reflexivity.
      assert (String.eqb ("sha256=" ++ String c before ++ after)
                (String c before ++ "sha256=" ++ after) = false) as ->
        by exact (eqb_head "s" c ("ha256=" ++ String c before ++ after)
                    (before ++ "sha256=" ++ after) Hsc).
      reflexivity.
    + rewrite Hascii.
      assert (String.eqb (String c before ++ after) "" = false)
        as -> by reflexivity.
      assert (String.eqb ("sha256=" ++ String c before ++ after)
                (String c before ++ after) = false) as ->
        by exact (eqb_head "s" c ("ha256=" ++ String c before ++ after)
                    (before ++ after) Hsc).
      reflexivity.
Qed.

End Signature.

Lemma webhook_marker_anywhere_witness :
  Auth.verify_github_webhook (fun _ _ => "0a1b") "" (Some "0asha256=1b")
    "{}" "secret"
  = Auth.returns_true
  /\ ("0a1b" <> "" ->
      Auth.verify_github_webhook (fun _ _ => "0a1b") "" (Some "0a1b")
        "{}" "secret"
      = Auth.returns_true)
  /\ Auth.verify_webhook_signature (fun _ _ => "0a1b") (Some "sha256=0a1b")
       "{}" "secret"
     = Auth.returns_true
  /\ ("0a" <> "" ->
      Auth.verify_webhook_signature (fun _ _ => "0a1b") (Some "0asha256=1b")
        "{}" "secret"
      = Auth.http_exception 401 "Invalid webhook signature"
      /\ Auth.verify_webhook_signature (fun _ _ => "0a1b") (Some "0a1b")
           "{}" "secret"
         = Auth.http_exception 401 "Invalid webhook signature").
Proof.
  apply (webhook_marker_anywhere (fun _ _ => "0a1b") "" "{}" "secret"
           "0a" "1b").
  - discriminate.
  - reflexivity.
  - reflexivity.
Defined.

(** ** scanner.py: which paths are supported *)

Section Paths.

#[local] Arguments String.append !s1 s2 : simpl nomatch.

Lemma split_from_text c nm :
  forall part,
    Py.count_char c nm = 0%nat ->
    PurePath.split_from c part nm = [(part ++ nm)%string].
Proof.
  induction nm as [|d nm IH]; intros part Hnm.
  - simpl. rewrite string_app_nil_r. reflexivity.
  - simpl in Hnm. simpl. destruct (Ascii.eqb d c); [discriminate Hnm|].
    rewrite IH by exact Hnm. rewrite string_app_assoc. reflexivity.
Qed.

Lemma split_from_separator c a :
  forall part b,
    PurePath.split_from c part (a ++ String c b)
    = (PurePath.split_from c part a ++ PurePath.split_from c "" b)%list.
Proof.
  induction a as [|d a IH]; intros part b; simpl.
  - rewrite Ascii.eqb_refl. reflexivity.
  - destruct (Ascii.eqb d c); [|apply IH].
    rewrite IH. reflexivity.
Qed.

(** The name of a path is its last component. *)
Lemma name_of_file prefix nm :
  prefix = "" \/ (exists dir, prefix = dir ++ "/") ->
  Py.count_char "/" nm = 0%nat -> nm <> "" -> nm <> "." ->
  PurePath.name (prefix ++ nm) = nm.
Proof.
  intros Hprefix Hslash Hne Hdot. unfold PurePath.name, PurePath.parts.
  assert (exists front, PurePath.split "/" (prefix ++ nm) = (front ++ [nm])%list)
    as [front ->].
  { unfold PurePath.split. destruct Hprefix as [-> | [dir ->]].
    - exists []. simpl String.append. apply (split_from_text "/" nm "").
      exact Hslash.
    - exists (PurePath.split_from "/" "" dir).
      rewrite string_app_assoc. change ("/" ++ nm) with (String "/" nm).
      rewrite split_from_separator.
      rewrite (split_from_text "/" nm "") by exact Hslash. reflexivity. }
  rewrite filter_app, filter_cons_True by (split; assumption).
  rewrite filter_nil. apply last_last.
Qed.

Lemma count_char_app c a b :
  Py.count_char c (a ++ b) = (Py.count_char c a + Py.count_char c b)%nat.
Proof.
  induction a as [|d a IH]; [reflexivity|]. simpl.
  destruct (Ascii.eqb d c); rewrite IH; reflexivity.
Qed.

Lemma length_app_string a b :
  String.length (a ++ b) = (String.length a + String.length b)%nat.
Proof. induction a as [|d a IH]; [reflexivity|]. simpl. rewrite IH. reflexivity. Qed.

Lemma lower_app a b : Py.lower (a ++ b) = (Py.lower a ++ Py.lower b)%string.
Proof. induction a as [|d a IH]; [reflexivity|]. simpl. rewrite IH. reflexivity. Qed.

Lemma suffix_of_file prefix stem e :
  prefix = "" \/ (exists dir, prefix = dir ++ "/") ->
  stem <> "" -> e <> "" ->
  Py.count_char "/" stem = 0%nat -> Py.count_char "/" e = 0%nat ->
  Py.count_char "." e = 0%nat ->
  PurePath.suffix (prefix ++ stem ++ "." ++ e) = ("." ++ e)%string.
Proof.
  intros Hprefix Hstem He Hs1 Hs2 Hdot. unfold PurePath.suffix.
  rewrite name_of_file; [|exact Hprefix| | |].
  - assert (Py.rfind_char "." (stem ++ "." ++ e)
            = Z.of_nat (String.length stem)) as ->.
    { rewrite rfind_char_app.
      - change ("." ++ e) with (String "." e). simpl.
        rewrite rfind_char_absent by exact Hdot. simpl. lia.
      - change ("." ++ e) with (String "." e). simpl.
        rewrite rfind_char_absent by exact Hdot. simpl. lia. }
    unfold Py.len. rewrite length_app_string.
    change ("." ++ e) with (String "." e). cbn [String.length].
    destruct stem as [|c stem]; [contradiction|].
    destruct e as [|d e]; [contradiction|].
    cbn [String.length].
    destruct (Z.ltb_spec 0 (Z.of_nat (S (String.length stem)))); [|lia].
    destruct (Z.ltb_spec (Z.of_nat (S (String.length stem)))
                (Z.of_nat (S (String.length stem)
                           + S (S (String.length e))) - 1)); [|lia].
    cbn [andb]. rewrite Nat2Z.id.
    apply (drop_app (String c stem) (String "." (String d e))).
  - rewrite !count_char_app, Hs1, Hs2. reflexivity.
  - destruct stem; [contradiction | discriminate].
  - destruct stem as [|c stem]; [contradiction|].
    destruct stem; discriminate.
Qed.

End Paths.

(** X23.  Whether a file is supported is read off the last component of
    its path alone.  For a name made of a stem that is not empty, a dot and
    an extension without dot, in a directory of any name or in none, the
    suffix is the dot and the extension, and the file is supported exactly
    when the extension, in lower case, is py, js, jsx, ts or tsx.  A name
    that starts with its only dot ([.py]) has no suffix and is not
    supported. *)
Theorem supported_by_extension :
  forall prefix stem e,
    prefix = "" \/ (exists dir, prefix = (dir ++ "/")%string) ->
    e <> "" ->
    Py.count_char "/" stem = 0%nat -> Py.count_char "/" e = 0%nat ->
    Py.count_char "." e = 0%nat ->
    (stem <> "" ->
     PurePath.suffix (prefix ++ stem ++ "." ++ e) = ("." ++ e)%string
     /\ (_is_supported_file (prefix ++ stem ++ "." ++ e) = true
         <-> In (Py.lower e) ["py"; "js"; "jsx"; "ts"; "tsx"]))
    /\ PurePath.suffix (prefix ++ "." ++ e) = ""
    /\ _is_supported_file (prefix ++ "." ++ e) = false.
Proof.
  intros prefix stem e Hprefix He Hs1 Hs2 Hdot. split; [|split].
  - intros Hstem.
    pose proof (suffix_of_file prefix stem e Hprefix Hstem He Hs1 Hs2 Hdot)
      as Hsuffix.
    split; [exact Hsuffix|].
    rewrite supported_file_extension, Hsuffix.
    change ("." ++ e)%string with (String "." e).
    unfold supported_extensions. cbn [Py.lower In].
    change (Py.lower_char ".") with "."%char.
    split.
    + intros [H|[H|[H|[H|[H|[]]]]]]; injection H as <-; cbn; tauto.
    + intros [<-|[<-|[<-|[<-|[<-|[]]]]]]; cbn; tauto.
  - unfold PurePath.suffix.
    rewrite (name_of_file prefix ("." ++ e)); [|exact Hprefix| | |].
    + change ("." ++ e)%string with (String "." e). cbn [Py.rfind_char].
      rewrite (rfind_char_absent "." e Hdot). reflexivity.
    + change ("." ++ e)%string with (String "." e). cbn [Py.count_char].
      rewrite Hs2. reflexivity.
    + discriminate.
    + destruct e; [contradiction | discriminate].
  - unfold _is_supported_file, PurePath.suffix.
    rewrite (name_of_file prefix ("." ++ e)); [|exact Hprefix| | |].
    + change ("." ++ e)%string with (String "." e). cbn [Py.rfind_char].
      rewrite (rfind_char_absent "." e Hdot). reflexivity.
    + change ("." ++ e)%string with (String "." e). cbn [Py.count_char].
      rewrite Hs2. reflexivity.
    + discriminate.
    + destruct e; [contradiction | discriminate].
Qed.

Lemma supported_by_extension_witness :
  ("util" <> "" ->
   PurePath.suffix ("src/lib.py/" ++ "util" ++ "." ++ "TSX") = "." ++ "TSX"
   /\ (_is_supported_file ("src/lib.py/" ++ "util" ++ "." ++ "TSX") = true
       <-> In (Py.lower "TSX") ["py"; "js"; "jsx"; "ts"; "tsx"]))
  /\ PurePath.suffix ("src/lib.py/" ++ "." ++ "TSX") = ""
  /\ _is_supported_file ("src/lib.py/" ++ "." ++ "TSX") = false.
Proof.
  apply (supported_by_extension "src/lib.py/" "util" "TSX").
  - right. exists "src/lib.py". reflexivity.
  - discriminate.
  - reflexivity.
  - reflexivity.
  - reflexivity.
Defined.
